(** * Pharmacovigilance adverse-event processing: escalation engine,
      classifier override gate, audit log and similarity index.

    A shallow embedding of
      - app/services/escalation_engine.py
      - app/services/classifier.py      (rule-based override, predict_single,
                                         predict_batch)
      - app/database/db.py              (schema of audit_log, get_db_stats)
      - app/services/vector_service.py  (indexing and search)
      - app/services/audit_logger.py    (log_processing, retrieval, listing
                                         and summary)

    Numbers.  Python floats are embedded as exact rationals [Q]; an [int]
    that flows into float arithmetic is embedded by [inject_Z].  Rounding
    of binary64 and NaN are therefore outside that model.  Where a
    property turns on them, [EscalationEngine64] gives the escalation
    engine over binary64 floats.

    Strings.  A Python [str] is embedded as [string]; [str.lower] folds the
    ASCII letters and leaves every other code unit as it is.

    Dictionaries.  A [Dict] read with [.get(key, default)] is a
    [gmap string pyval]. *)

From Stdlib Require Import ZArith QArith Qminmax Lqa Bool List Ascii String Lia.
From Stdlib Require Import Sorted Permutation.
From Stdlib Require Floats Uint63.
From stdpp Require Import base option gmap strings list fin_maps.

Import ListNotations.
Local Open Scope string_scope.
Local Open Scope list_scope.
Local Open Scope Z_scope.

(* ===================================================================== *)
(** ** Python values, exceptions and string primitives                    *)
(* ===================================================================== *)

Module Py.

(** The exceptions that the modelled functions raise or catch. *)
Inductive exn : Type :=
| TypeError
| ValueError
| IndexError
| AttributeError
| IntegrityError
| OperationalError
| ProgrammingError
| ClassifierNotLoadedError
| BackendError (msg : string).

(** A call either returns a value or raises. *)
Inductive result (A : Type) : Type :=
| Ok (a : A)
| Raise (e : exn).
Arguments Ok {A} a.
Arguments Raise {A} e.

Definition bind {A B : Type} (r : result A) (k : A -> result B) : result B :=
  match r with
  | Ok a => k a
  | Raise e => Raise e
  end.

Definition is_ok {A : Type} (r : result A) : bool :=
  match r with Ok _ => true | Raise _ => false end.

(** The values found in the dictionaries passed between the services. *)
Inductive pyval : Type :=
| PyNone
| PyFloat (x : Q)
| PyStr (s : string)
| PyList (l : list string).

(** [d.get(key, default)] *)
Definition get (d : gmap string pyval) (key : string) (dflt : pyval) : pyval :=
  match d !! key with
  | Some v => v
  | None => dflt
  end.

(** Truth value of a dictionary: empty is false. *)
Definition dict_truthy (d : gmap string pyval) : bool :=
  negb (bool_decide (d = ∅)).

(** Truth value of an optional string: [None] and [""] are false. *)
Definition str_truthy (s : option string) : bool :=
  match s with
  | None => false
  | Some EmptyString => false
  | Some (String _ _) => true
  end.

(** [c.lower()] on one code unit: 'A'..'Z' go to 'a'..'z'. *)
Definition lower_ascii (c : ascii) : ascii :=
  let n := nat_of_ascii c in
  if (Nat.leb 65 n && Nat.leb n 90)%bool then ascii_of_nat (n + 32) else c.

(** [s.lower()] *)
Fixpoint lower (s : string) : string :=
  match s with
  | EmptyString => EmptyString
  | String c rest => String (lower_ascii c) (lower rest)
  end.

(** [s.startswith(p)] *)
Fixpoint startswith (p s : string) : bool :=
  match p, s with
  | EmptyString, _ => true
  | String _ _, EmptyString => false
  | String a p', String b s' => (Ascii.eqb a b && startswith p' s')%bool
  end.

(** [k in s] for strings: [k] occurs in [s] as a contiguous substring. *)
Fixpoint str_in (k s : string) : bool :=
  (startswith k s ||
   match s with
   | EmptyString => false
   | String _ rest => str_in k rest
   end)%bool.

(** [sep.join(xs)] *)
Fixpoint join (sep : string) (xs : list string) : string :=
  match xs with
  | [] => EmptyString
  | [x] => x
  | x :: rest => x +:+ sep +:+ join sep rest
  end.

(** [max(a, b)] on numbers: the first argument is kept unless the second
    is strictly greater. *)
Definition max2 (a b : Q) : Q :=
  if Qlt_le_dec a b then b else a.

(** Comparison [a >= b] on numbers. *)
Definition ge (a b : Q) : bool := Qle_bool b a.

(** Truth value of a value: [None], [0], [""] and [[]] are false. *)
Definition truthy (v : pyval) : bool :=
  match v with
  | PyNone => false
  | PyFloat x => negb (Qeq_bool x 0)
  | PyStr s => str_truthy (Some s)
  | PyList l => match l with [] => false | _ :: _ => true end
  end.

(** [v or []] *)
Definition or_empty_list (v : pyval) : pyval :=
  if truthy v then v else PyList [].

(** The characters of a string, each as a string of length one. *)
Fixpoint chars (s : string) : list string :=
  match s with
  | EmptyString => []
  | String c rest => String c EmptyString :: chars rest
  end.

(** Iterating over a value that is expected to be a list of strings: a
    list yields its items, a string its characters, anything else is not
    iterable. *)
Definition iter_strings (v : pyval) : result (list string) :=
  match v with
  | PyList l => Ok l
  | PyStr s => Ok (chars s)
  | PyNone | PyFloat _ => Raise TypeError
  end.

(** [l[i]] *)
Definition index {A : Type} (l : list A) (i : nat) : result A :=
  match nth_error l i with
  | Some a => Ok a
  | None => Raise IndexError
  end.

(** What the interpreter and its standard library supply: the rendering
    of a float under the format [.1%], [json.dumps] and [json.loads]. *)
Class Runtime : Type := {
  format_percent1 : Q -> string;
  json_dumps : pyval -> string;
  json_loads : string -> result pyval
}.

End Py.

Import Py.

(* ===================================================================== *)
(** ** app/services/escalation_engine.py                                  *)
(* ===================================================================== *)

Module EscalationEngine.

(** Regulatory seriousness keywords, in the insertion order of the
    dictionary literal. *)
Definition SERIOUS_KEYWORDS : list (string * Z) :=
  [ ("death", 10);
    ("died", 10);
    ("fatal", 10);
    ("life-threatening", 9);
    ("life threatening", 9);
    ("hospitalization", 8);
    ("hospitalisation", 8);
    ("hospitalized", 8);
    ("hospitalised", 8);
    ("inpatient", 7);
    ("disability", 8);
    ("incapacity", 8);
    ("congenital anomaly", 8);
    ("birth defect", 8);
    ("cancer", 7);
    ("overdose", 7);
    ("suicide", 9);
    ("suicidal", 8);
    ("cardiac arrest", 9);
    ("respiratory failure", 9);
    ("coma", 9);
    ("seizure", 7);
    ("anaphylaxis", 8);
    ("anaphylactic", 8);
    ("stroke", 8);
    ("myocardial infarction", 8);
    ("heart attack", 8);
    ("renal failure", 8);
    ("liver failure", 8);
    ("hepatic failure", 8);
    ("sepsis", 8);
    ("shock", 7);
    ("transplant", 7);
    ("surgery required", 7);
    ("surgical intervention", 7);
    ("icu", 8);
    ("intensive care", 8);
    ("ventilator", 8);
    ("intubation", 8);
    ("resuscitation", 9) ].

Definition ESCALATION_THRESHOLD : Q := 0.6.
Definition KEYWORD_WEIGHT : Q := 0.3.

Record EscalationResult : Type := {
  should_escalate : bool;
  final_score : Q;
  ml_probability : Q;
  keyword_score : Q;
  triggered_keywords : list string;
  explanation : string;
  risk_level : string
}.

(** One iteration of the loop of [calculate_keyword_score]: the state is
    [(triggered, max_score)]. *)
Definition keyword_step (text_lower : string)
    (st : list string * Z) (entry : string * Z) : list string * Z :=
  let '(triggered, max_score) := st in
  let '(keyword, score) := entry in
  if str_in keyword text_lower
  then (triggered ++ [keyword], Z.max max_score score)
  else (triggered, max_score).

Definition keyword_loop (table : list (string * Z)) (text_lower : string)
    (st : list string * Z) : list string * Z :=
  fold_left (keyword_step text_lower) table st.

Definition calculate_keyword_score (text : string) : Q * list string :=
  let text_lower := lower text in
  let '(triggered, max_score) :=
    keyword_loop SERIOUS_KEYWORDS text_lower ([], 0) in
  let normalized_score :=
    if 0 <? max_score then (inject_Z max_score / 10)%Q else 0%Q in
  (normalized_score, triggered).

Definition determine_risk_level (score : Q) : string :=
  if ge score 0.85 then "CRITICAL"
  else if ge score 0.7 then "HIGH"
  else if ge score 0.5 then "MEDIUM"
  else "LOW".

Definition newline : string := String (ascii_of_nat 10) EmptyString.

Definition generate_explanation `{Runtime} (result : EscalationResult) : string :=
  let parts1 :=
    [ if should_escalate result
      then "⚠️ ESCALATION REQUIRED - Risk Level: " +:+ risk_level result
      else "✓ No escalation needed - Risk Level: " +:+ risk_level result;
      newline +:+ "Reasoning:";
      "• ML Classification Probability (Serious): "
        +:+ format_percent1 (ml_probability result) ] in
  let parts2 :=
    match triggered_keywords result with
    | _ :: _ =>
        [ "• Regulatory Keywords Detected: "
            +:+ join ", " (triggered_keywords result);
          "• Keyword Severity Score: "
            +:+ format_percent1 (keyword_score result) ]
    | [] => [ "• No regulatory keywords detected" ]
    end in
  let parts3 :=
    [ newline +:+ "Final Combined Score: "
        +:+ format_percent1 (final_score result) ] in
  let parts4 :=
    if should_escalate result then
      match triggered_keywords result with
      | _ :: _ =>
          [ newline +:+ "📋 Action: Report contains serious safety signal(s). Immediate review required." ]
      | [] =>
          [ newline +:+ "📋 Action: ML model indicates elevated seriousness probability. Manual review recommended." ]
      end
    else [] in
  join newline (parts1 ++ parts2 ++ parts3 ++ parts4).

(** The text scanned for keywords: drug name, event text and, when the
    entities dictionary is non-empty and holds a list under "symptoms",
    the symptoms. *)
Definition combined_text (drugname adverse_event : string)
    (entities : option (gmap string pyval)) : string :=
  let base := drugname +:+ " " +:+ adverse_event in
  match entities with
  | Some d =>
      if dict_truthy d then
        match get d "symptoms" (PyList []) with
        | PyList symptoms => base +:+ " " +:+ join " " symptoms
        | _ => base
        end
      else base
  | None => base
  end.

(** Arithmetic and ordering against a float raise [TypeError] on a value
    that is not a number. *)
Definition as_number (v : pyval) : result Q :=
  match v with
  | PyFloat x => Ok x
  | _ => Raise TypeError
  end.

Definition evaluate_escalation `{Runtime}
    (ml_prediction : gmap string pyval)
    (drugname adverse_event : string)
    (entities : option (gmap string pyval)) : result EscalationResult :=
  let ml_prob_v := get ml_prediction "serious_probability" (PyFloat 0.5) in
  let '(keyword_score, triggered_keywords) :=
    calculate_keyword_score (combined_text drugname adverse_event entities) in
  bind (as_number ml_prob_v) (fun ml_prob =>
    let final_score :=
      if ge keyword_score 0.8
      then max2 ml_prob keyword_score
      else ((1 - KEYWORD_WEIGHT) * ml_prob + KEYWORD_WEIGHT * keyword_score)%Q in
    let should_escalate :=
      (ge final_score ESCALATION_THRESHOLD || ge keyword_score 0.8)%bool in
    let risk_level := determine_risk_level final_score in
    let result :=
      {| should_escalate := should_escalate;
         final_score := final_score;
         ml_probability := ml_prob;
         keyword_score := keyword_score;
         triggered_keywords := triggered_keywords;
         explanation := "";
         risk_level := risk_level |} in
    Ok {| should_escalate := should_escalate;
          final_score := final_score;
          ml_probability := ml_prob;
          keyword_score := keyword_score;
          triggered_keywords := triggered_keywords;
          explanation := generate_explanation result;
          risk_level := risk_level |}).

Definition get_serious_keywords : list (string * Z) := SERIOUS_KEYWORDS.

End EscalationEngine.

(* ===================================================================== *)
(** ** app/services/escalation_engine.py, with the floats in binary64     *)
(* ===================================================================== *)

(** The same functions with every float a binary64 value and every
    operation on floats the IEEE 754 one, as Python computes it: NaN
    compares false with everything, [max] keeps its first argument
    unless the second is greater, products, quotients and sums are
    rounded to nearest.  The keyword table, the scan of the text and the
    combined text are those of [EscalationEngine]. *)
Module EscalationEngine64.

Import Stdlib.Floats.PrimFloat.

#[local] Set Warnings "-inexact-float".

(** A value of the [ml_prediction] dictionary. *)
Inductive pyval64 : Type :=
| PyNone64
| PyFloat64 (x : float)
| PyStr64 (s : string)
| PyList64 (l : list string).

(** [d.get(key, default)] *)
Definition get (d : gmap string pyval64) (key : string) (dflt : pyval64)
    : pyval64 :=
  match d !! key with
  | Some v => v
  | None => dflt
  end.

(** [format(x, ".1%")] *)
Class Runtime64 : Type := {
  format_percent1 : float -> string
}.

Definition ESCALATION_THRESHOLD : float := 0.6.
Definition KEYWORD_WEIGHT : float := 0.3.

Record EscalationResult : Type := {
  should_escalate : bool;
  final_score : float;
  ml_probability : float;
  keyword_score : float;
  triggered_keywords : list string;
  explanation : string;
  risk_level : string
}.

(** An [int] that meets a float in an operation is converted first; the
    integers of this module are the weights of the table, 0 and 1. *)
Definition of_int (n : Z) : float := of_uint63 (Uint63.of_Z n).

(** [a >= b]; false when either is NaN. *)
Definition ge (a b : float) : bool := leb b a.

(** [max(a, b)]: [b] when [b > a], else [a]. *)
Definition max2 (a b : float) : float := if ltb a b then b else a.

Definition calculate_keyword_score (text : string) : float * list string :=
  let text_lower := lower text in
  let '(triggered, max_score) :=
    EscalationEngine.keyword_loop EscalationEngine.SERIOUS_KEYWORDS
      text_lower ([], 0) in
  let normalized_score :=
    if 0 <? max_score then (of_int max_score / 10)%float else of_int 0 in
  (normalized_score, triggered).

Definition determine_risk_level (score : float) : string :=
  if ge score 0.85 then "CRITICAL"
  else if ge score 0.7 then "HIGH"
  else if ge score 0.5 then "MEDIUM"
  else "LOW".

Definition generate_explanation `{Runtime64} (result : EscalationResult)
    : string :=
  let parts1 :=
    [ if should_escalate result
      then "⚠️ ESCALATION REQUIRED - Risk Level: " +:+ risk_level result
      else "✓ No escalation needed - Risk Level: " +:+ risk_level result;
      EscalationEngine.newline +:+ "Reasoning:";
      "• ML Classification Probability (Serious): "
        +:+ format_percent1 (ml_probability result) ] in
  let parts2 :=
    match triggered_keywords result with
    | _ :: _ =>
        [ "• Regulatory Keywords Detected: "
            +:+ join ", " (triggered_keywords result);
          "• Keyword Severity Score: "
            +:+ format_percent1 (keyword_score result) ]
    | [] => [ "• No regulatory keywords detected" ]
    end in
  let parts3 :=
    [ EscalationEngine.newline +:+ "Final Combined Score: "
        +:+ format_percent1 (final_score result) ] in
  let parts4 :=
    if should_escalate result then
      match triggered_keywords result with
      | _ :: _ =>
          [ EscalationEngine.newline +:+ "📋 Action: Report contains serious safety signal(s). Immediate review required." ]
      | [] =>
          [ EscalationEngine.newline +:+ "📋 Action: ML model indicates elevated seriousness probability. Manual review recommended." ]
      end
    else [] in
  join EscalationEngine.newline (parts1 ++ parts2 ++ parts3 ++ parts4).

(** Arithmetic and ordering against a float raise [TypeError] on a value
    that is not a number. *)
Definition as_number (v : pyval64) : result float :=
  match v with
  | PyFloat64 x => Ok x
  | _ => Raise TypeError
  end.

Definition evaluate_escalation `{Runtime64}
    (ml_prediction : gmap string pyval64)
    (drugname adverse_event : string)
    (entities : option (gmap string pyval)) : result EscalationResult :=
  let ml_prob_v := get ml_prediction "serious_probability" (PyFloat64 0.5) in
  let '(keyword_score, triggered_keywords) :=
    calculate_keyword_score
      (EscalationEngine.combined_text drugname adverse_event entities) in
  bind (as_number ml_prob_v) (fun ml_prob =>
    let final_score :=
      if ge keyword_score 0.8
      then max2 ml_prob keyword_score
      else ((of_int 1 - KEYWORD_WEIGHT) * ml_prob
            + KEYWORD_WEIGHT * keyword_score)%float in
    let should_escalate :=
      (ge final_score ESCALATION_THRESHOLD || ge keyword_score 0.8)%bool in
    let risk_level := determine_risk_level final_score in
    let result :=
      {| should_escalate := should_escalate;
         final_score := final_score;
         ml_probability := ml_prob;
         keyword_score := keyword_score;
         triggered_keywords := triggered_keywords;
         explanation := "";
         risk_level := risk_level |} in
    Ok {| should_escalate := should_escalate;
          final_score := final_score;
          ml_probability := ml_prob;
          keyword_score := keyword_score;
          triggered_keywords := triggered_keywords;
          explanation := generate_explanation result;
          risk_level := risk_level |}).

End EscalationEngine64.

(* ===================================================================== *)
(** ** app/services/classifier.py                                         *)
(* ===================================================================== *)

Module Classifier.

(** The rule-based safety layer: a list, separate from the table of the
    escalation engine. *)
Definition SERIOUS_KEYWORDS : list string :=
  [ "hospital"; "hospitalized"; "hospitalised"; "admitted"; "admission";
    "icu"; "intensive care"; "critical care"; "ccu";
    "death"; "died"; "fatal"; "expired"; "mortality";
    "life threatening"; "life-threatening";
    "cardiac arrest"; "respiratory arrest";
    "shock"; "septic shock"; "anaphylaxis";
    "gastrointestinal bleeding"; "gi bleeding"; "gi bleed";
    "melena"; "black tarry stools";
    "hematemesis"; "vomiting blood";
    "hemorrhage"; "haemorrhage"; "bleeding requiring transfusion";
    "blood transfusion"; "transfusion";
    "hematuria"; "blood in urine";
    "hemoptysis"; "coughing up blood";
    "rectal bleeding";
    "intracranial hemorrhage"; "intracranial haemorrhage";
    "brain bleed"; "cerebral hemorrhage";
    "stroke"; "cva"; "subarachnoid hemorrhage";
    "myocardial infarction"; "heart attack";
    "ventricular fibrillation"; "ventricular tachycardia";
    "cardiac arrhythmia"; "asystole";
    "acute renal failure"; "kidney failure";
    "acute liver failure"; "hepatic failure";
    "respiratory failure"; "ventilator"; "intubated";
    "anaphylactic shock"; "stevens-johnson syndrome"; "sjs";
    "toxic epidermal necrolysis"; "ten";
    "congenital anomaly"; "birth defect"; "teratogenic";
    "permanent disability"; "paralysis"; "blindness"; "coma";
    "emergency surgery"; "urgent surgery";
    "intubation"; "mechanical ventilation";
    "severe anemia"; "hemoglobin drop";
    "coagulopathy"; "overdose"; "toxicity" ].

Definition SERIOUS_THRESHOLD : Q := 0.30.

Definition rule_based_serious_override (text : string) : bool :=
  let text := lower text in
  existsb (fun k => str_in k text) SERIOUS_KEYWORDS.

(** The trained estimator and vectorizer, as far as this module uses
    them. *)
Class Estimator : Type := {
  sk_model : Type;
  sk_vectorizer : Type;
  sk_features : Type;
  transform : sk_vectorizer -> list string -> result sk_features;
  predict_proba : sk_model -> sk_features -> result (list (list Q));
  classes_ : sk_model -> list string
}.

(** A pickle on disk: absent, present but not loadable, or loadable. *)
Inductive pickle (A : Type) : Type :=
| NoFile
| BadFile
| GoodFile (a : A).
Arguments NoFile {A}.
Arguments BadFile {A}.
Arguments GoodFile {A} a.

Definition exists_ {A : Type} (f : pickle A) : bool :=
  match f with NoFile => false | _ => true end.

Record disk `{Estimator} : Type := {
  MODEL_PATH : pickle sk_model;
  VECTORIZER_PATH : pickle sk_vectorizer
}.

(** The module globals [_model] and [_vectorizer]. *)
Record globals `{Estimator} : Type := {
  _model : option sk_model;
  _vectorizer : option sk_vectorizer
}.

Definition load_model `{Estimator} (d : disk) (g : globals) : bool * globals :=
  if (negb (exists_ (MODEL_PATH d)) || negb (exists_ (VECTORIZER_PATH d)))%bool
  then (false, g)
  else
    match MODEL_PATH d with
    | GoodFile m =>
        let g1 := {| _model := Some m; _vectorizer := _vectorizer g |} in
        match VECTORIZER_PATH d with
        | GoodFile v => (true, {| _model := Some m; _vectorizer := Some v |})
        | _ => (false, g1)
        end
    | _ => (false, g)
    end.

Definition is_model_loaded `{Estimator} (g : globals) : bool :=
  (bool_decide (is_Some (_model g)) && bool_decide (is_Some (_vectorizer g)))%bool.

(** [list(classes).index('Serious') if 'Serious' in classes else 1] *)
Fixpoint index_of (x : string) (l : list string) : option nat :=
  match l with
  | [] => None
  | y :: rest => if String.eqb x y then Some O else option_map S (index_of x rest)
  end.

(** [max(xs)] of a non-empty sequence of numbers. *)
Definition max_list (xs : list Q) : result Q :=
  match xs with
  | [] => Raise ValueError
  | x :: rest => Ok (fold_left max2 rest x)
  end.

Definition override_prediction : gmap string pyval :=
  {[ "prediction" := PyStr "Serious";
     "serious_probability" := PyFloat 1.0;
     "non_serious_probability" := PyFloat 0.0;
     "confidence" := PyFloat 1.0;
     "reason" := PyStr "Rule-based override: high-risk keyword detected" ]}.

(** The statistical path of [predict_single], once the globals are
    known to be loaded. *)
Definition predict_with_model `{Estimator} (g : globals) (text : string)
    : result (gmap string pyval) :=
  match _vectorizer g, _model g with
  | Some vectorizer, Some model =>
      bind (transform vectorizer [text]) (fun X =>
      bind (predict_proba model X) (fun proba =>
      bind (index proba 0) (fun probabilities =>
      let classes := classes_ model in
      let serious_idx :=
        match index_of "Serious" classes with
        | Some i => i
        | None => 1%nat
        end in
      bind (index probabilities serious_idx) (fun serious_prob =>
      let prediction :=
        if ge serious_prob SERIOUS_THRESHOLD then "Serious" else "Non-Serious" in
      bind (max_list probabilities) (fun confidence =>
      Ok ({[ "prediction" := PyStr prediction;
             "serious_probability" := PyFloat serious_prob;
             "non_serious_probability" := PyFloat (1 - serious_prob)%Q;
             "confidence" := PyFloat confidence;
             "reason" := PyStr "ML classifier" ]} : gmap string pyval))))))
  | _, _ => Raise AttributeError
  end.

Definition predict_single `{Estimator} (d : disk) (g : globals) (text : string)
    : result (gmap string pyval) * globals :=
  let '(loaded, g1) :=
    if is_model_loaded g then (true, g) else load_model d g in
  if negb loaded then (Raise ClassifierNotLoadedError, g1)
  else if rule_based_serious_override text then (Ok override_prediction, g1)
  else (predict_with_model g1 text, g1).

End Classifier.

(* ===================================================================== *)
(** ** app/database/db.py and the SQLite statements of the repository     *)
(* ===================================================================== *)

Module Db.

(** A stored value. *)
Inductive sqlval : Type :=
| SqlNull
| SqlInteger (z : Z)
| SqlReal (x : Q)
| SqlText (s : string).

(** The column declarations that occur in [audit_log]. *)
Inductive coltype : Type :=
| INTEGER_PRIMARY_KEY_AUTOINCREMENT
| TEXT
| REAL.

Inductive coldefault : Type :=
| NoDefault
| DefaultLiteral (v : sqlval)
| DefaultCurrentTimestamp.

Record column : Type := {
  col_name : string;
  col_type : coltype;
  col_not_null : bool;
  col_default : coldefault
}.

(** A table keeps its own declaration: [CREATE TABLE IF NOT EXISTS]
    leaves an existing table as it is.  Rows are kept in row-id order;
    [tbl_sequence] is the largest row id handed out so far. *)
Record table : Type := {
  tbl_columns : list column;
  tbl_rows : list (list sqlval);
  tbl_sequence : Z
}.

(** The database file at [DB_PATH]: its tables by name.  Names of
    tables, columns and indexes are compared as they are written; SQLite
    folds the ASCII letters, so a file is taken to spell them as the
    statements of the repository do, in lower case. *)
Abbreviation database := (gmap string table).

(** The conversions between numbers and text that SQLite applies when a
    value is stored in a column of another storage class. *)
Class SqliteEngine : Type := {
  real_to_text : Q -> string;
  integer_to_text : Z -> string;
  text_to_real : string -> option Q
}.

(** The readings of the wall clock that one call observes:
    [CURRENT_TIMESTAMP] of SQLite and [datetime.utcnow().isoformat()]. *)
Record clock : Type := {
  current_timestamp : string;
  utcnow_isoformat : string
}.

Definition mk_column (name : string) (ty : coltype) (not_null : bool) : column :=
  {| col_name := name; col_type := ty; col_not_null := not_null;
     col_default := NoDefault |}.

(** The declaration of [audit_log] in [init_database]. *)
Definition audit_log_columns : list column :=
  [ mk_column "id" INTEGER_PRIMARY_KEY_AUTOINCREMENT false;
    mk_column "report_id" TEXT true;
    mk_column "timestamp" TEXT true;
    mk_column "drugname" TEXT true;
    mk_column "adverse_event" TEXT true;
    mk_column "ml_prediction" TEXT false;
    mk_column "ml_probability" REAL false;
    mk_column "extracted_drug" TEXT false;
    mk_column "extracted_symptoms" TEXT false;
    mk_column "escalation_decision" TEXT false;
    mk_column "risk_level" TEXT false;
    mk_column "final_score" REAL false;
    mk_column "triggered_keywords" TEXT false;
    mk_column "explanation" TEXT false;
    mk_column "processing_time_ms" REAL false ].

Definition has_column (t : table) (name : string) : bool :=
  existsb (fun c => String.eqb name (col_name c)) (tbl_columns t).

(** [CREATE TABLE IF NOT EXISTS audit_log (...)]: a table of that name
    is left as it is; an index of that name is an error; otherwise the
    table is created empty.  [indexes] are the names of the indexes of
    the file: an index changes no result of a query, and only
    [init_database] reads or writes them. *)
Definition create_audit_log_if_not_exists (indexes : gset string)
    (db : database) : result database :=
  match db !! "audit_log" with
  | Some _ => Ok db
  | None =>
      if bool_decide ("audit_log" ∈ indexes) then Raise OperationalError
      else Ok (<["audit_log" := {| tbl_columns := audit_log_columns;
                                   tbl_rows := [];
                                   tbl_sequence := 0 |}]> db)
  end.

(** [CREATE INDEX IF NOT EXISTS name ON tbl(col)]: the table must exist
    and no table may bear the name of the index; an index of that name
    is left as it is, whatever it indexes; otherwise the column must
    exist. *)
Definition create_index_if_not_exists (name tbl col : string)
    (indexes : gset string) (db : database) : result (gset string) :=
  match db !! tbl with
  | None => Raise OperationalError
  | Some t =>
      if bool_decide (is_Some (db !! name)) then Raise OperationalError
      else if bool_decide (name ∈ indexes) then Ok indexes
      else if has_column t col then Ok ({[ name ]} ∪ indexes)
      else Raise OperationalError
  end.

(** [init_database]: the four statements in turn.  Each statement is
    committed as it runs, so the statements before a failing one keep
    their effect; the exception is not caught. *)
Definition init_database (indexes : gset string) (db : database)
    : result unit * (gset string * database) :=
  match create_audit_log_if_not_exists indexes db with
  | Raise e => (Raise e, (indexes, db))
  | Ok db1 =>
  match create_index_if_not_exists "idx_audit_timestamp" "audit_log"
          "timestamp" indexes db1 with
  | Raise e => (Raise e, (indexes, db1))
  | Ok indexes1 =>
  match create_index_if_not_exists "idx_audit_report_id" "audit_log"
          "report_id" indexes1 db1 with
  | Raise e => (Raise e, (indexes1, db1))
  | Ok indexes2 =>
  match create_index_if_not_exists "idx_audit_risk_level" "audit_log"
          "risk_level" indexes2 db1 with
  | Raise e => (Raise e, (indexes2, db1))
  | Ok indexes3 => (Ok tt, (indexes3, db1))
  end end end end.

(** How sqlite3 binds a Python value to a [?] placeholder. *)
Definition bind_param (v : pyval) : result sqlval :=
  match v with
  | PyNone => Ok SqlNull
  | PyFloat x => Ok (SqlReal x)
  | PyStr s => Ok (SqlText s)
  | PyList _ => Raise ProgrammingError
  end.

Fixpoint bind_params (vs : list pyval) : result (list sqlval) :=
  match vs with
  | [] => Ok []
  | v :: rest =>
      bind (bind_param v) (fun x =>
      bind (bind_params rest) (fun xs => Ok (x :: xs)))
  end.

(** Column affinity, applied to a value on its way into a column. *)
Definition apply_affinity `{SqliteEngine} (ty : coltype) (v : sqlval) : sqlval :=
  match ty, v with
  | TEXT, SqlInteger z => SqlText (integer_to_text z)
  | TEXT, SqlReal x => SqlText (real_to_text x)
  | REAL, SqlInteger z => SqlReal (inject_Z z)
  | REAL, SqlText s =>
      match text_to_real s with
      | Some x => SqlReal x
      | None => SqlText s
      end
  | _, _ => v
  end.

Fixpoint assoc {A : Type} (key : string) (l : list (string * A)) : option A :=
  match l with
  | [] => None
  | (k, a) :: rest => if String.eqb key k then Some a else assoc key rest
  end.

Definition default_value (clk : clock) (d : coldefault) : sqlval :=
  match d with
  | NoDefault => SqlNull
  | DefaultLiteral v => v
  | DefaultCurrentTimestamp => SqlText (current_timestamp clk)
  end.

Definition is_null (v : sqlval) : bool :=
  match v with SqlNull => true | _ => false end.

(** The value that a new row gets in column [c]: the next row id for the
    row-id column (no statement of the repository supplies one), else
    the supplied value or the column default, under the column's
    affinity. *)
Definition new_cell `{SqliteEngine} (clk : clock) (rowid : Z)
    (supplied : list (string * sqlval)) (c : column) : sqlval :=
  match col_type c with
  | INTEGER_PRIMARY_KEY_AUTOINCREMENT => SqlInteger rowid
  | ty =>
      match assoc (col_name c) supplied with
      | Some v => apply_affinity ty v
      | None => apply_affinity ty (default_value clk (col_default c))
      end
  end.

Definition violates_not_null (c : column) (v : sqlval) : bool :=
  (col_not_null c && is_null v)%bool.

(** [INSERT INTO t (names...) VALUES (?...)]: an unknown column is an
    [OperationalError], a NULL in a [NOT NULL] column an
    [IntegrityError]; otherwise the row is appended. *)
Definition insert_row `{SqliteEngine} (clk : clock) (t : table)
    (supplied : list (string * sqlval)) : result table :=
  if negb (forallb (fun kv => has_column t (fst kv)) supplied)
  then Raise OperationalError
  else
    let rowid := tbl_sequence t + 1 in
    let row := map (new_cell clk rowid supplied) (tbl_columns t) in
    if existsb (fun cv => violates_not_null (fst cv) (snd cv))
               (combine (tbl_columns t) row)
    then Raise IntegrityError
    else Ok {| tbl_columns := tbl_columns t;
               tbl_rows := tbl_rows t ++ [row];
               tbl_sequence := rowid |}.

Definition sqlval_eqb (a b : sqlval) : bool :=
  match a, b with
  | SqlInteger x, SqlInteger y => Z.eqb x y
  | SqlReal x, SqlReal y => Qeq_bool x y
  | SqlInteger x, SqlReal y | SqlReal y, SqlInteger x => Qeq_bool (inject_Z x) y
  | SqlText x, SqlText y => String.eqb x y
  | _, _ => false
  end.

(** Position of a column in the declaration. *)
Fixpoint column_index (name : string) (cols : list column) : option nat :=
  match cols with
  | [] => None
  | c :: rest =>
      if String.eqb name (col_name c) then Some O
      else option_map S (column_index name rest)
  end.

(** [dict(row)] for a row of [SELECT *]: the column names, in the order
    of the declaration, with the cells of the row.  A key is read with
    [assoc]. *)
Definition row_dict (t : table) (row : list sqlval) : list (string * sqlval) :=
  combine (map col_name (tbl_columns t)) row.

(** [SELECT * FROM t WHERE name = ?], rows in row-id order.  The
    column's affinity is applied to the bound value before comparing. *)
Definition select_where_eq `{SqliteEngine} (t : table) (name : string)
    (param : sqlval) : result (list (list sqlval)) :=
  match column_index name (tbl_columns t) with
  | None => Raise OperationalError
  | Some i =>
      let ty := match nth_error (tbl_columns t) i with
                | Some c => col_type c
                | None => TEXT
                end in
      let wanted := apply_affinity ty param in
      Ok (List.filter (fun row => sqlval_eqb (nth i row SqlNull) wanted)
                      (tbl_rows t))
  end.

End Db.

(* ===================================================================== *)
(** ** app/services/vector_service.py                                     *)
(* ===================================================================== *)

Module VectorService.

(** What [collection.query] returns: for each query embedding, the ids,
    metadata, distances and documents of its nearest entries. *)
Record query_results : Type := {
  ids : list (list string);
  metadatas : list (list (gmap string pyval));
  distances : list (list Q);
  documents : list (list string)
}.

(** The sentence-transformer and the Chroma collection.  Loading the
    model, opening the collection and each call on it may raise. *)
Class VectorBackend : Type := {
  embedding : Type;
  collection : Type;
  create_embedding : string -> result embedding;
  collection_upsert :
    collection -> string -> embedding -> string -> gmap string pyval
    -> result collection;
  collection_query :
    collection -> embedding -> Z -> option (gmap string pyval)
    -> result query_results
}.

(** What the repository relies on from a Chroma collection: it holds its
    entries under ids, [upsert] refuses the empty id and adds no id but
    the one it is given, and a query returns ids that the collection
    holds. *)
Class ChromaCollection `{VectorBackend} : Type := {
  collection_ids : collection -> list string;
  upsert_refuses_empty_id :
    forall coll emb document metadata,
      is_ok (collection_upsert coll "" emb document metadata) = false;
  upsert_ids :
    forall coll id emb document metadata coll',
      collection_upsert coll id emb document metadata = Ok coll' ->
      forall x, In x (collection_ids coll') ->
                x = id \/ In x (collection_ids coll);
  query_ids :
    forall coll emb n_results where_ results,
      collection_query coll emb n_results where_ = Ok results ->
      forall first, In first (ids results) ->
      forall x, In x first -> In x (collection_ids coll)
}.

(** [sep.join(v)] on a value: a string is joined character by character. *)
Definition join_value (sep : string) (v : pyval) : result string :=
  bind (iter_strings v) (fun xs => Ok (join sep xs)).

Definition build_canonical_embedding_text
    (drugname adverse_event risk_level escalation_decision : string)
    (symptoms : pyval) : result string :=
  bind (if truthy symptoms then join_value ", " symptoms
        else Ok "None extracted") (fun symptoms_text =>
  Ok ("Drug: " +:+ drugname +:+ EscalationEngine.newline +:+
      "Event: " +:+ adverse_event +:+ EscalationEngine.newline +:+
      "Symptoms: " +:+ symptoms_text +:+ EscalationEngine.newline +:+
      "Risk: " +:+ risk_level +:+ EscalationEngine.newline +:+
      "Decision: " +:+ escalation_decision)).

(** The body of the [try] block of [index_audit_event]. *)
Definition index_audit_event_body `{Runtime} `{VectorBackend}
    (utcnow : string) (coll : collection)
    (report_id drugname adverse_event risk_level escalation_decision : string)
    (symptoms : pyval) (ml_probability : pyval) (timestamp : option string)
    : result collection :=
  bind (build_canonical_embedding_text drugname adverse_event risk_level
          escalation_decision (or_empty_list symptoms)) (fun embedding_text =>
  bind (create_embedding embedding_text) (fun emb =>
  let metadata : gmap string pyval :=
    {[ "report_id" := PyStr report_id;
       "drugname" := PyStr drugname;
       "risk_level" := PyStr risk_level;
       "escalation_decision" := PyStr escalation_decision;
       "ml_probability" := ml_probability;
       "timestamp" := PyStr (if str_truthy timestamp
                             then default "" timestamp else utcnow);
       "symptoms" := PyStr (json_dumps (or_empty_list symptoms)) ]} in
  collection_upsert coll report_id emb embedding_text metadata)).

(** [index_audit_event]: every exception is caught and reported as
    [False]; the collection is then left as it was. *)
Definition index_audit_event `{Runtime} `{VectorBackend}
    (utcnow : string) (coll : collection)
    (report_id drugname adverse_event risk_level escalation_decision : string)
    (symptoms : pyval) (ml_probability : pyval) (timestamp : option string)
    : bool * collection :=
  match index_audit_event_body utcnow coll report_id drugname adverse_event
          risk_level escalation_decision symptoms ml_probability timestamp with
  | Ok coll' => (true, coll')
  | Raise _ => (false, coll)
  end.

(** [json.loads(metadata.get("symptoms", "[]"))], with [[]] on any
    exception. *)
Definition stored_symptoms `{Runtime} (metadata : gmap string pyval) : pyval :=
  match get metadata "symptoms" (PyStr "[]") with
  | PyStr s =>
      match json_loads s with
      | Ok v => v
      | Raise _ => PyList []
      end
  | _ => PyList []
  end.

(** The comprehension that keeps the stored symptoms which occur, up to
    case, among the query symptoms.  The inner list is only built when
    there is a stored symptom to test. *)
Definition matched_symptoms (symptoms query_symptoms : pyval)
    : result (list string) :=
  bind (iter_strings symptoms) (fun ss =>
  match ss with
  | [] => Ok []
  | _ :: _ =>
      bind (iter_strings (or_empty_list query_symptoms)) (fun qs =>
      Ok (List.filter
            (fun s => existsb (String.eqb (lower s)) (map lower qs)) ss))
  end).

(** One hit of the query, as the dictionary that the search returns. *)
Definition similar_event `{Runtime} (results : query_results)
    (query_symptoms : pyval) (i : nat) (report_id : string)
    : result (gmap string pyval) :=
  bind (index (metadatas results) 0) (fun ms =>
  bind (index ms i) (fun metadata =>
  bind (index (distances results) 0) (fun ds =>
  bind (index ds i) (fun distance =>
  bind (index (documents results) 0) (fun docs =>
  bind (index docs i) (fun document =>
  let symptoms := stored_symptoms metadata in
  bind (matched_symptoms symptoms query_symptoms) (fun matched =>
  Ok ({[ "report_id" := PyStr report_id;
         "drugname" := get metadata "drugname" (PyStr "");
         "risk_level" := get metadata "risk_level" (PyStr "UNKNOWN");
         "timestamp" := get metadata "timestamp" (PyStr "");
         "ml_probability" := get metadata "ml_probability" (PyFloat 0.0);
         "all_symptoms" := symptoms;
         "matched_symptoms" := PyList matched;
         "vector_distance" := PyFloat distance;
         "canonical_text" := PyStr document ]} : gmap string pyval)))))))).

(** The loop over [enumerate(results["ids"][0])]: the current report is
    skipped, and the loop is left as soon as [top_k] events are
    collected. *)
Fixpoint search_loop `{Runtime} (results : query_results)
    (query_symptoms : pyval) (current_report_id : option string) (top_k : Z)
    (items : list (nat * string)) (similar_events : list (gmap string pyval))
    : result (list (gmap string pyval)) :=
  match items with
  | [] => Ok similar_events
  | (i, report_id) :: rest =>
      if (str_truthy current_report_id
          && bool_decide (Some report_id = current_report_id))%bool
      then search_loop results query_symptoms current_report_id top_k rest
             similar_events
      else
        bind (similar_event results query_symptoms i report_id) (fun ev =>
        let similar_events := similar_events ++ [ev] in
        if Z.of_nat (length similar_events) >=? top_k
        then Ok similar_events
        else search_loop results query_symptoms current_report_id top_k rest
               similar_events)
  end.

(** [enumerate(l)] *)
Definition enumerate {A : Type} (l : list A) : list (nat * A) :=
  combine (seq 0 (length l)) l.

(** The body of the [try] block of [search_similar_events]. *)
Definition search_similar_events_body `{Runtime} `{VectorBackend}
    (coll : collection)
    (query_drugname query_event : string) (query_symptoms : pyval)
    (query_risk_level : option string) (current_report_id : option string)
    (top_k : Z) (escalated_only : bool)
    : result (list (gmap string pyval)) :=
  bind (build_canonical_embedding_text query_drugname query_event
          (if str_truthy query_risk_level
           then default "" query_risk_level else "UNKNOWN")
          "QUERY" query_symptoms) (fun query_text =>
  bind (create_embedding query_text) (fun query_embedding =>
  let where_filter : gmap string pyval :=
    if escalated_only
    then {[ "escalation_decision" := PyStr "ESCALATE" ]}
    else ∅ in
  bind (collection_query coll query_embedding (top_k + 10)
          (if dict_truthy where_filter then Some where_filter else None))
       (fun results =>
  match ids results with
  | (_ :: _) as first :: _ =>
      search_loop results query_symptoms current_report_id top_k
        (enumerate first) []
  | _ => Ok []
  end))).

(** [search_similar_events]: any exception yields the empty list. *)
Definition search_similar_events `{Runtime} `{VectorBackend}
    (coll : collection)
    (query_drugname query_event : string) (query_symptoms : pyval)
    (query_risk_level : option string) (current_report_id : option string)
    (top_k : Z) (escalated_only : bool)
    : list (gmap string pyval) :=
  match search_similar_events_body coll query_drugname query_event
          query_symptoms query_risk_level current_report_id top_k
          escalated_only with
  | Ok similar_events => similar_events
  | Raise _ => []
  end.

End VectorService.

(* ===================================================================== *)
(** ** app/services/audit_logger.py                                       *)
(* ===================================================================== *)

Module AuditLogger.

Import EscalationEngine Db VectorService.

Definition escalation_decision (escalation_result : EscalationResult) : string :=
  if should_escalate escalation_result then "ESCALATE" else "NO_ESCALATE".

(** The thirteen columns named by the [INSERT] of [log_processing] and
    the values bound to them. *)
Definition insert_parameters `{Runtime}
    (report_id drugname adverse_event : string)
    (ml_prediction entities : gmap string pyval)
    (escalation_result : EscalationResult) (processing_time_ms : Q)
    : list (string * pyval) :=
  [ ("report_id", PyStr report_id);
    ("drugname", PyStr drugname);
    ("adverse_event", PyStr adverse_event);
    ("ml_prediction", get ml_prediction "prediction" (PyStr ""));
    ("ml_probability", get ml_prediction "serious_probability" (PyFloat 0));
    ("extracted_drug", get entities "drug" (PyStr ""));
    ("extracted_symptoms",
       PyStr (json_dumps (get entities "symptoms" (PyList []))));
    ("escalation_decision", PyStr (escalation_decision escalation_result));
    ("risk_level", PyStr (risk_level escalation_result));
    ("final_score", PyFloat (final_score escalation_result));
    ("triggered_keywords",
       PyStr (json_dumps (PyList (triggered_keywords escalation_result))));
    ("explanation", PyStr (explanation escalation_result));
    ("processing_time_ms", PyFloat processing_time_ms) ].

(** The [with get_connection()] block of [log_processing]: execute the
    [INSERT] and commit. *)
Definition insert_audit_log `{Runtime} `{SqliteEngine}
    (clk : clock) (db : database)
    (report_id drugname adverse_event : string)
    (ml_prediction entities : gmap string pyval)
    (escalation_result : EscalationResult) (processing_time_ms : Q)
    : result database :=
  let params := insert_parameters report_id drugname adverse_event
                  ml_prediction entities escalation_result processing_time_ms in
  bind (bind_params (map snd params)) (fun values =>
  match db !! "audit_log" with
  | None => Raise OperationalError
  | Some t =>
      bind (insert_row clk t (combine (map fst params) values)) (fun t' =>
      Ok (<["audit_log" := t']> db))
  end).

(** [log_processing]: the audit row first; then, in a [try] of its own,
    the vector index.  Any exception of the first part gives [False] and
    leaves the database as it was.  [index_audit_event] catches every
    exception itself, so the handler around its call is never entered,
    and its result is dropped. *)
Definition log_processing `{Runtime} `{SqliteEngine} `{VectorBackend}
    (clk : clock) (db : database) (coll : collection)
    (report_id drugname adverse_event : string)
    (ml_prediction entities : gmap string pyval)
    (escalation_result : EscalationResult) (processing_time_ms : Q)
    : bool * database * collection :=
  match insert_audit_log clk db report_id drugname adverse_event
          ml_prediction entities escalation_result processing_time_ms with
  | Ok db' =>
      let '(_, coll') :=
        index_audit_event (utcnow_isoformat clk) coll
          report_id drugname adverse_event
          (risk_level escalation_result)
          (escalation_decision escalation_result)
          (get entities "symptoms" (PyList []))
          (get ml_prediction "serious_probability" (PyFloat 0))
          (Some (utcnow_isoformat clk)) in
      (true, db', coll')
  | Raise _ => (false, db, coll)
  end.

(** [get_audit_by_report_id]: the first row of
    [SELECT * FROM audit_log WHERE report_id = ?] as a dictionary, or
    [None].  Exceptions of the query are not caught here. *)
Definition get_audit_by_report_id `{SqliteEngine} (db : database)
    (report_id : string) : result (option (list (string * sqlval))) :=
  match db !! "audit_log" with
  | None => Raise OperationalError
  | Some t =>
      bind (select_where_eq t "report_id" (SqlText report_id)) (fun rows =>
      match rows with
      | row :: _ => Ok (Some (row_dict t row))
      | [] => Ok None
      end)
  end.

(** [row.get(key)] *)
Definition get_or_none (d : gmap string pyval) (key : string) : pyval :=
  get d key PyNone.

(** [get_similar_serious_events_vector]: the events of the search,
    re-keyed for the response. *)
Definition get_similar_serious_events_vector `{Runtime} `{VectorBackend}
    (coll : collection)
    (drugname adverse_event : string) (current_symptoms : pyval)
    (risk_level : string) (current_report_id : string) (limit : Z)
    : list (gmap string pyval) :=
  let raw_results :=
    search_similar_events coll drugname adverse_event current_symptoms
      (Some risk_level) (Some current_report_id) limit true in
  map (fun row =>
         ({[ "report_id" := get_or_none row "report_id";
             "drugname" := get_or_none row "drugname";
             "adverse_event" := get row "canonical_text" (PyStr "");
             "timestamp" := get_or_none row "timestamp";
             "risk_level" := get_or_none row "risk_level";
             "ml_probability" := get_or_none row "ml_probability";
             "final_score" := PyNone;
             "matched_symptoms" := get row "matched_symptoms" (PyList []) ]}
          : gmap string pyval))
      raw_results.

End AuditLogger.

(* ===================================================================== *)
(** ** app/services/classifier.py: predict_batch                          *)
(* ===================================================================== *)

Module ClassifierBatch.

Import Classifier VectorService.

(** The dictionary built for one row of probabilities. *)
Definition ml_prediction (serious_prob confidence : Q) : gmap string pyval :=
  {[ "prediction" := PyStr (if ge serious_prob SERIOUS_THRESHOLD
                            then "Serious" else "Non-Serious");
     "serious_probability" := PyFloat serious_prob;
     "non_serious_probability" := PyFloat (1 - serious_prob)%Q;
     "confidence" := PyFloat confidence;
     "reason" := PyStr "ML classifier" ]}.

(** The loop [for j, probs in enumerate(probabilities)]: row [j] fills
    the slot [idx_map[j]] of [results]. *)
Fixpoint fill_results (serious_idx : nat) (idx_map : list nat)
    (rows : list (nat * list Q)) (results : list (option (gmap string pyval)))
    : result (list (option (gmap string pyval))) :=
  match rows with
  | [] => Ok results
  | (j, probs) :: rest =>
      bind (index probs serious_idx) (fun serious_prob =>
      bind (max_list probs) (fun confidence =>
      bind (index idx_map j) (fun i =>
      if Nat.ltb i (length results)
      then fill_results serious_idx idx_map rest
             (<[i := Some (ml_prediction serious_prob confidence)]> results)
      else Raise IndexError)))
  end.

(** The part of [predict_batch] after the load check. *)
Definition predict_batch_loaded `{Estimator} (g : globals) (texts : list string)
    : result (list (option (gmap string pyval))) :=
  let results :=
    map (fun text =>
           if rule_based_serious_override text
           then Some override_prediction else None) texts in
  let idx_map :=
    map fst (List.filter (fun ir => negb (bool_decide (is_Some (snd ir))))
                         (enumerate results)) in
  match idx_map with
  | [] => Ok results
  | _ :: _ =>
      let filtered_texts := map (fun i => nth i texts "") idx_map in
      match _vectorizer g, _model g with
      | Some vectorizer, Some model =>
          bind (transform vectorizer filtered_texts) (fun X =>
          bind (predict_proba model X) (fun probabilities =>
          let classes := classes_ model in
          let serious_idx :=
            match index_of "Serious" classes with
            | Some i => i
            | None => 1%nat
            end in
          fill_results serious_idx idx_map (enumerate probabilities) results))
      | _, _ => Raise AttributeError
      end
  end.

Definition predict_batch `{Estimator} (d : disk) (g : globals)
    (texts : list string)
    : result (list (option (gmap string pyval))) * globals :=
  let '(loaded, g1) :=
    if is_model_loaded g then (true, g) else load_model d g in
  if negb loaded then (Raise ClassifierNotLoadedError, g1)
  else (predict_batch_loaded g1 texts, g1).

End ClassifierBatch.

(* ===================================================================== *)
(** ** app/services/audit_logger.py and app/database/db.py: the queries   *)
(* ===================================================================== *)

Module AuditQueries.

Import EscalationEngine Db VectorService AuditLogger.

(** [c.upper()] on one code unit: 'a'..'z' go to 'A'..'Z'. *)
Definition upper_ascii (c : ascii) : ascii :=
  let n := nat_of_ascii c in
  if (Nat.leb 97 n && Nat.leb n 122)%bool then ascii_of_nat (n - 32) else c.

Fixpoint upper (s : string) : string :=
  match s with
  | EmptyString => EmptyString
  | String c rest => String (upper_ascii c) (upper rest)
  end.

(** [generate_report_id]: [now] is what
    [datetime.now().strftime('%Y%m%d%H%M%S')] yields and [uuid_hex] is
    [uuid.uuid4().hex]. *)
Definition generate_report_id (now uuid_hex : string) : string :=
  "RPT-" +:+ now +:+ "-" +:+ upper (substring 0 8 uuid_hex).

(** The order of SQLite on stored values: NULL first, then numbers by
    value, then text byte by byte. *)
Definition storage_rank (v : sqlval) : Z :=
  match v with
  | SqlNull => 0
  | SqlInteger _ | SqlReal _ => 1
  | SqlText _ => 2
  end.

Definition number_of (v : sqlval) : Q :=
  match v with
  | SqlInteger z => inject_Z z
  | SqlReal x => x
  | _ => 0%Q
  end.

Definition value_compare (a b : sqlval) : comparison :=
  match a, b with
  | SqlText x, SqlText y => String.compare x y
  | (SqlInteger _ | SqlReal _), (SqlInteger _ | SqlReal _) =>
      Qcompare (number_of a) (number_of b)
  | _, _ => Z.compare (storage_rank a) (storage_rank b)
  end.

(** [a >= b] and [a <= b] in a [WHERE] clause: a comparison with NULL
    is not true. *)
Definition where_ge (a b : sqlval) : bool :=
  (negb (is_null a) && negb (is_null b)
   && match value_compare a b with Lt => false | _ => true end)%bool.

Definition where_le (a b : sqlval) : bool :=
  (negb (is_null a) && negb (is_null b)
   && match value_compare a b with Gt => false | _ => true end)%bool.

(** Position and declared type of a column; naming a column that the
    table does not have is an [OperationalError]. *)
Definition column_of (t : table) (name : string) : result (nat * coltype) :=
  match column_index name (tbl_columns t) with
  | None => Raise OperationalError
  | Some i =>
      Ok (i, match nth_error (tbl_columns t) i with
             | Some c => col_type c
             | None => TEXT
             end)
  end.

Definition cell (i : nat) (row : list sqlval) : sqlval := nth i row SqlNull.

(** No row is followed by a row with a larger value in column [i]. *)
Definition not_before (i : nat) (a b : list sqlval) : Prop :=
  value_compare (cell i a) (cell i b) <> Lt.

Definition descending (i : nat) (rows : list (list sqlval)) : Prop :=
  Sorted (not_before i) rows.

(** [ORDER BY column DESC] is SQLite's: the rows come back rearranged,
    in descending order of the column; the order among rows with equal
    keys is the engine's choice. *)
Class SqliteSorter : Type := {
  order_by_desc : nat -> list (list sqlval) -> list (list sqlval);
  order_by_desc_permutation :
    forall i rows, Permutation (order_by_desc i rows) rows;
  order_by_desc_descending :
    forall i rows, descending i (order_by_desc i rows)
}.

(** [LIMIT limit OFFSET offset]: a negative limit means no limit, a
    negative offset means none. *)
Definition limit_offset {A : Type} (limit offset : Z) (rows : list A) : list A :=
  let rest := skipn (Z.to_nat offset) rows in
  if limit <? 0 then rest else firstn (Z.to_nat limit) rest.

(** One optional condition of the [WHERE] clause of [get_audit_logs]. *)
Definition condition `{SqliteEngine} (t : table) (active : bool)
    (name : string) (test : sqlval -> sqlval -> bool) (param : string)
    : result (list sqlval -> bool) :=
  if active then
    bind (column_of t name) (fun '(i, ty) =>
    Ok (fun row => test (cell i row) (apply_affinity ty (SqlText param))))
  else Ok (fun _ => true).

(** sqlite3 binds a Python [int] as a 64-bit integer and refuses any
    other with [OverflowError], recorded here under that name. *)
Definition sqlite_int (z : Z) : bool :=
  ((- 2 ^ 63 <=? z) && (z <? 2 ^ 63))%bool.

(** [get_audit_logs]; exceptions of the query are not caught.  The
    statement is prepared, which needs the table and its columns, before
    [limit] and [offset] are bound. *)
Definition get_audit_logs `{SqliteEngine} `{SqliteSorter} (db : database)
    (limit offset : Z) (risk_level : option string) (escalated_only : bool)
    (start_date end_date : option string)
    : result (list (list (string * sqlval))) :=
  match db !! "audit_log" with
  | None => Raise OperationalError
  | Some t =>
      bind (condition t (str_truthy risk_level) "risk_level" sqlval_eqb
              (default "" risk_level)) (fun by_risk =>
      bind (condition t escalated_only "escalation_decision" sqlval_eqb
              "ESCALATE") (fun by_decision =>
      bind (condition t (str_truthy start_date) "timestamp" where_ge
              (default "" start_date)) (fun from_date =>
      bind (condition t (str_truthy end_date) "timestamp" where_le
              (default "" end_date +:+ " 23:59:59")) (fun to_date =>
      bind (column_of t "timestamp") (fun '(ts, _) =>
      if (sqlite_int limit && sqlite_int offset)%bool then
        let selected :=
          List.filter (fun row => by_risk row && by_decision row
                                  && from_date row && to_date row)%bool
                      (tbl_rows t) in
        Ok (map (row_dict t)
                (limit_offset limit offset (order_by_desc ts selected)))
      else Raise (BackendError "OverflowError"))))))
  end.

(** The dictionary of [get_db_stats], without the constant path. *)
Record db_stats : Type := {
  connected : bool;
  total_records : Z;
  escalated : Z;
  critical : Z
}.

Definition count_where_eq `{SqliteEngine} (t : table) (name value : string)
    : result Z :=
  bind (select_where_eq t name (SqlText value)) (fun rows =>
  Ok (Z.of_nat (length rows))).

(** [get_db_stats]: three counts, or the disconnected record when any
    statement raises. *)
Definition get_db_stats `{SqliteEngine} (db : database) : db_stats :=
  let counts :=
    match db !! "audit_log" with
    | None => Raise OperationalError
    | Some t =>
        let total := Z.of_nat (length (tbl_rows t)) in
        bind (count_where_eq t "escalation_decision" "ESCALATE") (fun escalated =>
        bind (count_where_eq t "risk_level" "CRITICAL") (fun critical =>
        Ok {| connected := true;
              total_records := total;
              escalated := escalated;
              critical := critical |}))
    end in
  match counts with
  | Ok stats => stats
  | Raise _ => {| connected := false;
                  total_records := 0;
                  escalated := 0;
                  critical := 0 |}
  end.

(** What the aggregates leave to SQLite: how a text is read as a number
    (its numeric prefix, or zero), and the order in which the groups of
    a [GROUP BY] come back, which rearranges them and nothing else. *)
Class SqliteAggregate : Type := {
  text_as_number : string -> Q;
  group_order : list (sqlval * Z) -> list (sqlval * Z);
  group_order_permutation :
    forall groups, Permutation (group_order groups) groups
}.

(** The value that [AVG] and [SUM] see in a cell; NULL is skipped. *)
Definition aggregate_value `{SqliteAggregate} (v : sqlval) : option Q :=
  match v with
  | SqlNull => None
  | SqlInteger z => Some (inject_Z z)
  | SqlReal x => Some x
  | SqlText s => Some (text_as_number s)
  end.

Definition sumQ (xs : list Q) : Q := fold_right Qplus 0%Q xs.

(** [AVG(column)]: NULL when no cell is non-NULL. *)
Definition avg `{SqliteAggregate} (i : nat) (rows : list (list sqlval))
    : option Q :=
  match omap (fun row => aggregate_value (cell i row)) rows with
  | [] => None
  | xs => Some (sumQ xs / inject_Z (Z.of_nat (length xs)))%Q
  end.

(** Two values fall in one group of [GROUP BY]. *)
Definition same_group (a b : sqlval) : bool :=
  match value_compare a b with Eq => true | _ => false end.

(** [GROUP BY column] with [COUNT( * )]: one pair per group, collected
    in the order in which the groups first occur. *)
Fixpoint count_group (key : sqlval) (groups : list (sqlval * Z))
    : list (sqlval * Z) :=
  match groups with
  | [] => [(key, 1)]
  | (k, n) :: rest =>
      if same_group key k then (k, n + 1) :: rest
      else (k, n) :: count_group key rest
  end.

Definition group_counts (i : nat) (rows : list (list sqlval))
    : list (sqlval * Z) :=
  fold_left (fun groups row => count_group (cell i row) groups) rows [].

(** The rows of [SELECT column, COUNT( * ) ... GROUP BY column], in the
    order of the engine; the dictionary built from them keeps that
    order. *)
Definition group_by_count `{SqliteAggregate} (i : nat)
    (rows : list (list sqlval)) : list (sqlval * Z) :=
  group_order (group_counts i rows).

Record audit_summary : Type := {
  total_processed : Z;
  by_risk_level : list (sqlval * Z);
  escalation_rate : Q;
  avg_processing_time_ms : Q
}.

(** [x or 0] on the result of an aggregate. *)
Definition or_zero (x : option Q) : Q :=
  match x with
  | Some q => if Qeq_bool q 0 then 0%Q else q
  | None => 0%Q
  end.

(** [get_audit_summary]; exceptions of the queries are not caught.
    [escalation_rate] is the exact quotient of the two counts, which
    Python rounds to the nearest binary64 float. *)
Definition get_audit_summary `{SqliteEngine} `{SqliteAggregate} (db : database)
    : result audit_summary :=
  match db !! "audit_log" with
  | None => Raise OperationalError
  | Some t =>
      let total := Z.of_nat (length (tbl_rows t)) in
      bind (column_of t "risk_level") (fun '(rl, _) =>
      bind (count_where_eq t "escalation_decision" "ESCALATE") (fun escalated =>
      bind (column_of t "processing_time_ms") (fun '(pt, _) =>
      Ok {| total_processed := total;
            by_risk_level := group_by_count rl (tbl_rows t);
            escalation_rate :=
              if 0 <? total then (inject_Z escalated / inject_Z total)%Q else 0%Q;
            avg_processing_time_ms := or_zero (avg pt (tbl_rows t)) |})))
  end.

(** The two legacy entry points return the empty list. *)
Definition get_similar_serious_events_drug_based (drugname : string)
    (current_symptoms : pyval) (current_report_id : string) (limit : Z)
    : list (gmap string pyval) := [].

Definition get_similar_serious_events (current_symptoms : pyval)
    (current_report_id : string) (limit : Z) : list (gmap string pyval) := [].

End AuditQueries.

(* ===================================================================== *)
(** ** Notions used to state the properties, and sample data              *)
(* ===================================================================== *)

Module Notions.

Import EscalationEngine.

(** The normalisation [max_score / 10.0 if max_score > 0 else 0] at the
    end of [calculate_keyword_score]. *)
Definition normalize (max_score : Z) : Q :=
  if 0 <? max_score then (inject_Z max_score / 10)%Q else 0%Q.

(** No keyword of the severity table occurs in the text, as the scorer
    tests it: on the lower-cased text. *)
Definition no_keyword_occurs (text : string) : bool :=
  forallb (fun e => negb (str_in (fst e) (lower text))) SERIOUS_KEYWORDS.

(** The names and declared types of the columns of a table: what a
    statement that names columns depends on. *)
Definition signature (cols : list Db.column) : list (string * Db.coltype) :=
  map (fun c => (Db.col_name c, Db.col_type c)) cols.

(** No entry of the collection is held under the empty id: the state of
    every collection that is filled through [upsert]. *)
Definition no_empty_id `{VectorService.ChromaCollection}
    (coll : VectorService.collection) : Prop :=
  Forall (fun id => id <> "") (VectorService.collection_ids coll).

End Notions.

Module Samples.

Import EscalationEngine.

(** A stand-in for the interpreter's rendering functions. *)
Definition sample_runtime : Runtime :=
  {| format_percent1 := fun _ => "%";
     json_dumps := fun _ => "[]";
     json_loads := fun _ => Ok (PyList []) |}.

Definition sample_runtime64 : EscalationEngine64.Runtime64 :=
  {| EscalationEngine64.format_percent1 := fun _ => "%" |}.

(** A stand-in for the number conversions of SQLite. *)
Definition sample_engine : Db.SqliteEngine :=
  {| Db.real_to_text := fun _ => "0.0";
     Db.integer_to_text := fun _ => "0";
     Db.text_to_real := fun _ => None |}.

Definition sample_clock : Db.clock :=
  {| Db.current_timestamp := "2024-03-01 10:15:00";
     Db.utcnow_isoformat := "2024-03-01T10:15:00.000000" |}.

(** The columns of [audit_log] with a default on [timestamp]: a table
    that [log_processing] can insert into.  [init_database] keeps such a
    table when the file already has it; [CURRENT_TIMESTAMP] yields the
    format that the date filter of [get_audit_logs] compares with. *)
Definition audit_log_columns_with_default : list Db.column :=
  map (fun c =>
         if String.eqb (Db.col_name c) "timestamp"
         then {| Db.col_name := Db.col_name c;
                 Db.col_type := Db.col_type c;
                 Db.col_not_null := Db.col_not_null c;
                 Db.col_default := Db.DefaultCurrentTimestamp |}
         else c)
      Db.audit_log_columns.

(** The file that [init_database] makes of an empty one. *)
Definition initialised_database : gmap string Db.table :=
  snd (snd (Db.init_database ∅ ∅)).

Definition database_with_default : gmap string Db.table :=
  {[ "audit_log" := {| Db.tbl_columns := audit_log_columns_with_default;
                       Db.tbl_rows := [];
                       Db.tbl_sequence := 0 |} ]}.

(** A vector backend that is down: every call raises. *)
Definition backend_down : VectorService.VectorBackend :=
  {| VectorService.embedding := unit;
     VectorService.collection := unit;
     VectorService.create_embedding := fun _ => Raise (BackendError "unreachable");
     VectorService.collection_upsert :=
       fun _ _ _ _ _ => Raise (BackendError "unreachable");
     VectorService.collection_query :=
       fun _ _ _ _ => Raise (BackendError "unreachable") |}.

(** A vector backend in memory: the collection is the list of its
    entries (id, metadata, document); [upsert] refuses the empty id, as
    Chroma does, and replaces the entry of the id; a query returns the
    first [n_results] entries that satisfy the filter, at distance 0. *)
Definition entry : Type := string * gmap string pyval * string.

Definition entry_matches (where_ : option (gmap string pyval)) (e : entry) : bool :=
  match where_ with
  | None => true
  | Some _ =>
      match snd (fst e) !! "escalation_decision" with
      | Some (PyStr "ESCALATE") => true
      | _ => false
      end
  end.

Definition backend_in_memory : VectorService.VectorBackend :=
  {| VectorService.embedding := unit;
     VectorService.collection := list entry;
     VectorService.create_embedding := fun _ => Ok tt;
     VectorService.collection_upsert :=
       fun coll id _ document metadata =>
         if String.eqb id "" then Raise ValueError
         else Ok (List.filter (fun e => negb (String.eqb (fst (fst e)) id)) coll
                  ++ [(id, metadata, document)]);
     VectorService.collection_query :=
       fun coll _ n_results where_ =>
         let hits := firstn (Z.to_nat n_results)
                       (List.filter (entry_matches where_) coll) in
         Ok {| VectorService.ids := [map (fun e => fst (fst e)) hits];
               VectorService.metadatas := [map (fun e => snd (fst e)) hits];
               VectorService.distances := [map (fun _ => 0%Q) hits];
               VectorService.documents := [map snd hits] |} |}.

(** The backend in memory keeps the contract of a Chroma collection. *)
Definition in_memory_collection :
  VectorService.ChromaCollection (H := backend_in_memory).
Proof.
  refine (@VectorService.Build_ChromaCollection backend_in_memory
            (fun coll => map (fun e : entry => fst (fst e)) coll) _ _ _).
  - intros coll emb document metadata. reflexivity.
  - intros coll id emb document metadata coll' Hup x Hx.
    cbn in Hup. destruct (String.eqb id ""); [discriminate Hup|].
    injection Hup as <-. rewrite map_app in Hx.
    apply in_app_or in Hx as [Hx|Hx].
    + right. apply in_map_iff in Hx as (e & <- & He).
      apply filter_In in He as [He _].
      exact (in_map (fun e : entry => fst (fst e)) coll e He).
    + left. destruct Hx as [Hx|[]]. now symmetry.
  - intros coll emb n_results where_ results Hq first Hfirst x Hx.
    cbn in Hq. injection Hq as <-. cbn in Hfirst.
    destruct Hfirst as [<-|[]].
    apply in_map_iff in Hx as (e & <- & He).
    apply (in_map (fun e : entry => fst (fst e)) coll e).
    assert (Hin : In e (List.filter (entry_matches where_) coll)).
    { rewrite <- (firstn_skipn (Z.to_nat n_results)
                    (List.filter (entry_matches where_) coll)).
      apply in_or_app. now left. }
    now apply filter_In in Hin as [Hin _].
Defined.

(** A classifier stand-in with two classes. *)
Definition sample_estimator : Classifier.Estimator :=
  {| Classifier.sk_model := unit;
     Classifier.sk_vectorizer := unit;
     Classifier.sk_features := unit;
     Classifier.transform := fun _ _ => Ok tt;
     Classifier.predict_proba := fun _ _ => Ok [[0.8%Q; 0.2%Q]];
     Classifier.classes_ := fun _ => ["Non-Serious"; "Serious"] |}.

(** No pickles on disk, nothing loaded. *)
Definition empty_disk : Classifier.disk (H := sample_estimator) :=
  @Classifier.Build_disk sample_estimator Classifier.NoFile Classifier.NoFile.

Definition nothing_loaded : Classifier.globals (H := sample_estimator) :=
  @Classifier.Build_globals sample_estimator None None.

Definition model_loaded : Classifier.globals (H := sample_estimator) :=
  @Classifier.Build_globals sample_estimator (Some tt) (Some tt).

Definition sample_result : EscalationResult :=
  {| should_escalate := true;
     final_score := 0.9;
     ml_probability := 0.4;
     keyword_score := 0.9;
     triggered_keywords := ["coma"];
     explanation := "ESCALATION REQUIRED";
     risk_level := "CRITICAL" |}.

End Samples.

(* ===================================================================== *)
(** ** Notions and sample data for the queries                            *)
(* ===================================================================== *)

Module QueryNotions.

Import Db.

(** Every row of the table has one cell per column. *)
Definition well_formed (t : table) : Prop :=
  Forall (fun row => length row = length (tbl_columns t)) (tbl_rows t).

(** The first record is not older than the second: its timestamp is
    not smaller, in the order of SQLite. *)
Definition newer_or_same (a b : list (string * sqlval)) : Prop :=
  exists va vb,
    assoc "timestamp" a = Some va
    /\ assoc "timestamp" b = Some vb
    /\ AuditQueries.value_compare va vb <> Lt.

End QueryNotions.

Module QuerySamples.

Import Db AuditQueries.

Fixpoint insert_desc (i : nat) (x : list sqlval) (rows : list (list sqlval))
    : list (list sqlval) :=
  match rows with
  | [] => [x]
  | y :: rest =>
      match value_compare (cell i x) (cell i y) with
      | Lt => y :: insert_desc i x rest
      | _ => x :: y :: rest
      end
  end.

Definition insertion_sort_desc (i : nat) (rows : list (list sqlval))
    : list (list sqlval) :=
  fold_right (insert_desc i) [] rows.

(** Insertion sort meets the two laws of [ORDER BY ... DESC]. *)
Definition sample_sorter : SqliteSorter.
Proof.
  refine {| order_by_desc := insertion_sort_desc |}.
  - intros i rows.
    assert (Hins : forall x l, Permutation (insert_desc i x l) (x :: l)).
    { intros x l. induction l as [|y l IH]; simpl; [reflexivity|].
      destruct (value_compare (cell i x) (cell i y)); try reflexivity.
      rewrite IH. apply perm_swap. }
    induction rows as [|x rows IH]; simpl; [reflexivity|].
    rewrite Hins. now apply perm_skip.
  - intros i rows.
    assert (Hanti : forall a b, value_compare a b = Lt -> value_compare b a <> Lt).
    { intros a b Hab Hba.
      destruct a as [|x|x|x], b as [|y|y|y]; cbn in Hab, Hba;
        try discriminate;
        try (rewrite Z.compare_antisym in Hba; rewrite Hab in Hba; discriminate);
        try (rewrite <- Qcompare_antisym in Hba; rewrite Hab in Hba; discriminate).
      rewrite String.compare_antisym in Hba. rewrite Hab in Hba. discriminate. }
    assert (Hins : forall x l, Sorted (not_before i) l ->
                               Sorted (not_before i) (insert_desc i x l)).
    { intros x l Hl. induction l as [|y l IH]; simpl.
      - repeat constructor.
      - destruct (value_compare (cell i x) (cell i y)) eqn:Hxy.
        + constructor; [exact Hl|]. constructor. unfold not_before. congruence.
        + inversion Hl as [|? ? Hsorted Hhd]; subst.
          constructor; [now apply IH|].
          destruct l as [|z l]; simpl.
          * constructor. apply Hanti. exact Hxy.
          * destruct (value_compare (cell i x) (cell i z)).
            -- constructor. apply Hanti. exact Hxy.
            -- inversion Hhd; subst. now constructor.
            -- constructor. apply Hanti. exact Hxy.
        + constructor; [exact Hl|]. constructor. unfold not_before. congruence. }
    unfold descending. induction rows as [|x rows IH]; simpl.
    + constructor.
    + now apply Hins.
Defined.

(** Groups in ascending order of their key, as SQLite returns them. *)
Fixpoint insert_group (g : sqlval * Z) (groups : list (sqlval * Z))
    : list (sqlval * Z) :=
  match groups with
  | [] => [g]
  | h :: rest =>
      match value_compare (fst g) (fst h) with
      | Gt => h :: insert_group g rest
      | _ => g :: h :: rest
      end
  end.

Definition sort_groups (groups : list (sqlval * Z)) : list (sqlval * Z) :=
  fold_right insert_group [] groups.

Definition sample_aggregate : SqliteAggregate.
Proof.
  refine {| text_as_number := fun _ => 0%Q; group_order := sort_groups |}.
  intros groups.
  assert (Hins : forall g l, Permutation (insert_group g l) (g :: l)).
  { intros g l. induction l as [|h l IH]; simpl; [reflexivity|].
    destruct (value_compare (fst g) (fst h)); try reflexivity.
    rewrite IH. apply perm_swap. }
  induction groups as [|g groups IH]; simpl; [reflexivity|].
  rewrite Hins. now apply perm_skip.
Defined.

(** Three records of an audit log. *)
Definition sample_row (id : Z) (report_id timestamp drugname decision
    risk_level : string) (final_score processing_time_ms : Q) : list sqlval :=
  [ SqlInteger id; SqlText report_id; SqlText timestamp; SqlText drugname;
    SqlText "reported event"; SqlText "Serious"; SqlReal 0.9;
    SqlText drugname; SqlText "[]"; SqlText decision; SqlText risk_level;
    SqlReal final_score; SqlText "[]"; SqlText "";
    SqlReal processing_time_ms ].

Definition sample_table : table :=
  {| tbl_columns := audit_log_columns;
     tbl_rows :=
       [ sample_row 1 "RPT-20240301101500-0000000A" "2024-03-01 10:15:00"
           "warfarin" "ESCALATE" "HIGH" 0.8 12;
         sample_row 2 "RPT-20240302090000-0000000B" "2024-03-02 09:00:00"
           "aspirin" "NO_ESCALATE" "LOW" 0.1 8;
         sample_row 3 "RPT-20240303183000-0000000C" "2024-03-03 18:30:00"
           "propofol" "ESCALATE" "CRITICAL" 1 10 ];
     tbl_sequence := 3 |}.

Definition sample_log : database := {[ "audit_log" := sample_table ]}.

End QuerySamples.

(* ===================================================================== *)
(** ** Properties of the string primitives                                *)
(* ===================================================================== *)

Module PyFacts.

Lemma lower_app (s u : string) : lower (s +:+ u) = lower s +:+ lower u.
Proof.
  induction s as [|c s IH]; simpl.
  - reflexivity.
  - now rewrite IH.
Qed.

Lemma startswith_app (k s u : string) :
  startswith k s = true -> startswith k (s +:+ u) = true.
Proof.
  revert s. induction k as [|a k IH]; intros s Hs.
  - reflexivity.
  - destruct s as [|b s]; simpl in *.
    + discriminate.
    + apply andb_true_iff in Hs as [Hab Hrest].
      rewrite Hab. simpl. now apply IH.
Qed.

(** An occurrence survives text appended after it ... *)
Lemma str_in_app_l (k s u : string) :
  str_in k s = true -> str_in k (s +:+ u) = true.
Proof.
  induction s as [|c s IH]; simpl; intros Hs.
  - rewrite orb_false_r in Hs.
    destruct k; [|discriminate].
    destruct u; reflexivity.
  - apply orb_true_iff in Hs as [Hs|Hs].
    + apply orb_true_iff. left.
      apply (startswith_app k (String c s) u Hs).
    + apply orb_true_iff. right. now apply IH.
Qed.

(** ... and text put in front of it. *)
Lemma str_in_app_r (k s u : string) :
  str_in k u = true -> str_in k (s +:+ u) = true.
Proof.
  induction s as [|c s IH]; simpl; intros Hu.
  - exact Hu.
  - apply orb_true_iff. right. now apply IH.
Qed.

Lemma max2_ge_l (a b : Q) : (a <= max2 a b)%Q.
Proof.
  unfold max2. destruct (Qlt_le_dec a b) as [Hlt|Hle].
  - now apply Qlt_le_weak.
  - apply Qle_refl.
Qed.

Lemma max2_ge_r (a b : Q) : (b <= max2 a b)%Q.
Proof.
  unfold max2. destruct (Qlt_le_dec a b) as [Hlt|Hle].
  - apply Qle_refl.
  - exact Hle.
Qed.

Lemma ge_true_iff (a b : Q) : ge a b = true <-> (b <= a)%Q.
Proof. unfold ge. apply Qle_bool_iff. Qed.

Lemma ge_false_iff (a b : Q) : ge a b = false <-> (a < b)%Q.
Proof.
  unfold ge. split; intros H.
  - apply Qnot_le_lt. intros Hle. apply Qle_bool_iff in Hle. congruence.
  - apply not_true_is_false. intros Hle. apply Qle_bool_iff in Hle.
    apply Qlt_not_le in H. contradiction.
Qed.

End PyFacts.

(* ===================================================================== *)
(** ** Properties of the keyword scorer                                   *)
(* ===================================================================== *)

Module KeywordFacts.

Import EscalationEngine Notions PyFacts.

Lemma calculate_keyword_score_unfold (text : string) :
  calculate_keyword_score text =
  (normalize (snd (keyword_loop SERIOUS_KEYWORDS (lower text) ([], 0))),
   fst (keyword_loop SERIOUS_KEYWORDS (lower text) ([], 0))).
Proof.
  unfold calculate_keyword_score, normalize.
  destruct (keyword_loop SERIOUS_KEYWORDS (lower text) ([], 0)) as [tr m].
  reflexivity.
Qed.

Lemma normalize_mono (m m' : Z) : m <= m' -> (normalize m <= normalize m')%Q.
Proof.
  intros Hle. unfold normalize.
  destruct (Z.ltb_spec 0 m) as [Hm|Hm]; destruct (Z.ltb_spec 0 m') as [Hm'|Hm'];
    unfold Qle; simpl; lia.
Qed.

Lemma normalize_ge_8 (m : Z) : 8 <= m -> (0.8 <= normalize m)%Q.
Proof.
  intros Hle. unfold normalize.
  destruct (Z.ltb_spec 0 m) as [Hm|Hm]; [|lia].
  unfold Qle; simpl; lia.
Qed.

(** The running maximum never decreases along the loop. *)
Lemma keyword_loop_ge_init (table : list (string * Z)) (text : string)
    (tr : list string) (m : Z) :
  m <= snd (keyword_loop table text (tr, m)).
Proof.
  revert tr m. induction table as [|[k w] table IH]; intros tr m; simpl.
  - lia.
  - unfold keyword_loop in *. simpl.
    destruct (str_in k text).
    + specialize (IH (tr ++ [k]) (Z.max m w)). lia.
    + apply IH.
Qed.

(** A keyword of the table that occurs in the text bounds the maximum
    from below. *)
Lemma keyword_loop_ge_weight (table : list (string * Z)) (text : string)
    (tr : list string) (m : Z) (k : string) (w : Z) :
  In (k, w) table -> str_in k text = true ->
  w <= snd (keyword_loop table text (tr, m)).
Proof.
  revert tr m. induction table as [|[k' w'] table IH]; intros tr m Hin Hk.
  - destruct Hin.
  - unfold keyword_loop in *. simpl. destruct Hin as [Heq|Hin].
    + inversion Heq; subst k' w'. rewrite Hk.
      pose proof (keyword_loop_ge_init table text (tr ++ [k]) (Z.max m w)) as Hge.
      unfold keyword_loop in Hge. lia.
    + destruct (str_in k' text); now apply IH.
Qed.

(** When no keyword of the table occurs, the loop leaves its state. *)
Lemma keyword_loop_no_match (table : list (string * Z)) (text : string)
    (st : list string * Z) :
  forallb (fun e => negb (str_in (fst e) text)) table = true ->
  keyword_loop table text st = st.
Proof.
  revert st. induction table as [|[k w] table IH]; intros [tr m] Hall.
  - reflexivity.
  - simpl in Hall. apply andb_true_iff in Hall as [Hk Hrest].
    unfold keyword_loop in *. simpl.
    apply negb_true_iff in Hk. rewrite Hk. now apply IH.
Qed.

(** If every keyword that occurs in [t] occurs in [t'], the maximum
    reached on [t] is at most the one reached on [t']. *)
Lemma keyword_loop_mono (table : list (string * Z)) (t t' : string)
    (tr tr' : list string) (m m' : Z) :
  (forall k, str_in k t = true -> str_in k t' = true) ->
  m <= m' ->
  snd (keyword_loop table t (tr, m)) <= snd (keyword_loop table t' (tr', m')).
Proof.
  intros Hsub. revert tr tr' m m'.
  induction table as [|[k w] table IH]; intros tr tr' m m' Hle.
  - exact Hle.
  - unfold keyword_loop in *. simpl.
    destruct (str_in k t) eqn:Hk.
    + rewrite (Hsub k Hk). apply IH. lia.
    + destruct (str_in k t'); apply IH; lia.
Qed.

(** The keyword score only depends on which keywords occur. *)
Lemma keyword_score_mono (t t' : string) :
  (forall k, str_in k (lower t) = true -> str_in k (lower t') = true) ->
  (fst (calculate_keyword_score t) <= fst (calculate_keyword_score t'))%Q.
Proof.
  intros Hsub. rewrite !calculate_keyword_score_unfold. cbn [fst snd].
  apply normalize_mono. apply keyword_loop_mono; [exact Hsub | lia].
Qed.

Lemma keyword_score_no_match (text : string) :
  forallb (fun e => negb (str_in (fst e) (lower text))) SERIOUS_KEYWORDS = true ->
  calculate_keyword_score text = (0%Q, []).
Proof.
  intros Hall. rewrite calculate_keyword_score_unfold.
  rewrite (keyword_loop_no_match _ _ _ Hall). reflexivity.
Qed.

Lemma keyword_score_ge_08 (text k : string) (w : Z) :
  In (k, w) SERIOUS_KEYWORDS -> 8 <= w -> str_in k (lower text) = true ->
  (0.8 <= fst (calculate_keyword_score text))%Q.
Proof.
  intros Hin Hw Hk. rewrite calculate_keyword_score_unfold. cbn [fst snd].
  apply normalize_ge_8.
  pose proof (keyword_loop_ge_weight SERIOUS_KEYWORDS (lower text) [] 0 k w Hin Hk).
  lia.
Qed.

(** A keyword that occurs in the event text, in any letter case, occurs
    in the text that the engine scans. *)
Lemma keyword_in_event_is_scanned (drugname adverse_event : string)
    (entities : option (gmap string pyval)) (k : string) :
  str_in k (lower adverse_event) = true ->
  str_in k (lower (combined_text drugname adverse_event entities)) = true.
Proof.
  intros Hk.
  assert (Hbase : str_in k (lower (drugname +:+ " " +:+ adverse_event)) = true).
  { rewrite !lower_app. apply str_in_app_r. now apply str_in_app_r. }
  unfold combined_text.
  destruct entities as [d|]; [|exact Hbase].
  destruct (dict_truthy d); [|exact Hbase].
  destruct (get d "symptoms" (PyList [])); try exact Hbase.
  rewrite lower_app. now apply str_in_app_l.
Qed.

End KeywordFacts.

(* ===================================================================== *)
(** ** The escalation engine                                              *)
(* ===================================================================== *)

Import EscalationEngine Notions Samples PyFacts KeywordFacts.

(** What [evaluate_escalation] returns once the probability is known to
    be the number [p]. *)
Lemma evaluate_escalation_number `{Runtime}
    (ml_prediction : gmap string pyval) (drugname adverse_event : string)
    (entities : option (gmap string pyval)) (p : Q) :
  get ml_prediction "serious_probability" (PyFloat 0.5) = PyFloat p ->
  exists r,
    evaluate_escalation ml_prediction drugname adverse_event entities = Ok r
    /\ ml_probability r = p
    /\ keyword_score r =
         fst (calculate_keyword_score (combined_text drugname adverse_event entities))
    /\ final_score r =
         (if ge (keyword_score r) 0.8
          then max2 p (keyword_score r)
          else ((1 - KEYWORD_WEIGHT) * p + KEYWORD_WEIGHT * keyword_score r)%Q)
    /\ should_escalate r =
         (ge (final_score r) ESCALATION_THRESHOLD || ge (keyword_score r) 0.8)%bool
    /\ risk_level r = determine_risk_level (final_score r).
Proof.
  intros Hp. unfold evaluate_escalation. rewrite Hp.
  destruct (calculate_keyword_score (combined_text drugname adverse_event entities))
    as [ks tr].
  cbn [as_number bind]. eexists. split; [reflexivity|].
  cbn [ml_probability keyword_score final_score should_escalate risk_level fst].
  repeat split.
Qed.

(** C7: appending text to [t] never lowers the keyword score. *)
Theorem keyword_score_append_monotone (t u : string) :
  (fst (calculate_keyword_score t) <= fst (calculate_keyword_score (t +:+ u)))%Q.
Proof.
  apply keyword_score_mono. intros k Hk.
  rewrite lower_app. now apply str_in_app_l.
Qed.

(** C4: on [0,1] the four risk bands are LOW below 0.5, MEDIUM on
    [0.5, 0.7), HIGH on [0.7, 0.85) and CRITICAL from 0.85 on; every
    score falls in exactly one of them. *)
Theorem risk_level_bands (score : Q) :
  (0 <= score)%Q -> (score <= 1)%Q ->
  (determine_risk_level score = "LOW" <-> (score < 0.5)%Q)
  /\ (determine_risk_level score = "MEDIUM" <-> (0.5 <= score)%Q /\ (score < 0.7)%Q)
  /\ (determine_risk_level score = "HIGH" <-> (0.7 <= score)%Q /\ (score < 0.85)%Q)
  /\ (determine_risk_level score = "CRITICAL" <-> (0.85 <= score)%Q).
Proof.
  intros H0 H1. unfold determine_risk_level.
  destruct (ge score 0.85) eqn:Hc;
    [apply ge_true_iff in Hc | apply ge_false_iff in Hc].
  { repeat split; intros; try discriminate; try lra; tauto. }
  destruct (ge score 0.7) eqn:Hh;
    [apply ge_true_iff in Hh | apply ge_false_iff in Hh].
  { repeat split; intros; try discriminate; try lra; tauto. }
  destruct (ge score 0.5) eqn:Hm;
    [apply ge_true_iff in Hm | apply ge_false_iff in Hm].
  { repeat split; intros; try discriminate; try lra; tauto. }
  repeat split; intros; try discriminate; try lra; tauto.
Qed.

Lemma risk_level_bands_witness :
  (0 <= 0.7)%Q /\ (0.7 <= 1)%Q /\ determine_risk_level 0.7 = "HIGH".
Proof.
  split; [|split]; [unfold Qle; simpl; lia | unfold Qle; simpl; lia |].
  apply (risk_level_bands 0.7); [unfold Qle; simpl; lia .. |].
  split; [unfold Qle | unfold Qlt]; simpl; lia.
Defined.

(** C2 (scenario B): with an ML probability of 0.9 and a text in which
    no keyword of the severity table occurs, the keyword score is 0, the
    final score is 0.7*0.9 + 0.3*0 = 0.63, the risk level is MEDIUM and
    the report is escalated. *)
Theorem scenario_B_no_keyword `{Runtime}
    (ml_prediction : gmap string pyval) (drugname adverse_event : string)
    (entities : option (gmap string pyval)) :
  ml_prediction !! "serious_probability" = Some (PyFloat 0.9) ->
  no_keyword_occurs (combined_text drugname adverse_event entities) = true ->
  exists r,
    evaluate_escalation ml_prediction drugname adverse_event entities = Ok r
    /\ ml_probability r = 0.9%Q
    /\ keyword_score r = 0%Q
    /\ triggered_keywords r = []
    /\ (final_score r == 0.63)%Q
    /\ (final_score r == 0.7 * 0.9 + 0.3 * 0.0)%Q
    /\ risk_level r = "MEDIUM"
    /\ should_escalate r = true.
Proof.
  intros Hml Hnone. unfold evaluate_escalation, get. rewrite Hml.
  rewrite (keyword_score_no_match _ Hnone).
  cbn [as_number bind]. eexists. split; [reflexivity|].
  cbn [ml_probability keyword_score triggered_keywords final_score
       should_escalate risk_level].
  repeat split; reflexivity.
Qed.

Lemma scenario_B_no_keyword_witness :
  exists r,
    evaluate_escalation (H := sample_runtime)
      {[ "serious_probability" := PyFloat 0.9 ]}
      "cetirizine" "mild headache after the second dose" None = Ok r
    /\ (final_score r == 0.63)%Q
    /\ risk_level r = "MEDIUM"
    /\ should_escalate r = true.
Proof.
  destruct (scenario_B_no_keyword (H := sample_runtime)
              {[ "serious_probability" := PyFloat 0.9 ]}
              "cetirizine" "mild headache after the second dose" None)
    as (r & Hr & _ & _ & _ & Hf & _ & Hl & He).
  - reflexivity.
  - reflexivity.
  - exists r. repeat split; assumption.
Defined.

(** C3: when a keyword of weight 8 or more occurs in the scanned text,
    the keyword score is at least 0.8 and the report is escalated,
    whatever the ML probability -- also when it is 0.0. *)
Theorem critical_keyword_forces_escalation `{Runtime}
    (ml_prediction : gmap string pyval) (drugname adverse_event : string)
    (entities : option (gmap string pyval)) (p : Q) (k : string) (w : Z) :
  ml_prediction !! "serious_probability" = Some (PyFloat p) ->
  In (k, w) SERIOUS_KEYWORDS -> 8 <= w ->
  str_in k (lower (combined_text drugname adverse_event entities)) = true ->
  exists r,
    evaluate_escalation ml_prediction drugname adverse_event entities = Ok r
    /\ ml_probability r = p
    /\ (0.8 <= keyword_score r)%Q
    /\ should_escalate r = true.
Proof.
  intros Hml Hin Hw Hk.
  destruct (evaluate_escalation_number ml_prediction drugname adverse_event
              entities p) as (r & Hr & Hp & Hks & _ & Hesc & _).
  { unfold get. now rewrite Hml. }
  exists r. split; [exact Hr|]. split; [exact Hp|].
  assert (Hge : (0.8 <= keyword_score r)%Q).
  { rewrite Hks. now apply (keyword_score_ge_08 _ k w). }
  split; [exact Hge|].
  rewrite Hesc. apply orb_true_iff. right. now apply ge_true_iff.
Qed.

Lemma critical_keyword_forces_escalation_witness :
  exists r,
    evaluate_escalation (H := sample_runtime)
      {[ "serious_probability" := PyFloat 0.0 ]}
      "warfarin" "Patient was HOSPITALIZED overnight" None = Ok r
    /\ ml_probability r = 0.0%Q
    /\ should_escalate r = true.
Proof.
  destruct (critical_keyword_forces_escalation (H := sample_runtime)
              {[ "serious_probability" := PyFloat 0.0 ]}
              "warfarin" "Patient was HOSPITALIZED overnight" None
              0.0 "hospitalized" 8)
    as (r & Hr & Hp & _ & He).
  - reflexivity.
  - unfold SERIOUS_KEYWORDS. simpl. tauto.
  - lia.
  - reflexivity.
  - exists r. repeat split; assumption.
Defined.

(** C6: when the dictionary has no "serious_probability", the engine
    takes 0.5 as the ML probability, computes the score from it, and
    returns without raising. *)
Theorem missing_probability_defaults `{Runtime}
    (ml_prediction : gmap string pyval) (drugname adverse_event : string)
    (entities : option (gmap string pyval)) :
  ml_prediction !! "serious_probability" = None ->
  exists r,
    evaluate_escalation ml_prediction drugname adverse_event entities = Ok r
    /\ ml_probability r = 0.5%Q
    /\ final_score r =
         (if ge (keyword_score r) 0.8
          then max2 0.5 (keyword_score r)
          else ((1 - KEYWORD_WEIGHT) * 0.5 + KEYWORD_WEIGHT * keyword_score r)%Q).
Proof.
  intros Hml.
  destruct (evaluate_escalation_number ml_prediction drugname adverse_event
              entities 0.5) as (r & Hr & Hp & _ & Hf & _).
  { unfold get. now rewrite Hml. }
  exists r. auto.
Qed.

Lemma missing_probability_defaults_witness :
  exists r,
    evaluate_escalation (H := sample_runtime)
      {[ "prediction" := PyStr "Non-Serious" ]}
      "ibuprofen" "nausea" (Some {[ "symptoms" := PyList ["Nausea"] ]}) = Ok r
    /\ ml_probability r = 0.5%Q.
Proof.
  destruct (missing_probability_defaults (H := sample_runtime)
              {[ "prediction" := PyStr "Non-Serious" ]}
              "ibuprofen" "nausea" (Some {[ "symptoms" := PyList ["Nausea"] ]}))
    as (r & Hr & Hp & _).
  - reflexivity.
  - exists r. split; assumption.
Defined.

(** The engine raises exactly when the value under "serious_probability"
    is present and is not a number. *)
Lemma evaluate_escalation_raises `{Runtime}
    (ml_prediction : gmap string pyval) (drugname adverse_event : string)
    (entities : option (gmap string pyval)) (v : pyval) :
  ml_prediction !! "serious_probability" = Some v ->
  (forall x, v <> PyFloat x) ->
  evaluate_escalation ml_prediction drugname adverse_event entities
  = Raise TypeError.
Proof.
  intros Hml Hv. unfold evaluate_escalation, get. rewrite Hml.
  destruct (calculate_keyword_score _) as [ks tr].
  destruct v; try reflexivity. now destruct (Hv x).
Qed.

(** Over the rationals the second disjunct of the escalation rule is
    redundant: for every numeric ML probability and every text, a
    keyword score of at least 0.8 brings the final score to at least
    0.8, and [should_escalate] equals [final_score >= 0.6]. *)
Lemma keyword_disjunct_redundant `{Runtime}
    (ml_prediction : gmap string pyval) (drugname adverse_event : string)
    (entities : option (gmap string pyval)) (p : Q) :
  get ml_prediction "serious_probability" (PyFloat 0.5) = PyFloat p ->
  exists r,
    evaluate_escalation ml_prediction drugname adverse_event entities = Ok r
    /\ (ge (keyword_score r) 0.8 = true ->
        final_score r = max2 p (keyword_score r) /\ (0.8 <= final_score r)%Q)
    /\ should_escalate r = ge (final_score r) ESCALATION_THRESHOLD.
Proof.
  intros Hp.
  destruct (evaluate_escalation_number ml_prediction drugname adverse_event
              entities p Hp) as (r & Hr & _ & _ & Hf & Hesc & _).
  exists r. split; [exact Hr|].
  destruct (ge (keyword_score r) 0.8) eqn:Hks.
  - assert (Hfs : (0.8 <= final_score r)%Q).
    { rewrite Hf. apply ge_true_iff in Hks.
      eapply Qle_trans; [exact Hks | apply max2_ge_r]. }
    split; [intros _; split; [exact Hf | exact Hfs]|].
    rewrite Hesc, orb_true_r. symmetry. apply ge_true_iff.
    unfold ESCALATION_THRESHOLD. lra.
  - split; [discriminate|]. now rewrite Hesc, orb_false_r.
Qed.

(* ===================================================================== *)
(** ** The override gate of the classifier                                *)
(* ===================================================================== *)

Lemma rule_override_of_keyword (text k : string) :
  In k Classifier.SERIOUS_KEYWORDS -> str_in k (lower text) = true ->
  Classifier.rule_based_serious_override text = true.
Proof.
  intros Hin Hk. unfold Classifier.rule_based_serious_override.
  apply existsb_exists. exists k. split; assumption.
Qed.

(** C9, as stated, fails: with no model loaded and no pickles on disk,
    [predict_single] raises before it looks at the keywords. *)
Lemma override_needs_model :
  In "died" Classifier.SERIOUS_KEYWORDS
  /\ str_in "died" (lower "Patient died at home") = true
  /\ fst (Classifier.predict_single (H := sample_estimator)
            empty_disk nothing_loaded "Patient died at home")
     = Raise ClassifierNotLoadedError.
Proof.
  split; [|split].
  - unfold Classifier.SERIOUS_KEYWORDS. simpl. tauto.
  - reflexivity.
  - reflexivity.
Qed.

(** C9, amended: once the model is loaded, or can be loaded from disk,
    a text in which a keyword of the override list occurs gets
    "Serious" with probabilities 1.0 and 0.0 and confidence 1.0; the
    estimator is not consulted. *)
Theorem rule_override_when_model_available `{Classifier.Estimator}
    (d : Classifier.disk) (g : Classifier.globals) (text k : string) :
  In k Classifier.SERIOUS_KEYWORDS ->
  str_in k (lower text) = true ->
  Classifier.is_model_loaded g = true \/ fst (Classifier.load_model d g) = true ->
  exists res,
    fst (Classifier.predict_single d g text) = Ok res
    /\ res = Classifier.override_prediction
    /\ res !! "prediction" = Some (PyStr "Serious")
    /\ res !! "serious_probability" = Some (PyFloat 1.0)
    /\ res !! "non_serious_probability" = Some (PyFloat 0.0)
    /\ res !! "confidence" = Some (PyFloat 1.0).
Proof.
  intros Hin Hk Hload.
  pose proof (rule_override_of_keyword text k Hin Hk) as Hrule.
  exists Classifier.override_prediction.
  split; [|repeat split].
  unfold Classifier.predict_single.
  destruct (Classifier.is_model_loaded g) eqn:Hg.
  - cbn [negb]. rewrite Hrule. reflexivity.
  - destruct Hload as [Hl|Hl]; [discriminate|].
    destruct (Classifier.load_model d g) as [ok g1]. cbn [fst] in Hl. subst ok.
    cbn [negb]. rewrite Hrule. reflexivity.
Qed.

Lemma rule_override_when_model_available_witness :
  exists res,
    fst (Classifier.predict_single (H := sample_estimator)
           empty_disk model_loaded "Admitted to ICU with septic shock") = Ok res
    /\ res !! "prediction" = Some (PyStr "Serious")
    /\ res !! "confidence" = Some (PyFloat 1.0).
Proof.
  destruct (rule_override_when_model_available (H := sample_estimator)
              empty_disk model_loaded "Admitted to ICU with septic shock" "icu")
    as (res & Hres & _ & Hp & _ & _ & Hc).
  - unfold Classifier.SERIOUS_KEYWORDS. simpl. tauto.
  - reflexivity.
  - left. reflexivity.
  - exists res. repeat split; assumption.
Defined.

(* ===================================================================== *)
(** ** The similarity search                                              *)
(* ===================================================================== *)

Import VectorService.

(** An event built for a hit carries the id of that hit. *)
Lemma similar_event_report_id `{Runtime} (results : query_results)
    (query_symptoms : pyval) (i : nat) (report_id : string)
    (ev : gmap string pyval) :
  similar_event results query_symptoms i report_id = Ok ev ->
  ev !! "report_id" = Some (PyStr report_id).
Proof.
  unfold similar_event. intros Hev.
  repeat match type of Hev with
         | bind ?r _ = Ok _ => destruct r; cbn [bind] in Hev; [|discriminate]
         end.
  inversion Hev; subst ev. apply lookup_insert_eq.
Qed.

(** The loop keeps the invariant that no collected event carries the
    excluded id. *)
Lemma search_loop_excludes `{Runtime} (results : query_results)
    (query_symptoms : pyval) (R : string) (top_k : Z)
    (items : list (nat * string)) (acc res : list (gmap string pyval)) :
  R <> "" ->
  (forall ev, In ev acc ->
     exists rid, ev !! "report_id" = Some (PyStr rid) /\ rid <> R) ->
  search_loop results query_symptoms (Some R) top_k items acc = Ok res ->
  forall ev, In ev res ->
    exists rid, ev !! "report_id" = Some (PyStr rid) /\ rid <> R.
Proof.
  intros HR. revert acc res.
  induction items as [|[i rid] items IH]; intros acc res Hacc Hloop.
  - cbn [search_loop] in Hloop. inversion Hloop; subst res. exact Hacc.
  - cbn [search_loop] in Hloop.
    assert (Htruthy : str_truthy (Some R) = true).
    { destruct R; [now destruct HR | reflexivity]. }
    rewrite Htruthy in Hloop. cbn [andb] in Hloop.
    destruct (bool_decide (Some rid = Some R)) eqn:Hsame.
    + now apply (IH acc res).
    + apply bool_decide_eq_false in Hsame.
      destruct (similar_event results query_symptoms i rid) as [ev0|e] eqn:Hev;
        cbn [bind] in Hloop; [|discriminate].
      assert (Hacc' : forall ev, In ev (acc ++ [ev0]) ->
                exists rid', ev !! "report_id" = Some (PyStr rid') /\ rid' <> R).
      { intros ev Hin. apply in_app_or in Hin as [Hin|[Heq|[]]].
        - now apply Hacc.
        - subst ev. exists rid. split.
          + now apply (similar_event_report_id results query_symptoms i).
          + intros ->. now apply Hsame. }
      destruct (Z.of_nat (length (acc ++ [ev0])) >=? top_k).
      * inversion Hloop; subst res. exact Hacc'.
      * now apply (IH (acc ++ [ev0]) res).
Qed.

Lemma search_similar_events_excludes `{Runtime} `{VectorBackend}
    (coll : collection) (query_drugname query_event : string)
    (query_symptoms : pyval) (query_risk_level : option string)
    (R : string) (top_k : Z) (escalated_only : bool) :
  R <> "" ->
  forall ev,
    In ev (search_similar_events coll query_drugname query_event
             query_symptoms query_risk_level (Some R) top_k escalated_only) ->
    exists rid, ev !! "report_id" = Some (PyStr rid) /\ rid <> R.
Proof.
  intros HR ev. unfold search_similar_events.
  destruct (search_similar_events_body _ _ _ _ _ _ _ _) as [res|e] eqn:Hbody;
    [|intros []].
  unfold search_similar_events_body in Hbody.
  repeat match type of Hbody with
         | bind ?r _ = Ok _ => destruct r; cbn [bind] in Hbody; [|discriminate]
         end.
  destruct (ids _) as [|first rest] eqn:Hids.
  { inversion Hbody; subst res. intros []. }
  destruct first as [|rid0 first].
  { inversion Hbody; subst res. intros []. }
  eapply search_loop_excludes; [exact HR | | exact Hbody].
  intros ev0 [].
Qed.

(** Whatever id is excluded, the id of every collected event is one of
    the ids of the hits. *)
Lemma search_loop_ids_of_hits `{Runtime} (P : string -> Prop)
    (results : query_results) (query_symptoms : pyval)
    (current : option string) (top_k : Z)
    (items : list (nat * string)) (acc res : list (gmap string pyval)) :
  (forall i rid, In (i, rid) items -> P rid) ->
  (forall ev, In ev acc ->
     exists rid, ev !! "report_id" = Some (PyStr rid) /\ P rid) ->
  search_loop results query_symptoms current top_k items acc = Ok res ->
  forall ev, In ev res ->
    exists rid, ev !! "report_id" = Some (PyStr rid) /\ P rid.
Proof.
  revert acc res.
  induction items as [|[i rid] items IH]; intros acc res Hitems Hacc Hloop.
  - cbn [search_loop] in Hloop. inversion Hloop; subst res. exact Hacc.
  - cbn [search_loop] in Hloop.
    assert (Hrest : forall j rid', In (j, rid') items -> P rid').
    { intros j rid' Hin. apply (Hitems j). now right. }
    destruct (str_truthy current && bool_decide (Some rid = current))%bool.
    + now apply (IH acc res).
    + destruct (similar_event results query_symptoms i rid) as [ev0|e] eqn:Hev;
        cbn [bind] in Hloop; [|discriminate].
      assert (Hacc' : forall ev, In ev (acc ++ [ev0]) ->
                exists rid', ev !! "report_id" = Some (PyStr rid') /\ P rid').
      { intros ev Hin. apply in_app_or in Hin as [Hin|[Heq|[]]].
        - now apply Hacc.
        - subst ev. exists rid. split.
          + now apply (similar_event_report_id results query_symptoms i).
          + apply (Hitems i). now left. }
      destruct (Z.of_nat (length (acc ++ [ev0])) >=? top_k).
      * inversion Hloop; subst res. exact Hacc'.
      * now apply (IH (acc ++ [ev0]) res).
Qed.

(** Every event of the search carries an id that the collection holds. *)
Lemma search_similar_events_ids `{Runtime} `{VectorBackend}
    `{!ChromaCollection}
    (coll : collection) (query_drugname query_event : string)
    (query_symptoms : pyval) (query_risk_level current : option string)
    (top_k : Z) (escalated_only : bool) :
  forall ev,
    In ev (search_similar_events coll query_drugname query_event
             query_symptoms query_risk_level current top_k escalated_only) ->
    exists rid, ev !! "report_id" = Some (PyStr rid)
                /\ In rid (collection_ids coll).
Proof.
  intros ev. unfold search_similar_events.
  destruct (search_similar_events_body _ _ _ _ _ _ _ _) as [res|e] eqn:Hbody;
    [|intros []].
  unfold search_similar_events_body in Hbody.
  destruct (build_canonical_embedding_text _ _ _ _ _) as [query_text|];
    cbn [bind] in Hbody; [|discriminate].
  destruct (create_embedding query_text) as [emb|]; cbn [bind] in Hbody;
    [|discriminate].
  destruct (collection_query coll emb _ _) as [results|] eqn:Hquery;
    cbn [bind] in Hbody; [|discriminate].
  destruct (ids results) as [|first rest] eqn:Hids.
  { inversion Hbody; subst res. intros []. }
  destruct first as [|rid0 first].
  { inversion Hbody; subst res. intros []. }
  eapply search_loop_ids_of_hits; [| |exact Hbody].
  - intros i rid Hin. unfold enumerate in Hin. apply in_combine_r in Hin.
    apply (query_ids _ _ _ _ _ Hquery (rid0 :: first)); [|exact Hin].
    rewrite Hids. now left.
  - intros ev0 [].
Qed.

(** [index_audit_event] keeps a collection free of the empty id: the
    empty id is refused, and no other id is added than the report's. *)
Lemma index_audit_event_keeps_no_empty_id `{Runtime} `{VectorBackend}
    `{!ChromaCollection} (utcnow : string) (coll : collection)
    (report_id drugname adverse_event risk_level escalation_decision : string)
    (symptoms ml_probability : pyval) (timestamp : option string) :
  no_empty_id coll ->
  no_empty_id (snd (index_audit_event utcnow coll report_id drugname
                      adverse_event risk_level escalation_decision symptoms
                      ml_probability timestamp)).
Proof.
  intros Hcoll. unfold index_audit_event.
  destruct (index_audit_event_body _ _ _ _ _ _ _ _ _ _) as [coll'|e] eqn:Hbody;
    cbn [snd]; [|exact Hcoll].
  unfold index_audit_event_body in Hbody.
  destruct (build_canonical_embedding_text _ _ _ _ _) as [text|];
    cbn [bind] in Hbody; [|discriminate].
  destruct (create_embedding text) as [emb|]; cbn [bind] in Hbody;
    [|discriminate].
  unfold no_empty_id in *. rewrite List.Forall_forall in *.
  intros x Hx Hempty. subst x.
  destruct (upsert_ids _ _ _ _ _ _ Hbody "" Hx) as [Hid|Hold].
  - subst report_id.
    match type of Hbody with
    | collection_upsert _ _ _ _ ?metadata = _ =>
        pose proof (upsert_refuses_empty_id coll emb text metadata) as Hrefused
    end.
    rewrite Hbody in Hrefused. discriminate Hrefused.
  - now apply (Hcoll "" Hold).
Qed.

(** C8: for every [R], neither the search nor
    [get_similar_serious_events_vector] returns an event whose report id
    is [R].  A non-empty [R] is skipped by the loop, whatever the backend
    answers; the empty [R] switches the skip off, but is the id of no
    entry: the collection holds no entry under the empty id, as [upsert]
    refuses it ([index_audit_event_keeps_no_empty_id]). *)
Theorem excluded_report_never_returned `{Runtime} `{VectorBackend}
    `{!ChromaCollection}
    (coll : collection) (drugname adverse_event : string)
    (symptoms : pyval) (query_risk_level : option string)
    (risk_level : string) (R : string) (top_k : Z) (escalated_only : bool) :
  R <> "" \/ no_empty_id coll ->
  (forall ev,
     In ev (search_similar_events coll drugname adverse_event symptoms
              query_risk_level (Some R) top_k escalated_only) ->
     ev !! "report_id" <> Some (PyStr R))
  /\ (forall ev,
        In ev (AuditLogger.get_similar_serious_events_vector coll drugname
                 adverse_event symptoms risk_level R top_k) ->
        ev !! "report_id" <> Some (PyStr R)).
Proof.
  intros Hcase.
  assert (Hsearch : forall level only ev,
            In ev (search_similar_events coll drugname adverse_event symptoms
                     level (Some R) top_k only) ->
            exists rid, ev !! "report_id" = Some (PyStr rid) /\ rid <> R).
  { intros level only ev Hin.
    destruct (String.string_dec R "") as [Hempty|HR].
    - destruct Hcase as [HR|Hcoll]; [contradiction|].
      destruct (search_similar_events_ids coll drugname adverse_event symptoms
                  level (Some R) top_k only ev Hin) as (rid & Hrid & Hheld).
      exists rid. split; [exact Hrid|].
      unfold no_empty_id in Hcoll. rewrite List.Forall_forall in Hcoll.
      rewrite Hempty. now apply Hcoll.
    - now apply (search_similar_events_excludes coll drugname adverse_event
                   symptoms level R top_k only HR). }
  split.
  - intros ev Hin Heq.
    destruct (Hsearch query_risk_level escalated_only ev Hin)
      as (rid & Hrid & Hne).
    rewrite Hrid in Heq. inversion Heq. contradiction.
  - intros ev Hin Heq. unfold AuditLogger.get_similar_serious_events_vector in Hin.
    apply in_map_iff in Hin as (row & Hev & Hrow).
    destruct (Hsearch (Some risk_level) true row Hrow) as (rid & Hrid & Hne).
    subst ev. rewrite lookup_insert_eq in Heq.
    unfold AuditLogger.get_or_none, get in Heq. rewrite Hrid in Heq.
    inversion Heq. contradiction.
Qed.

Lemma excluded_report_never_returned_witness :
  let R := "RPT-20240301101500-0A1B2C3D" in
  let coll : list entry :=
    snd (index_audit_event (H := sample_runtime) (H0 := backend_in_memory)
           "2024-03-01T10:15:00"
           [ ("RPT-20240229080000-FFEE0011",
              {[ "escalation_decision" := PyStr "ESCALATE" ]},
              "Drug: warfarin") ]
           R "warfarin" "gastrointestinal bleeding" "HIGH" "ESCALATE"
           (PyList ["Bleeding"]) (PyFloat 0.9) None) in
  map (fun e : entry => fst (fst e)) coll
  = ["RPT-20240229080000-FFEE0011"; R]
  /\ map (fun ev => ev !! "report_id")
         (search_similar_events (H := sample_runtime) (H0 := backend_in_memory)
            coll "warfarin" "rectal bleeding" (PyList ["Bleeding"])
            (Some "HIGH") (Some R) 5 true)
     = [Some (PyStr "RPT-20240229080000-FFEE0011")]
  /\ forall ev,
       In ev (search_similar_events (H := sample_runtime) (H0 := backend_in_memory)
                coll "warfarin" "rectal bleeding" (PyList ["Bleeding"])
                (Some "HIGH") (Some R) 5 true) ->
       ev !! "report_id" <> Some (PyStr R).
Proof.
  intros R coll. split; [vm_compute; reflexivity|].
  split; [vm_compute; reflexivity|].
  apply (excluded_report_never_returned (H := sample_runtime)
           (H0 := backend_in_memory) (H1 := in_memory_collection)
           coll "warfarin" "rectal bleeding"
           (PyList ["Bleeding"]) (Some "HIGH") "HIGH" R 5 true).
  right.
  apply (index_audit_event_keeps_no_empty_id (H := sample_runtime)
           (H0 := backend_in_memory) (H1 := in_memory_collection)).
  repeat constructor. discriminate.
Defined.

(* ===================================================================== *)
(** ** The audit log                                                      *)
(* ===================================================================== *)

Import Db AuditLogger.

(** The value returned by [log_processing] is decided by the [INSERT]
    alone: the vector backend has no part in it. *)
Lemma log_processing_result `{Runtime} `{SqliteEngine} `{VectorBackend}
    (clk : clock) (db : database) (coll : collection)
    (report_id drugname adverse_event : string)
    (ml_prediction entities : gmap string pyval)
    (escalation_result : EscalationResult) (processing_time_ms : Q) :
  fst (fst (log_processing clk db coll report_id drugname adverse_event
              ml_prediction entities escalation_result processing_time_ms))
  = is_ok (insert_audit_log clk db report_id drugname adverse_event
             ml_prediction entities escalation_result processing_time_ms).
Proof.
  unfold log_processing.
  destruct (insert_audit_log _ _ _ _ _ _ _ _ _) as [db'|e]; [|reflexivity].
  destruct (index_audit_event _ _ _ _ _ _ _ _ _ _). reflexivity.
Qed.

(** C5: when the insert into the audit database succeeds,
    [log_processing] returns [True] and the database holds the new row,
    whatever the vector backend does -- also when indexing fails. *)
Theorem index_failure_does_not_fail_audit `{Runtime} `{SqliteEngine}
    `{VectorBackend}
    (clk : clock) (db db' : database) (coll : collection)
    (report_id drugname adverse_event : string)
    (ml_prediction entities : gmap string pyval)
    (escalation_result : EscalationResult) (processing_time_ms : Q) :
  insert_audit_log clk db report_id drugname adverse_event
    ml_prediction entities escalation_result processing_time_ms = Ok db' ->
  fst (fst (log_processing clk db coll report_id drugname adverse_event
              ml_prediction entities escalation_result processing_time_ms))
  = true
  /\ snd (fst (log_processing clk db coll report_id drugname adverse_event
                 ml_prediction entities escalation_result processing_time_ms))
     = db'.
Proof.
  intros Hins. unfold log_processing. rewrite Hins.
  destruct (index_audit_event _ _ _ _ _ _ _ _ _ _). split; reflexivity.
Qed.

Lemma index_failure_does_not_fail_audit_witness :
  let ml : gmap string pyval :=
    {[ "prediction" := PyStr "Serious"; "serious_probability" := PyFloat 0.4 ]} in
  let entities : gmap string pyval :=
    {[ "drug" := PyStr "propofol"; "symptoms" := PyList ["Coma"] ]} in
  fst (index_audit_event (H := sample_runtime) (H0 := backend_down)
         "2024-03-01T10:15:00.000000" tt
         "RPT-20240301101500-0A1B2C3D" "propofol" "coma after induction"
         "CRITICAL" "ESCALATE" (PyList ["Coma"]) (PyFloat 0.4)
         (Some "2024-03-01T10:15:00.000000")) = false
  /\ fst (fst (log_processing (H := sample_runtime) (H0 := sample_engine)
                 (H1 := backend_down) sample_clock database_with_default tt
                 "RPT-20240301101500-0A1B2C3D" "propofol" "coma after induction"
                 ml entities sample_result 12.5)) = true.
Proof.
  intros ml entities. split; [reflexivity|].
  destruct (insert_audit_log (H := sample_runtime) (H0 := sample_engine)
              sample_clock database_with_default
              "RPT-20240301101500-0A1B2C3D" "propofol" "coma after induction"
              ml entities sample_result 12.5) as [db'|e] eqn:Hins.
  - apply (index_failure_does_not_fail_audit (H := sample_runtime)
             (H0 := sample_engine) (H1 := backend_down)
             sample_clock database_with_default db' tt
             "RPT-20240301101500-0A1B2C3D" "propofol" "coma after induction"
             ml entities sample_result 12.5 Hins).
  - vm_compute in Hins. discriminate Hins.
Defined.

Lemma assoc_combine_absent {A : Type} (key : string) (names : list string)
    (values : list A) :
  ~ In key names -> assoc key (combine names values) = None.
Proof.
  revert values. induction names as [|n names IH]; intros values Hnot.
  - reflexivity.
  - destruct values as [|v values]; [reflexivity|]. cbn [combine assoc].
    destruct (String.eqb_spec key n) as [->|Hne].
    + destruct Hnot. now left.
    + apply IH. intros Hin. apply Hnot. now right.
Qed.

(** On a table declared as in [init_database] the [INSERT] of
    [log_processing] cannot succeed: it names no value for [timestamp],
    which is [NOT NULL] and has no default. *)
Lemma insert_fails_on_declared_schema `{Runtime} `{SqliteEngine}
    (clk : clock) (db : database) (t : table)
    (report_id drugname adverse_event : string)
    (ml_prediction entities : gmap string pyval)
    (escalation_result : EscalationResult) (processing_time_ms : Q) :
  db !! "audit_log" = Some t ->
  tbl_columns t = audit_log_columns ->
  is_ok (insert_audit_log clk db report_id drugname adverse_event
           ml_prediction entities escalation_result processing_time_ms) = false.
Proof.
  intros Ht Hcols. unfold insert_audit_log. rewrite Ht.
  destruct (bind_params _) as [values|e]; [|reflexivity].
  cbn [bind]. unfold insert_row. rewrite Hcols.
  destruct (negb _); [reflexivity|].
  set (supplied := combine _ values).
  assert (Hts : assoc "timestamp" supplied = None).
  { apply assoc_combine_absent. cbn. intros Hin.
    repeat (destruct Hin as [Hin|Hin]; [discriminate Hin|]). exact Hin. }
  assert (Hviol : existsb (fun cv => violates_not_null (fst cv) (snd cv))
                    (combine audit_log_columns
                       (map (new_cell clk (tbl_sequence t + 1) supplied)
                            audit_log_columns)) = true).
  { apply existsb_exists.
    exists (mk_column "timestamp" TEXT true, SqlNull). split; [|reflexivity].
    unfold audit_log_columns. cbn [map combine].
    do 2 right. left. f_equal.
    unfold new_cell. cbn [mk_column col_type col_name col_default].
    rewrite Hts. reflexivity. }
  rewrite Hviol. reflexivity.
Qed.

(** The tables after [init_database]: those before, and [audit_log]
    as declared when the first statement created it. *)
Lemma init_database_tables (indexes : gset string) (db : database) :
  snd (snd (init_database indexes db))
  = match create_audit_log_if_not_exists indexes db with
    | Ok db1 => db1
    | Raise _ => db
    end.
Proof.
  unfold init_database.
  destruct (create_audit_log_if_not_exists indexes db) as [db1|e];
    [|reflexivity].
  repeat match goal with
         | |- context [create_index_if_not_exists ?n ?t ?c ?i ?d] =>
             destruct (create_index_if_not_exists n t c i d)
         end; reflexivity.
Qed.

(** Hence, on the table that [init_database] creates in a file that had
    none, every call of [log_processing] returns [False] and writes
    nothing. *)
Lemma log_processing_after_init_database `{Runtime} `{SqliteEngine}
    `{VectorBackend} (clk : clock) (coll : collection)
    (indexes : gset string) (db : database)
    (report_id drugname adverse_event : string)
    (ml_prediction entities : gmap string pyval)
    (escalation_result : EscalationResult) (processing_time_ms : Q) :
  db !! "audit_log" = None ->
  fst (init_database indexes db) = Ok tt ->
  let db' := snd (snd (init_database indexes db)) in
  log_processing clk db' coll report_id drugname adverse_event
    ml_prediction entities escalation_result processing_time_ms
  = (false, db', coll)
  /\ get_audit_by_report_id db' report_id = Ok None.
Proof.
  intros Hnone Hok. cbv zeta. rewrite init_database_tables.
  unfold init_database in Hok. unfold create_audit_log_if_not_exists in *.
  rewrite Hnone in *.
  destruct (bool_decide ("audit_log" ∈ indexes)); [discriminate Hok|].
  clear Hok.
  set (t := {| tbl_columns := audit_log_columns; tbl_rows := [];
               tbl_sequence := 0 |}).
  assert (Ht : (<["audit_log" := t]> db : database) !! "audit_log" = Some t)
    by apply lookup_insert_eq.
  split.
  - pose proof (insert_fails_on_declared_schema clk _ t
                  report_id drugname adverse_event ml_prediction entities
                  escalation_result processing_time_ms Ht eq_refl) as Hfail.
    unfold log_processing.
    destruct (insert_audit_log _ _ _ _ _ _ _ _ _) as [db'|e].
    + discriminate Hfail.
    + reflexivity.
  - unfold get_audit_by_report_id. rewrite Ht. reflexivity.
Qed.


Ltac peel_column Hsig :=
  match type of Hsig with
  | signature ?cols = _ :: _ =>
      let n := fresh "n" in let ty := fresh "ty" in
      let nn := fresh "nn" in let d := fresh "d" in
      let rest := fresh "cols" in
      destruct cols as [|[n ty nn d] rest]; [discriminate Hsig|];
      unfold signature in Hsig; cbn [map col_name col_type] in Hsig;
      fold (signature rest) in Hsig;
      injection Hsig as -> -> Hsig
  end.

Ltac peel_end Hsig :=
  match type of Hsig with
  | signature ?cols = [] => destruct cols; [clear Hsig | discriminate Hsig]
  end.

(** From the signature of [audit_log] to its fifteen columns, each with
    its own constraint and default. *)
Ltac explicit_columns Hsig :=
  unfold audit_log_columns in Hsig;
  unfold signature at 2 in Hsig;
  cbn [map mk_column col_name col_type] in Hsig;
  do 15 peel_column Hsig; peel_end Hsig.



(* ===================================================================== *)
(** ** The keyword scorer and the escalation engine, continued            *)
(* ===================================================================== *)

(** [k in s] holds exactly when [s] splits around an occurrence of [k]. *)
Lemma startswith_spec (k s : string) :
  startswith k s = true <-> exists b, s = k +:+ b.
Proof.
  revert s. induction k as [|a k IH]; intros s; simpl.
  - split; [intros _; now exists s | reflexivity].
  - destruct s as [|c s].
    + split; [discriminate | intros [b Hb]; discriminate Hb].
    + rewrite andb_true_iff, Ascii.eqb_eq, IH. split.
      * intros [-> [b ->]]. now exists b.
      * intros [b Hb]. injection Hb as -> ->. split; [reflexivity | now exists b].
Qed.

Lemma str_in_spec (k s : string) :
  str_in k s = true <-> exists a b, s = a +:+ k +:+ b.
Proof.
  induction s as [|c s IH].
  - simpl. rewrite orb_false_r, startswith_spec. split.
    + intros [b Hb]. now exists "", b.
    + intros [a [b Hab]]. destruct a; [now exists b | discriminate Hab].
  - cbn [str_in]. rewrite orb_true_iff, startswith_spec, IH. split.
    + intros [[b Hb] | [a [b Hab]]].
      * now exists "", b.
      * exists (String c a), b. simpl. now rewrite Hab.
    + intros [a [b Hab]]. destruct a as [|c' a].
      * left. now exists b.
      * right. simpl in Hab. injection Hab as -> ->. now exists a, b.
Qed.

Lemma keyword_loop_triggered (table : list (string * Z)) (text : string)
    (tr : list string) (m : Z) :
  fst (keyword_loop table text (tr, m))
  = tr ++ map fst (List.filter (fun e => str_in (fst e) text) table).
Proof.
  revert tr m. induction table as [|[k w] table IH]; intros tr m.
  - simpl. now rewrite app_nil_r.
  - unfold keyword_loop in *. cbn [fold_left keyword_step List.filter fst].
    destruct (str_in k text).
    + rewrite IH. cbn [map fst]. now rewrite <- app_assoc.
    + apply IH.
Qed.

Lemma keyword_loop_max_cases (table : list (string * Z)) (text : string)
    (tr : list string) (m : Z) :
  snd (keyword_loop table text (tr, m)) = m
  \/ exists k, In (k, snd (keyword_loop table text (tr, m))) table
               /\ str_in k text = true.
Proof.
  revert tr m. induction table as [|[k w] table IH]; intros tr m.
  - now left.
  - unfold keyword_loop in *. cbn [fold_left keyword_step].
    destruct (str_in k text) eqn:Hk.
    + destruct (IH (tr ++ [k]) (Z.max m w)) as [Heq | [k' [Hin Hk']]].
      * rewrite Heq. destruct (Z.max_spec m w) as [[_ ->] | [_ ->]].
        -- right. exists k. split; [now left | exact Hk].
        -- now left.
      * right. exists k'. split; [now right | exact Hk'].
    + destruct (IH tr m) as [Heq | [k' [Hin Hk']]].
      * now left.
      * right. exists k'. split; [now right | exact Hk'].
Qed.

Lemma table_weights :
  forall k w, In (k, w) SERIOUS_KEYWORDS -> 7 <= w <= 10.
Proof.
  assert (H : forallb (fun e => (7 <=? snd e) && (snd e <=? 10))%bool
                SERIOUS_KEYWORDS = true) by reflexivity.
  intros k w Hin. rewrite forallb_forall in H. specialize (H _ Hin).
  cbn [snd] in H. lia.
Qed.

(** The keyword score lies in [0,1] and is zero or at least 0.7. *)
Lemma keyword_score_range (text : string) :
  let score := fst (calculate_keyword_score text) in
  (0 <= score)%Q /\ (score <= 1)%Q
  /\ (score = 0%Q \/ (0.7 <= score)%Q).
Proof.
  cbv zeta. rewrite calculate_keyword_score_unfold. cbn [fst snd].
  destruct (keyword_loop_max_cases SERIOUS_KEYWORDS (lower text) [] 0)
    as [-> | [k [Hin _]]].
  - repeat split; [apply Qle_refl | unfold Qle; simpl; lia | now left].
  - apply table_weights in Hin.
    set (m := snd (keyword_loop SERIOUS_KEYWORDS (lower text) ([], 0))) in *.
    unfold normalize. destruct (Z.ltb_spec 0 m); [|lia].
    repeat split; [| | right]; unfold Qle; simpl; lia.
Qed.

Lemma table_keys_nodup : NoDup (map fst SERIOUS_KEYWORDS).
Proof. apply (bool_decide_unpack _). vm_compute. reflexivity. Qed.

Lemma nodup_map_filter {A B : Type} (f : A -> B) (p : A -> bool) (l : list A) :
  NoDup (map f l) -> NoDup (map f (List.filter p l)).
Proof.
  induction l as [|a l IH]; intros Hnd; simpl.
  - constructor.
  - inversion Hnd as [|x xs Hnotin Hrest]; subst.
    destruct (p a); [|now apply IH]. simpl. constructor; [|now apply IH].
    intros Hin. apply Hnotin. apply list_elem_of_In in Hin.
    apply list_elem_of_In.
    apply in_map_iff in Hin as [a' [Ha' Hin]].
    apply List.filter_In in Hin as [Hin _].
    apply in_map_iff. now exists a'.
Qed.

(** The triggered keywords, as one expression over the table. *)
Lemma triggered_keywords_filter (text : string) :
  snd (calculate_keyword_score text)
  = map fst (List.filter (fun e => str_in (fst e) (lower text)) SERIOUS_KEYWORDS).
Proof.
  rewrite calculate_keyword_score_unfold. cbn [snd].
  rewrite keyword_loop_triggered. reflexivity.
Qed.

Lemma triggered_keyword_iff (text k : string) :
  In k (snd (calculate_keyword_score text)) <->
  In k (map fst SERIOUS_KEYWORDS) /\ exists a b, lower text = a +:+ k +:+ b.
Proof.
  rewrite triggered_keywords_filter, <- str_in_spec. split.
  - intros Hin. apply in_map_iff in Hin as [[k' w] [Hk Hin]].
    cbn [fst] in Hk. subst k'.
    apply List.filter_In in Hin as [Hin Hocc]. split; [|exact Hocc].
    apply in_map_iff. exists (k, w). split; [reflexivity | exact Hin].
  - intros [Hin Hocc]. apply in_map_iff in Hin as [[k' w] [Hk Hin]].
    cbn [fst] in Hk. subst k'.
    apply in_map_iff. exists (k, w). split; [reflexivity|].
    apply List.filter_In. split; assumption.
Qed.

(** X1: the triggered keywords are the keywords of the table that occur
    in the lower-cased text, in table order and without repetition. *)
Theorem triggered_keywords_are_occurrences (text : string) :
  let triggered := snd (calculate_keyword_score text) in
  triggered
  = map fst (List.filter (fun e => str_in (fst e) (lower text)) SERIOUS_KEYWORDS)
  /\ NoDup triggered
  /\ forall k,
       In k triggered <->
       In k (map fst SERIOUS_KEYWORDS)
       /\ exists a b, lower text = a +:+ k +:+ b.
Proof.
  cbv zeta. split; [apply triggered_keywords_filter|]. split.
  - rewrite triggered_keywords_filter.
    apply nodup_map_filter, table_keys_nodup.
  - apply triggered_keyword_iff.
Qed.

(** X2: the score is the largest weight among the occurring keywords,
    over ten; it is zero exactly when none occurs. *)
Theorem keyword_score_is_max_weight (text : string) :
  let score := fst (calculate_keyword_score text) in
  let triggered := snd (calculate_keyword_score text) in
  (triggered = [] /\ score = 0%Q)
  \/ (exists k w,
        In (k, w) SERIOUS_KEYWORDS /\ In k triggered
        /\ (score == inject_Z w / 10)%Q
        /\ forall k' w', In (k', w') SERIOUS_KEYWORDS -> In k' triggered -> w' <= w).
Proof.
  cbv zeta.
  pose proof (triggered_keyword_iff text) as Hiff.
  rewrite calculate_keyword_score_unfold in *. cbn [fst snd] in *.
  pose proof (keyword_loop_max_cases SERIOUS_KEYWORDS (lower text) [] 0) as Hmax.
  assert (Hge : forall k w, In (k, w) SERIOUS_KEYWORDS ->
                  str_in k (lower text) = true ->
                  w <= snd (keyword_loop SERIOUS_KEYWORDS (lower text) ([], 0))).
  { intros k w. apply keyword_loop_ge_weight. }
  set (loop := keyword_loop SERIOUS_KEYWORDS (lower text) ([], 0)) in *.
  clearbody loop.
  destruct Hmax as [Hzero | [k [Hin Hocc]]].
  - left. rewrite Hzero. split; [|reflexivity].
    destruct (fst loop) as [|k tr] eqn:Hloop; [reflexivity|exfalso].
    assert (Hk : In k (k :: tr)) by (left; reflexivity).
    apply Hiff in Hk as [Hkin Hocc]. apply str_in_spec in Hocc.
    apply in_map_iff in Hkin as [[k' w] [Hfst Hkin]]. cbn [fst] in Hfst. subst k'.
    pose proof (Hge k w Hkin Hocc) as Hle.
    apply table_weights in Hkin. lia.
  - right. exists k, (snd loop). split; [exact Hin|]. split; [|split].
    + apply Hiff. split.
      * apply in_map_iff. exists (k, snd loop). split; [reflexivity | exact Hin].
      * apply str_in_spec. exact Hocc.
    + unfold normalize. pose proof (table_weights _ _ Hin) as Hw.
      destruct (Z.ltb_spec 0 (snd loop)); [apply Qeq_refl | lia].
    + intros k' w' Hin' Htrig. apply Hiff in Htrig as [_ Hocc'].
      apply str_in_spec in Hocc'. exact (Hge k' w' Hin' Hocc').
Qed.

Lemma lower_ascii_idempotent (c : ascii) : lower_ascii (lower_ascii c) = lower_ascii c.
Proof. destruct c as [[] [] [] [] [] [] [] []]; reflexivity. Qed.

Lemma lower_idempotent (s : string) : lower (lower s) = lower s.
Proof.
  induction s as [|c s IH]; simpl; [reflexivity|].
  now rewrite lower_ascii_idempotent, IH.
Qed.

Lemma lower_join (sep : string) (xs : list string) :
  lower (join sep xs) = join (lower sep) (map lower xs).
Proof.
  induction xs as [|x xs IH]; [reflexivity|].
  destruct xs as [|y xs]; [reflexivity|].
  change (join sep (x :: y :: xs)) with (x +:+ sep +:+ join sep (y :: xs)).
  rewrite !lower_app, IH. reflexivity.
Qed.

(** The lower-cased scanned text only depends on the lower-cased drug
    name and event text. *)
Lemma lower_combined_text (d d' ae ae' : string)
    (entities : option (gmap string pyval)) :
  lower d = lower d' -> lower ae = lower ae' ->
  lower (combined_text d ae entities) = lower (combined_text d' ae' entities).
Proof.
  intros Hd Hae. unfold combined_text.
  assert (Hbase : lower (d +:+ " " +:+ ae) = lower (d' +:+ " " +:+ ae')).
  { rewrite !lower_app. now rewrite Hd, Hae. }
  destruct entities as [e|]; [|exact Hbase].
  destruct (dict_truthy e); [|exact Hbase].
  destruct (get e "symptoms" (PyList [])); try exact Hbase.
  rewrite (lower_app (d +:+ " " +:+ ae)), (lower_app (d' +:+ " " +:+ ae')).
  now rewrite Hbase.
Qed.

Lemma keyword_score_of_lower (t t' : string) :
  lower t = lower t' -> calculate_keyword_score t = calculate_keyword_score t'.
Proof.
  intros H. rewrite !calculate_keyword_score_unfold. now rewrite H.
Qed.

(** X3: the letter case of the drug name and of the event text never
    changes the result of [evaluate_escalation]. *)
Theorem evaluate_escalation_ignores_case `{Runtime}
    (ml_prediction : gmap string pyval) (d d' ae ae' : string)
    (entities : option (gmap string pyval)) :
  lower d = lower d' -> lower ae = lower ae' ->
  evaluate_escalation ml_prediction d ae entities
  = evaluate_escalation ml_prediction d' ae' entities.
Proof.
  intros Hd Hae. unfold evaluate_escalation.
  rewrite (keyword_score_of_lower (combined_text d ae entities)
             (combined_text d' ae' entities)
             (lower_combined_text d d' ae ae' entities Hd Hae)).
  reflexivity.
Qed.

Lemma evaluate_escalation_ignores_case_witness :
  evaluate_escalation (H := sample_runtime)
    {[ "serious_probability" := PyFloat 0.2 ]}
    "WARFARIN" "Patient was Hospitalized" None
  = evaluate_escalation (H := sample_runtime)
      {[ "serious_probability" := PyFloat 0.2 ]}
      "warfarin" "patient was hospitalized" None.
Proof.
  apply (evaluate_escalation_ignores_case (H := sample_runtime));
    reflexivity.
Defined.

(** X4: for an ML probability in [0,1] the final score lies in [0,1]. *)
Theorem final_score_in_unit_interval `{Runtime}
    (ml_prediction : gmap string pyval) (drugname adverse_event : string)
    (entities : option (gmap string pyval)) (p : Q) :
  get ml_prediction "serious_probability" (PyFloat 0.5) = PyFloat p ->
  (0 <= p)%Q -> (p <= 1)%Q ->
  exists r,
    evaluate_escalation ml_prediction drugname adverse_event entities = Ok r
    /\ (0 <= final_score r)%Q /\ (final_score r <= 1)%Q
    /\ (0 <= keyword_score r)%Q /\ (keyword_score r <= 1)%Q.
Proof.
  intros Hp H0 H1.
  destruct (evaluate_escalation_number ml_prediction drugname adverse_event
              entities p Hp) as (r & Hr & _ & Hks & Hf & _).
  exists r. split; [exact Hr|].
  destruct (keyword_score_range (combined_text drugname adverse_event entities))
    as (Hk0 & Hk1 & _).
  cbv zeta in Hk0, Hk1. rewrite <- Hks in Hk0, Hk1.
  rewrite Hf. unfold KEYWORD_WEIGHT.
  destruct (ge (keyword_score r) 0.8).
  - unfold max2. destruct (Qlt_le_dec p (keyword_score r)); repeat split; lra.
  - repeat split; lra.
Qed.

Lemma final_score_in_unit_interval_witness :
  exists r,
    evaluate_escalation (H := sample_runtime)
      {[ "serious_probability" := PyFloat 1 ]}
      "heparin" "fatal haemorrhage" None = Ok r
    /\ (0 <= final_score r)%Q /\ (final_score r <= 1)%Q.
Proof.
  destruct (final_score_in_unit_interval (H := sample_runtime)
              {[ "serious_probability" := PyFloat 1 ]}
              "heparin" "fatal haemorrhage" None 1)
    as (r & Hr & H0 & H1 & _).
  - reflexivity.
  - unfold Qle; simpl; lia.
  - unfold Qle; simpl; lia.
  - exists r. repeat split; assumption.
Defined.

(** X5: on the same text, a larger ML probability never lowers the final
    score and never withdraws an escalation. *)
Theorem escalation_monotone_in_probability `{Runtime}
    (ml ml' : gmap string pyval) (drugname adverse_event : string)
    (entities : option (gmap string pyval)) (p p' : Q) :
  get ml "serious_probability" (PyFloat 0.5) = PyFloat p ->
  get ml' "serious_probability" (PyFloat 0.5) = PyFloat p' ->
  (p <= p')%Q ->
  exists r r',
    evaluate_escalation ml drugname adverse_event entities = Ok r
    /\ evaluate_escalation ml' drugname adverse_event entities = Ok r'
    /\ (final_score r <= final_score r')%Q
    /\ (should_escalate r = true -> should_escalate r' = true).
Proof.
  intros Hp Hp' Hle.
  destruct (evaluate_escalation_number ml drugname adverse_event entities p Hp)
    as (r & Hr & _ & Hks & Hf & Hesc & _).
  destruct (evaluate_escalation_number ml' drugname adverse_event entities p' Hp')
    as (r' & Hr' & _ & Hks' & Hf' & Hesc' & _).
  exists r, r'. split; [exact Hr|]. split; [exact Hr'|].
  assert (Hsame : keyword_score r' = keyword_score r) by congruence.
  rewrite Hsame in Hf', Hesc'.
  assert (Hfle : (final_score r <= final_score r')%Q).
  { rewrite Hf, Hf'. unfold KEYWORD_WEIGHT.
    destruct (ge (keyword_score r) 0.8).
    - unfold max2.
      destruct (Qlt_le_dec p (keyword_score r));
        destruct (Qlt_le_dec p' (keyword_score r)); lra.
    - lra. }
  split; [exact Hfle|].
  rewrite Hesc, Hesc'. intros Hor. apply orb_true_iff in Hor as [Hge|Hk].
  - apply orb_true_iff. left. apply ge_true_iff. apply ge_true_iff in Hge. lra.
  - rewrite Hk. apply orb_true_r.
Qed.

Lemma escalation_monotone_in_probability_witness :
  exists r r',
    evaluate_escalation (H := sample_runtime)
      {[ "serious_probability" := PyFloat 0.87 ]} "digoxin" "dizziness" None = Ok r
    /\ evaluate_escalation (H := sample_runtime)
         {[ "serious_probability" := PyFloat 0.95 ]} "digoxin" "dizziness" None = Ok r'
    /\ (final_score r <= final_score r')%Q.
Proof.
  destruct (escalation_monotone_in_probability (H := sample_runtime)
              {[ "serious_probability" := PyFloat 0.87 ]}
              {[ "serious_probability" := PyFloat 0.95 ]}
              "digoxin" "dizziness" None 0.87 0.95)
    as (r & r' & Hr & Hr' & Hle & _).
  - reflexivity.
  - reflexivity.
  - unfold Qle; simpl; lia.
  - exists r, r'. repeat split; assumption.
Defined.

Lemma evaluate_escalation_triggered `{Runtime}
    (ml_prediction : gmap string pyval) (drugname adverse_event : string)
    (entities : option (gmap string pyval)) (r : EscalationResult) :
  evaluate_escalation ml_prediction drugname adverse_event entities = Ok r ->
  keyword_score r
  = fst (calculate_keyword_score (combined_text drugname adverse_event entities))
  /\ triggered_keywords r
     = snd (calculate_keyword_score (combined_text drugname adverse_event entities)).
Proof.
  unfold evaluate_escalation.
  destruct (calculate_keyword_score _) as [ks tr].
  destruct (as_number _) as [p|e]; cbn [bind]; [|discriminate].
  intros Hr. injection Hr as <-. split; reflexivity.
Qed.

Lemma str_in_join (k sep : string) (xs : list string) (x : string) :
  In x xs -> str_in k x = true -> str_in k (join sep xs) = true.
Proof.
  induction xs as [|y xs IH]; intros Hin Hk; [destruct Hin|].
  destruct xs as [|z xs].
  - destruct Hin as [->|[]]. exact Hk.
  - change (join sep (y :: z :: xs)) with (y +:+ sep +:+ join sep (z :: xs)).
    destruct Hin as [->|Hin].
    + now apply str_in_app_l.
    + apply str_in_app_r, str_in_app_r. now apply IH.
Qed.

Lemma dict_truthy_of_lookup (d : gmap string pyval) (key : string) (v : pyval) :
  d !! key = Some v -> dict_truthy d = true.
Proof.
  intros Hlook. unfold dict_truthy. apply negb_true_iff.
  apply bool_decide_eq_false. intros ->. now rewrite lookup_empty in Hlook.
Qed.

(** The drug name, the event text and every listed symptom are part of
    the scanned text. *)
Lemma keyword_in_any_field_is_scanned (drugname adverse_event : string)
    (entities : option (gmap string pyval)) (k : string) :
  str_in k (lower drugname) = true
  \/ str_in k (lower adverse_event) = true
  \/ (exists e symptoms s,
        entities = Some e /\ e !! "symptoms" = Some (PyList symptoms)
        /\ In s symptoms /\ str_in k (lower s) = true) ->
  str_in k (lower (combined_text drugname adverse_event entities)) = true.
Proof.
  intros [Hd | [Hae | (e & symptoms & s & -> & He & Hin & Hs)]].
  - assert (Hbase : str_in k (lower (drugname +:+ " " +:+ adverse_event)) = true).
    { rewrite lower_app. now apply str_in_app_l. }
    unfold combined_text.
    destruct entities as [e|]; [|exact Hbase].
    destruct (dict_truthy e); [|exact Hbase].
    destruct (get e "symptoms" (PyList [])); try exact Hbase.
    rewrite (lower_app (drugname +:+ " " +:+ adverse_event)).
    now apply str_in_app_l.
  - now apply keyword_in_event_is_scanned.
  - unfold combined_text. rewrite (dict_truthy_of_lookup e _ _ He).
    unfold get. rewrite He.
    rewrite (lower_app (drugname +:+ " " +:+ adverse_event)).
    rewrite (lower_app " " (join " " symptoms)).
    apply str_in_app_r, str_in_app_r. rewrite lower_join.
    apply (str_in_join k _ _ (lower s)); [|exact Hs].
    apply in_map_iff. now exists s.
Qed.

(** X6: a keyword of the table that occurs, in any letter case, in the
    drug name, in the event text or in one of the extracted symptoms is
    reported as triggered, and the keyword score is at least its weight
    over ten. *)
Theorem keyword_in_any_field_is_triggered `{Runtime}
    (ml_prediction : gmap string pyval) (drugname adverse_event : string)
    (entities : option (gmap string pyval)) (p : Q) (k : string) (w : Z) :
  get ml_prediction "serious_probability" (PyFloat 0.5) = PyFloat p ->
  In (k, w) SERIOUS_KEYWORDS ->
  str_in k (lower drugname) = true
  \/ str_in k (lower adverse_event) = true
  \/ (exists e symptoms s,
        entities = Some e /\ e !! "symptoms" = Some (PyList symptoms)
        /\ In s symptoms /\ str_in k (lower s) = true) ->
  exists r,
    evaluate_escalation ml_prediction drugname adverse_event entities = Ok r
    /\ In k (triggered_keywords r)
    /\ (inject_Z w / 10 <= keyword_score r)%Q.
Proof.
  intros Hp Hin Hocc.
  apply keyword_in_any_field_is_scanned in Hocc.
  destruct (evaluate_escalation_number ml_prediction drugname adverse_event
              entities p Hp) as (r & Hr & _).
  exists r. split; [exact Hr|].
  destruct (evaluate_escalation_triggered _ _ _ _ r Hr) as [Hks Htr].
  rewrite Hks, Htr. clear Hks Htr Hr.
  split.
  - rewrite calculate_keyword_score_unfold. cbn [snd].
    rewrite keyword_loop_triggered. cbn [app].
    apply in_map_iff. exists (k, w). split; [reflexivity|].
    apply List.filter_In. split; [exact Hin | exact Hocc].
  - rewrite calculate_keyword_score_unfold. cbn [fst].
    pose proof (keyword_loop_ge_weight SERIOUS_KEYWORDS _ [] 0 k w Hin Hocc) as Hge.
    pose proof (table_weights k w Hin) as Hw.
    generalize dependent (snd (keyword_loop SERIOUS_KEYWORDS
       (lower (combined_text drugname adverse_event entities)) ([], 0))).
    intros m Hge. unfold normalize.
    destruct (Z.ltb_spec 0 m); [|lia]. unfold Qle; simpl; lia.
Qed.

Lemma keyword_in_any_field_is_triggered_witness :
  exists r,
    evaluate_escalation (H := sample_runtime)
      {[ "serious_probability" := PyFloat 0.1 ]}
      "amiodarone" "felt unwell"
      (Some {[ "symptoms" := PyList ["Fatigue"; "Cardiac Arrest"] ]}) = Ok r
    /\ In "cardiac arrest" (triggered_keywords r).
Proof.
  destruct (keyword_in_any_field_is_triggered (H := sample_runtime)
              {[ "serious_probability" := PyFloat 0.1 ]}
              "amiodarone" "felt unwell"
              (Some {[ "symptoms" := PyList ["Fatigue"; "Cardiac Arrest"] ]})
              0.1 "cardiac arrest" 9)
    as (r & Hr & Hin & _).
  - reflexivity.
  - unfold SERIOUS_KEYWORDS. simpl. tauto.
  - right. right.
    exists {[ "symptoms" := PyList ["Fatigue"; "Cardiac Arrest"] ]},
           ["Fatigue"; "Cardiac Arrest"], "Cardiac Arrest".
    repeat split. right. left. reflexivity.
  - exists r. split; assumption.
Defined.

(** X7: the prediction that the override gate of the classifier returns
    (probability 1.0) is always escalated, with a final score of at
    least 0.7 and a risk level of HIGH or CRITICAL, whatever the text. *)
Theorem gate_prediction_is_escalated `{Runtime}
    (drugname adverse_event : string) (entities : option (gmap string pyval)) :
  exists r,
    evaluate_escalation Classifier.override_prediction drugname adverse_event
      entities = Ok r
    /\ should_escalate r = true
    /\ (0.7 <= final_score r)%Q
    /\ (risk_level r = "HIGH" \/ risk_level r = "CRITICAL").
Proof.
  destruct (evaluate_escalation_number Classifier.override_prediction drugname
              adverse_event entities 1.0) as (r & Hr & _ & Hks & Hf & Hesc & Hrl).
  { reflexivity. }
  exists r. split; [exact Hr|].
  destruct (keyword_score_range (combined_text drugname adverse_event entities))
    as (Hk0 & Hk1 & _).
  cbv zeta in Hk0, Hk1. rewrite <- Hks in Hk0, Hk1.
  assert (Hfs : (0.7 <= final_score r)%Q).
  { rewrite Hf. unfold KEYWORD_WEIGHT. destruct (ge (keyword_score r) 0.8).
    - unfold max2. destruct (Qlt_le_dec 1.0 (keyword_score r)); lra.
    - lra. }
  split; [|split; [exact Hfs|]].
  - rewrite Hesc. apply orb_true_iff. left. apply ge_true_iff.
    unfold ESCALATION_THRESHOLD. lra.
  - rewrite Hrl. unfold determine_risk_level.
    destruct (ge (final_score r) 0.85); [now right|].
    destruct (ge (final_score r) 0.7) eqn:Hge; [now left|].
    apply ge_false_iff in Hge. lra.
Qed.

(** X8: without a keyword the ML probability decides alone, through
    the blended score: a probability of at most 0.85 is never escalated
    and a probability of at least 0.86 always is.  For exact numbers the
    switch lies at 6/7; the float next to it rounds onto the threshold,
    so nothing is said between the two bounds. *)
Theorem no_keyword_escalation_band `{Runtime}
    (ml_prediction : gmap string pyval) (drugname adverse_event : string)
    (entities : option (gmap string pyval)) (p : Q) :
  get ml_prediction "serious_probability" (PyFloat 0.5) = PyFloat p ->
  no_keyword_occurs (combined_text drugname adverse_event entities) = true ->
  exists r,
    evaluate_escalation ml_prediction drugname adverse_event entities = Ok r
    /\ ((p <= 0.85)%Q -> should_escalate r = false)
    /\ ((0.86 <= p)%Q -> should_escalate r = true).
Proof.
  intros Hp Hnone.
  destruct (evaluate_escalation_number ml_prediction drugname adverse_event
              entities p Hp) as (r & Hr & _ & Hks & Hf & Hesc & _).
  exists r. split; [exact Hr|].
  rewrite (keyword_score_no_match _ Hnone) in Hks. cbn [fst] in Hks.
  rewrite Hks in Hf, Hesc.
  change (ge 0 0.8) with false in Hf, Hesc. rewrite orb_false_r in Hesc.
  assert (Hfs : (final_score r == 0.7 * p)%Q).
  { rewrite Hf. unfold KEYWORD_WEIGHT. lra. }
  rewrite Hesc. unfold ESCALATION_THRESHOLD. split.
  - intros Hlow. apply ge_false_iff. lra.
  - intros Hhigh. apply ge_true_iff. lra.
Qed.

Lemma no_keyword_escalation_band_witness :
  exists r,
    evaluate_escalation (H := sample_runtime)
      {[ "serious_probability" := PyFloat 0.8 ]}
      "cetirizine" "mild headache" None = Ok r
    /\ should_escalate r = false.
Proof.
  destruct (no_keyword_escalation_band (H := sample_runtime)
              {[ "serious_probability" := PyFloat 0.8 ]}
              "cetirizine" "mild headache" None 0.8)
    as (r & Hr & Hlow & _).
  - reflexivity.
  - reflexivity.
  - exists r. split; [exact Hr|]. apply Hlow.
    unfold Qle. simpl. lia.
Defined.

(* ===================================================================== *)
(** ** The classifier                                                     *)
(* ===================================================================== *)

Lemma load_model_success_loaded `{Classifier.Estimator}
    (d : Classifier.disk) (g : Classifier.globals) :
  fst (Classifier.load_model d g) = true ->
  Classifier.is_model_loaded (snd (Classifier.load_model d g)) = true.
Proof.
  unfold Classifier.load_model.
  destruct (Classifier.MODEL_PATH d) as [| |m];
    destruct (Classifier.VECTORIZER_PATH d) as [| |v]; cbn;
    intros Hf; try discriminate Hf; reflexivity.
Qed.

(** X9: [load_model] succeeds exactly when both pickles load; the model
    then counts as loaded.  When the model pickle is missing or does not
    load, the globals are left as they were; when only the vectorizer
    fails, [_model] has already been replaced. *)
Theorem load_model_outcomes `{Classifier.Estimator}
    (d : Classifier.disk) (g : Classifier.globals) :
  (fst (Classifier.load_model d g) = true <->
   exists m v, Classifier.MODEL_PATH d = Classifier.GoodFile m
               /\ Classifier.VECTORIZER_PATH d = Classifier.GoodFile v)
  /\ (fst (Classifier.load_model d g) = true ->
      Classifier.is_model_loaded (snd (Classifier.load_model d g)) = true)
  /\ ((forall m, Classifier.MODEL_PATH d <> Classifier.GoodFile m) ->
      Classifier.load_model d g = (false, g))
  /\ (forall m, Classifier.MODEL_PATH d = Classifier.GoodFile m ->
      Classifier.VECTORIZER_PATH d = Classifier.BadFile ->
      fst (Classifier.load_model d g) = false
      /\ Classifier._model (snd (Classifier.load_model d g)) = Some m
      /\ Classifier._vectorizer (snd (Classifier.load_model d g))
         = Classifier._vectorizer g).
Proof.
  unfold Classifier.load_model.
  destruct (Classifier.MODEL_PATH d) as [| |m];
    destruct (Classifier.VECTORIZER_PATH d) as [| |v]; cbn;
    (split; [split; [intros Hf; try discriminate Hf; eauto
                    | intros (m' & v' & Hm & Hv); try discriminate Hm;
                      try discriminate Hv; reflexivity]|]);
    (split; [intros Hf; try discriminate Hf; reflexivity|]);
    (split; [intros Hno; try reflexivity; now destruct (Hno m)|]);
    intros m' Hm Hv; try discriminate Hm; try discriminate Hv.
  injection Hm as <-. repeat split.
Qed.

Lemma load_model_outcomes_witness :
  Classifier.load_model empty_disk nothing_loaded = (false, nothing_loaded).
Proof.
  apply (proj1 (proj2 (proj2 (load_model_outcomes (H := sample_estimator)
                                empty_disk nothing_loaded)))).
  intros m. discriminate.
Defined.

(** X10: [predict_single] raises [ClassifierNotLoadedError] for every
    text, keyword or not, when nothing is loaded and loading fails; in
    every other case the globals hold a loaded model afterwards. *)
Theorem predict_single_load_guard `{Classifier.Estimator}
    (d : Classifier.disk) (g : Classifier.globals) (text : string) :
  (Classifier.is_model_loaded g = false ->
   fst (Classifier.load_model d g) = false ->
   fst (Classifier.predict_single d g text) = Raise ClassifierNotLoadedError)
  /\ (Classifier.is_model_loaded g = true ->
      snd (Classifier.predict_single d g text) = g)
  /\ (Classifier.is_model_loaded g = true
      \/ fst (Classifier.load_model d g) = true ->
      Classifier.is_model_loaded (snd (Classifier.predict_single d g text)) = true).
Proof.
  unfold Classifier.predict_single. split; [|split].
  - intros Hg Hl. rewrite Hg.
    destruct (Classifier.load_model d g) as [ok g1]. cbn [fst] in Hl. subst ok.
    reflexivity.
  - intros Hg. rewrite Hg. cbn [negb].
    destruct (Classifier.rule_based_serious_override text); reflexivity.
  - intros Hor. destruct (Classifier.is_model_loaded g) eqn:Hg.
    + cbn [negb].
      destruct (Classifier.rule_based_serious_override text); exact Hg.
    + destruct Hor as [Hl|Hl]; [discriminate Hl|].
      pose proof (load_model_success_loaded d g Hl) as Hloaded.
      destruct (Classifier.load_model d g) as [ok g1]. cbn [fst snd] in *.
      subst ok. cbn [negb].
      destruct (Classifier.rule_based_serious_override text); exact Hloaded.
Qed.

Lemma predict_single_load_guard_witness :
  fst (Classifier.predict_single empty_disk nothing_loaded
         "patient reports mild headache")
  = Raise ClassifierNotLoadedError.
Proof.
  apply (proj1 (predict_single_load_guard (H := sample_estimator) empty_disk
                  nothing_loaded "patient reports mild headache"));
    reflexivity.
Defined.

Lemma fold_max2_ge_init (xs : list Q) (x : Q) : (x <= fold_left max2 xs x)%Q.
Proof.
  revert x. induction xs as [|y xs IH]; intros x; simpl.
  - apply Qle_refl.
  - eapply Qle_trans; [apply (max2_ge_l x y) | apply IH].
Qed.

Lemma fold_max2_ge_elem (xs : list Q) (x y : Q) :
  In y xs -> (y <= fold_left max2 xs x)%Q.
Proof.
  revert x. induction xs as [|z xs IH]; intros x Hin; simpl.
  - destruct Hin.
  - destruct Hin as [->|Hin].
    + eapply Qle_trans; [apply (max2_ge_r x y) | apply fold_max2_ge_init].
    + now apply IH.
Qed.

(** [max(xs)] bounds every element. *)
Lemma max_list_ge (xs : list Q) (m y : Q) :
  Classifier.max_list xs = Ok m -> In y xs -> (y <= m)%Q.
Proof.
  destruct xs as [|x xs]; [discriminate|]. cbn [Classifier.max_list].
  intros Hm Hin. injection Hm as <-. destruct Hin as [->|Hin].
  - apply fold_max2_ge_init.
  - now apply fold_max2_ge_elem.
Qed.

Lemma index_In {A : Type} (l : list A) (i : nat) (a : A) :
  index l i = Ok a -> In a l.
Proof.
  unfold index. destruct (nth_error l i) eqn:Hnth; [|discriminate].
  intros Hok. injection Hok as <-. eapply nth_error_In; eauto.
Qed.

Ltac lookup_literal :=
  repeat (rewrite lookup_insert_ne by discriminate);
  first [apply lookup_insert_eq | apply lookup_singleton_eq].

(** X11: whatever [predict_single] returns, by the gate or by the model,
    the label is "Serious" exactly when the reported serious probability
    is at least 0.30, the two probabilities add up to one, and the
    confidence is not below the serious probability. *)
Theorem predict_single_label_matches_probability `{Classifier.Estimator}
    (d : Classifier.disk) (g : Classifier.globals) (text : string)
    (res : gmap string pyval) :
  fst (Classifier.predict_single d g text) = Ok res ->
  exists label p q c,
    res !! "prediction" = Some (PyStr label)
    /\ res !! "serious_probability" = Some (PyFloat p)
    /\ res !! "non_serious_probability" = Some (PyFloat q)
    /\ res !! "confidence" = Some (PyFloat c)
    /\ (label = "Serious" <-> (Classifier.SERIOUS_THRESHOLD <= p)%Q)
    /\ (label = "Serious" \/ label = "Non-Serious")
    /\ (p + q == 1)%Q
    /\ (p <= c)%Q.
Proof.
  unfold Classifier.predict_single.
  destruct (if Classifier.is_model_loaded g then (true, g)
            else Classifier.load_model d g) as [loaded g1].
  destruct loaded; cbn [negb]; [|discriminate].
  destruct (Classifier.rule_based_serious_override text).
  - cbn [fst]. intros Hres. injection Hres as <-.
    exists "Serious", 1.0%Q, 0.0%Q, 1.0%Q.
    repeat split; try reflexivity.
    + intros _. unfold Classifier.SERIOUS_THRESHOLD, Qle. simpl. lia.
    + now left.
    + unfold Qle. simpl. lia.
  - cbn [fst]. unfold Classifier.predict_with_model.
    destruct (Classifier._vectorizer g1) as [vec|]; [|discriminate].
    destruct (Classifier._model g1) as [model|]; [|discriminate].
    destruct (Classifier.transform vec [text]) as [X|]; cbn [bind]; [|discriminate].
    destruct (Classifier.predict_proba model X) as [proba|]; cbn [bind];
      [|discriminate].
    destruct (index proba 0) as [probs|]; cbn [bind]; [|discriminate].
    destruct (index probs _) as [sp|] eqn:Hsp; cbn [bind]; [|discriminate].
    destruct (Classifier.max_list probs) as [conf|] eqn:Hconf; cbn [bind];
      [|discriminate].
    intros Hres. injection Hres as <-.
    exists (if ge sp Classifier.SERIOUS_THRESHOLD then "Serious" else "Non-Serious"),
           sp, (1 - sp)%Q, conf.
    split; [lookup_literal|]. split; [lookup_literal|].
    split; [lookup_literal|]. split; [lookup_literal|].
    split; [|split; [|split]].
    + destruct (ge sp Classifier.SERIOUS_THRESHOLD) eqn:Hge.
      * apply ge_true_iff in Hge. tauto.
      * apply ge_false_iff in Hge. split; [discriminate | intros; lra].
    + destruct (ge sp Classifier.SERIOUS_THRESHOLD); [now left | now right].
    + lra.
    + apply (max_list_ge probs conf sp Hconf). now apply index_In in Hsp.
Qed.

Lemma predict_single_label_matches_probability_witness :
  exists label p,
    (label = "Serious" <-> (Classifier.SERIOUS_THRESHOLD <= p)%Q)
    /\ ClassifierBatch.ml_prediction 0.2 0.8 !! "prediction" = Some (PyStr label)
    /\ ClassifierBatch.ml_prediction 0.2 0.8 !! "serious_probability"
       = Some (PyFloat p).
Proof.
  destruct (predict_single_label_matches_probability (H := sample_estimator)
              empty_disk model_loaded "mild rash on the forearm"
              (ClassifierBatch.ml_prediction 0.2 0.8))
    as (label & p & q & c & Hl & Hp & _ & _ & Hiff & _).
  - reflexivity.
  - exists label, p. repeat split; try assumption; apply Hiff.
Defined.

Import ClassifierBatch.

Lemma lookup_map {A B : Type} (f : A -> B) (l : list A) (i : nat) :
  map f l !! i = f <$> (l !! i).
Proof.
  revert i. induction l as [|a l IH]; intros [|i]; try reflexivity.
  simpl. apply IH.
Qed.

Lemma in_combine_seq {A : Type} (l : list A) (start i : nat) (a : A) :
  In (i, a) (combine (seq start (length l)) l) ->
  exists n, i = (start + n)%nat /\ l !! n = Some a.
Proof.
  revert start. induction l as [|x l IH]; intros start Hin; [destruct Hin|].
  cbn [length seq combine] in Hin. destruct Hin as [Heq|Hin].
  - injection Heq as <- <-. exists 0%nat. split; [lia | reflexivity].
  - destruct (IH (S start) Hin) as (n & -> & Hn).
    exists (S n). split; [lia | exact Hn].
Qed.

Lemma in_enumerate {A : Type} (l : list A) (i : nat) (a : A) :
  In (i, a) (enumerate l) -> l !! i = Some a.
Proof.
  intros Hin. apply in_combine_seq in Hin as (n & -> & Hn). exact Hn.
Qed.

(** The filling loop writes only into slots listed in [idx_map] and
    keeps the length. *)
Lemma fill_results_frame (serious_idx : nat) (idx_map : list nat)
    (rows : list (nat * list Q))
    (results res : list (option (gmap string pyval))) :
  fill_results serious_idx idx_map rows results = Ok res ->
  length res = length results
  /\ forall i, ~ In i idx_map -> res !! i = results !! i.
Proof.
  revert results. induction rows as [|[j probs] rows IH]; intros results Hfill.
  - cbn in Hfill. injection Hfill as <-. split; reflexivity.
  - cbn [fill_results] in Hfill.
    destruct (index probs serious_idx) as [sp|]; cbn [bind] in Hfill;
      [|discriminate].
    destruct (Classifier.max_list probs) as [conf|]; cbn [bind] in Hfill;
      [|discriminate].
    destruct (index idx_map j) as [i0|] eqn:Hi0; cbn [bind] in Hfill;
      [|discriminate].
    destruct (Nat.ltb i0 (length results)); [|discriminate].
    apply IH in Hfill as [Hlen Hframe]. split.
    + now rewrite Hlen, length_insert.
    + intros i Hnot. rewrite (Hframe i Hnot).
      apply list_lookup_insert_ne. intros ->.
      apply Hnot. now apply index_In in Hi0.
Qed.

(** X12: when [predict_batch] returns, it returns one entry per text, and
    every text that passes the override gate has the gate's prediction:
    the rows of the model are never written over it. *)
Theorem predict_batch_keeps_overrides `{Classifier.Estimator}
    (d : Classifier.disk) (g : Classifier.globals) (texts : list string)
    (results : list (option (gmap string pyval))) :
  fst (predict_batch d g texts) = Ok results ->
  length results = length texts
  /\ forall i text,
       texts !! i = Some text ->
       Classifier.rule_based_serious_override text = true ->
       results !! i = Some (Some Classifier.override_prediction).
Proof.
  unfold predict_batch.
  destruct (if Classifier.is_model_loaded g then (true, g)
            else Classifier.load_model d g) as [loaded g1].
  destruct loaded; cbn [negb fst]; [|discriminate].
  unfold predict_batch_loaded.
  set (results0 := map (fun text =>
                     if Classifier.rule_based_serious_override text
                     then Some Classifier.override_prediction else None) texts).
  set (idx_map := map fst (List.filter _ (enumerate results0))).
  assert (Hlen0 : length results0 = length texts) by apply length_map.
  assert (Hover : forall i text, texts !! i = Some text ->
            Classifier.rule_based_serious_override text = true ->
            results0 !! i = Some (Some Classifier.override_prediction)).
  { intros i text Hi Ho. unfold results0. rewrite lookup_map, Hi.
    unfold fmap, option_fmap, option_map. now rewrite Ho. }
  assert (Hidx : forall i, In i idx_map -> results0 !! i = Some None).
  { intros i Hin. unfold idx_map in Hin.
    apply in_map_iff in Hin as [[i' r] [Hfst Hin]]. cbn [fst] in Hfst. subst i'.
    apply List.filter_In in Hin as [Hin Hnone]. cbn [snd] in Hnone.
    apply in_enumerate in Hin. rewrite Hin. destruct r as [x|]; [|reflexivity].
    exfalso. apply negb_true_iff, bool_decide_eq_false in Hnone.
    apply Hnone. now exists x. }
  clearbody results0 idx_map.
  destruct idx_map as [|i0 idx_rest] eqn:Hmap.
  - intros Hres. injection Hres as <-. split; [exact Hlen0 | exact Hover].
  - rewrite <- Hmap in *. clear Hmap.
    destruct (Classifier._vectorizer g1) as [vec|]; [|discriminate].
    destruct (Classifier._model g1) as [model|]; [|discriminate].
    destruct (Classifier.transform vec _) as [X|]; cbn [bind]; [|discriminate].
    destruct (Classifier.predict_proba model X) as [proba|]; cbn [bind];
      [|discriminate].
    intros Hfill. apply fill_results_frame in Hfill as [Hlen Hframe].
    split; [now rewrite Hlen|].
    intros i text Hi Ho. rewrite Hframe; [now apply (Hover i text)|].
    intros Hin. apply Hidx in Hin. rewrite (Hover i text Hi Ho) in Hin.
    discriminate Hin.
Qed.

Lemma predict_batch_keeps_overrides_witness :
  exists results,
    fst (predict_batch (H := sample_estimator) empty_disk model_loaded
           ["Patient died at home"; "mild rash on the forearm"]) = Ok results
    /\ length results = 2%nat
    /\ results !! 0%nat = Some (Some Classifier.override_prediction).
Proof.
  destruct (fst (predict_batch (H := sample_estimator) empty_disk model_loaded
                   ["Patient died at home"; "mild rash on the forearm"]))
    as [results|e] eqn:Hcall.
  - exists results. split; [reflexivity|].
    destruct (predict_batch_keeps_overrides (H := sample_estimator)
                empty_disk model_loaded
                ["Patient died at home"; "mild rash on the forearm"] results Hcall)
      as [Hlen Hover].
    split; [exact Hlen|]. apply (Hover 0%nat "Patient died at home"); reflexivity.
  - apply (f_equal is_ok) in Hcall. vm_compute in Hcall. discriminate Hcall.
Defined.

Lemma filter_none_all_some {A : Type} (ns : list nat) (l : list (option A)) :
  (forall r, In r l -> is_Some r) ->
  List.filter (fun ir : nat * option A => negb (bool_decide (is_Some (snd ir))))
              (combine ns l) = [].
Proof.
  revert ns. induction l as [|r l IH]; intros ns Hall.
  - destruct ns; reflexivity.
  - destruct ns as [|n ns]; [reflexivity|]. cbn [combine List.filter snd].
    rewrite bool_decide_eq_true_2 by (apply Hall; left; reflexivity).
    cbn [negb]. apply IH. intros r' Hin. apply Hall. right. exact Hin.
Qed.

(** X13: when the model is loaded and every text passes the override
    gate -- in particular for the empty batch -- [predict_batch] returns
    the gate's prediction for each text and never calls the model. *)
Theorem predict_batch_all_overrides `{Classifier.Estimator}
    (d : Classifier.disk) (g : Classifier.globals) (texts : list string) :
  Classifier.is_model_loaded g = true ->
  forallb Classifier.rule_based_serious_override texts = true ->
  predict_batch d g texts
  = (Ok (map (fun _ => Some Classifier.override_prediction) texts), g).
Proof.
  intros Hg Hall. unfold predict_batch. rewrite Hg. cbn [negb].
  f_equal. unfold predict_batch_loaded.
  assert (Hres : map (fun text =>
                   if Classifier.rule_based_serious_override text
                   then Some Classifier.override_prediction else None) texts
                 = map (fun _ => Some Classifier.override_prediction) texts).
  { apply map_ext_in. intros t Hin.
    rewrite forallb_forall in Hall. now rewrite (Hall t Hin). }
  rewrite Hres. unfold enumerate. rewrite filter_none_all_some; [reflexivity|].
  intros r Hin. apply in_map_iff in Hin as [t [<- _]]. now eexists.
Qed.

Lemma predict_batch_all_overrides_witness :
  predict_batch (H := sample_estimator) empty_disk model_loaded
    ["Patient died at home"; "Admitted to ICU"]
  = (Ok [Some Classifier.override_prediction; Some Classifier.override_prediction],
     model_loaded).
Proof.
  apply (predict_batch_all_overrides (H := sample_estimator) empty_disk
           model_loaded ["Patient died at home"; "Admitted to ICU"]);
    reflexivity.
Defined.

(* ===================================================================== *)
(** ** The similarity search, continued                                   *)
(* ===================================================================== *)

Lemma search_loop_length `{Runtime} (results : query_results)
    (query_symptoms : pyval) (current : option string) (top_k : Z)
    (items : list (nat * string)) (acc res : list (gmap string pyval)) :
  Z.of_nat (length acc) < Z.max 1 top_k ->
  search_loop results query_symptoms current top_k items acc = Ok res ->
  Z.of_nat (length res) <= Z.max 1 top_k.
Proof.
  revert acc res. induction items as [|[i rid] items IH]; intros acc res Hacc Hloop.
  - cbn [search_loop] in Hloop. injection Hloop as <-. lia.
  - cbn [search_loop] in Hloop.
    destruct (str_truthy current && bool_decide (Some rid = current))%bool.
    + now apply (IH acc res).
    + destruct (similar_event results query_symptoms i rid) as [ev|];
        cbn [bind] in Hloop; [|discriminate].
      assert (Hlen : length (acc ++ [ev]) = S (length acc)).
      { rewrite length_app. simpl. lia. }
      destruct (Z.geb_spec (Z.of_nat (length (acc ++ [ev]))) top_k) as [Hge|Hlt].
      * injection Hloop as <-. rewrite Hlen. lia.
      * apply (IH (acc ++ [ev]) res); [|exact Hloop]. lia.
Qed.

(** X14: the search returns at most [top_k] events -- and at most one when
    [top_k] is zero or negative, since the bound is tested only after an
    event has been added; [get_similar_serious_events_vector] returns
    as many events as the search it wraps. *)
Theorem search_result_length `{Runtime} `{VectorBackend}
    (coll : collection) (drugname adverse_event : string)
    (symptoms : pyval) (query_risk_level : option string)
    (risk_level : string) (current : option string) (R : string)
    (top_k : Z) (escalated_only : bool) :
  Z.of_nat (length (search_similar_events coll drugname adverse_event symptoms
                      query_risk_level current top_k escalated_only))
  <= Z.max 1 top_k
  /\ Z.of_nat (length (get_similar_serious_events_vector coll drugname
                         adverse_event symptoms risk_level R top_k))
     <= Z.max 1 top_k.
Proof.
  assert (Hsearch : forall qrl cur esc,
            Z.of_nat (length (search_similar_events coll drugname adverse_event
                                symptoms qrl cur top_k esc)) <= Z.max 1 top_k).
  { intros qrl cur esc. unfold search_similar_events.
    destruct (search_similar_events_body _ _ _ _ _ _ _ _) as [res|e] eqn:Hbody;
      [|simpl; lia].
    unfold search_similar_events_body in Hbody.
    repeat match type of Hbody with
           | bind ?r _ = Ok _ => destruct r; cbn [bind] in Hbody; [|discriminate]
           end.
    destruct (ids _) as [|first rest]; [injection Hbody as <-; simpl; lia|].
    destruct first as [|rid0 first]; [injection Hbody as <-; simpl; lia|].
    eapply search_loop_length; [|exact Hbody]. simpl. lia. }
  split; [apply Hsearch|].
  unfold get_similar_serious_events_vector. rewrite length_map. apply Hsearch.
Qed.

(** With a bound of zero, the first admissible hit is still returned. *)
Lemma search_with_zero_top_k_returns_one :
  length (search_similar_events (H := sample_runtime) (H0 := backend_in_memory)
            [ ("RPT-A", {[ "escalation_decision" := PyStr "ESCALATE" ]}, "Drug: a");
              ("RPT-B", {[ "escalation_decision" := PyStr "ESCALATE" ]}, "Drug: b") ]
            "warfarin" "bleeding" (PyList []) None None 0 true) = 1%nat.
Proof. vm_compute. reflexivity. Qed.

Lemma search_loop_ids `{Runtime} (results : query_results)
    (query_symptoms : pyval) (current : option string) (top_k : Z)
    (items : list (nat * string)) (acc res : list (gmap string pyval)) :
  search_loop results query_symptoms current top_k items acc = Ok res ->
  exists n,
    map (fun ev => ev !! "report_id") res
    = map (fun ev => ev !! "report_id") acc
      ++ map (fun rid => Some (PyStr rid))
           (firstn n
              (List.filter
                 (fun rid => negb (str_truthy current
                                   && bool_decide (Some rid = current)))
                 (map snd items))).
Proof.
  revert acc res. induction items as [|[i rid] items IH]; intros acc res Hloop.
  - cbn [search_loop] in Hloop. injection Hloop as <-. exists 0%nat.
    simpl. now rewrite app_nil_r.
  - cbn [search_loop] in Hloop. cbn [map snd List.filter].
    destruct (str_truthy current && bool_decide (Some rid = current))%bool.
    + cbn [negb]. now apply IH.
    + cbn [negb].
      destruct (similar_event results query_symptoms i rid) as [ev|] eqn:Hev;
        cbn [bind] in Hloop; [|discriminate].
      apply similar_event_report_id in Hev.
      destruct (Z.of_nat (length (acc ++ [ev])) >=? top_k).
      * injection Hloop as <-. exists 1%nat. cbn [firstn map].
        rewrite map_app. cbn [map]. now rewrite Hev.
      * apply IH in Hloop as [n Hn]. exists (S n). rewrite Hn.
        rewrite map_app. cbn [map firstn]. rewrite Hev.
        now rewrite <- app_assoc.
Qed.

Lemma map_snd_enumerate {A : Type} (l : list A) : map snd (enumerate l) = l.
Proof.
  unfold enumerate. generalize 0%nat.
  induction l as [|a l IH]; intros start; [reflexivity|].
  cbn [length seq combine map snd]. now rewrite IH.
Qed.

(** X15: the report ids of the returned events are, in order, a prefix of
    the ids that the backend returned for the query, with the current
    report left out: the search neither reorders hits nor lets a later
    hit overtake an earlier admissible one. *)
Theorem search_returns_prefix_of_hits `{Runtime} `{VectorBackend}
    (coll : collection) (drugname adverse_event : string)
    (symptoms : pyval) (query_risk_level : option string)
    (current : option string) (top_k : Z) (escalated_only : bool)
    (query_text : string) (emb : embedding) (results : query_results) :
  build_canonical_embedding_text drugname adverse_event
    (if str_truthy query_risk_level then default "" query_risk_level
     else "UNKNOWN") "QUERY" symptoms = Ok query_text ->
  create_embedding query_text = Ok emb ->
  collection_query coll emb (top_k + 10)
    (if escalated_only
     then Some {[ "escalation_decision" := PyStr "ESCALATE" ]} else None)
  = Ok results ->
  exists n,
    map (fun ev => ev !! "report_id")
        (search_similar_events coll drugname adverse_event symptoms
           query_risk_level current top_k escalated_only)
    = map (fun rid => Some (PyStr rid))
        (firstn n
           (List.filter
              (fun rid => negb (str_truthy current
                                && bool_decide (Some rid = current)))
              (hd [] (ids results)))).
Proof.
  intros Htext Hemb Hquery.
  unfold search_similar_events, search_similar_events_body.
  rewrite Htext. cbn [bind]. rewrite Hemb. cbn [bind].
  assert (Hwhere : (if dict_truthy (if escalated_only
                       then {[ "escalation_decision" := PyStr "ESCALATE" ]}
                       else (∅ : gmap string pyval))
                    then Some (if escalated_only
                       then {[ "escalation_decision" := PyStr "ESCALATE" ]}
                       else (∅ : gmap string pyval)) else None)
                   = (if escalated_only
                      then Some {[ "escalation_decision" := PyStr "ESCALATE" ]}
                      else None)).
  { destruct escalated_only; reflexivity. }
  rewrite Hwhere, Hquery. cbn [bind].
  destruct (ids results) as [|first rest]; [now exists 0%nat|].
  destruct first as [|rid0 first]; [now exists 0%nat|].
  cbn [hd].
  destruct (search_loop _ _ _ _ _ _) as [res|e] eqn:Hloop.
  - apply search_loop_ids in Hloop as [n Hn]. exists n.
    rewrite Hn. cbn [map app]. now rewrite map_snd_enumerate.
  - now exists 0%nat.
Qed.

Lemma search_returns_prefix_of_hits_witness :
  let coll : list entry :=
    [ ("RPT-A", {[ "escalation_decision" := PyStr "ESCALATE" ]}, "Drug: a");
      ("RPT-B", {[ "escalation_decision" := PyStr "NO_ESCALATE" ]}, "Drug: b");
      ("RPT-C", {[ "escalation_decision" := PyStr "ESCALATE" ]}, "Drug: c") ] in
  exists n,
    map (fun ev => ev !! "report_id")
        (search_similar_events (H := sample_runtime) (H0 := backend_in_memory)
           coll "warfarin" "bleeding" (PyList ["Bleeding"]) (Some "HIGH")
           (Some "RPT-A") 5 true)
    = map (fun rid => Some (PyStr rid))
        (firstn n (List.filter (fun rid => negb (String.eqb rid "RPT-A"))
                     ["RPT-A"; "RPT-C"])).
Proof.
  intros coll.
  destruct (search_returns_prefix_of_hits (H := sample_runtime)
              (H0 := backend_in_memory) coll "warfarin" "bleeding"
              (PyList ["Bleeding"]) (Some "HIGH") (Some "RPT-A") 5 true
              (String.concat EscalationEngine.newline
                 ["Drug: warfarin"; "Event: bleeding"; "Symptoms: Bleeding";
                  "Risk: HIGH"; "Decision: QUERY"])
              tt
              {| ids := [["RPT-A"; "RPT-C"]];
                 metadatas := [[ {[ "escalation_decision" := PyStr "ESCALATE" ]};
                                 {[ "escalation_decision" := PyStr "ESCALATE" ]} ]];
                 distances := [[0%Q; 0%Q]];
                 documents := [["Drug: a"; "Drug: c"]] |})
    as [n Hn].
  - reflexivity.
  - reflexivity.
  - reflexivity.
  - exists n. exact Hn.
Defined.

(** X16: the matched symptoms are the stored symptoms that equal some
    query symptom up to letter case, in stored order; without query
    symptoms nothing matches. *)
Theorem matched_symptoms_is_case_insensitive_intersection
    (stored query : list string) :
  exists matched,
    matched_symptoms (PyList stored) (PyList query) = Ok matched
    /\ (forall s, In s matched <->
                  In s stored /\ exists q, In q query /\ lower q = lower s)
    /\ (exists keep, matched = List.filter keep stored)
    /\ matched_symptoms (PyList stored) PyNone = Ok [].
Proof.
  set (keep := fun s => existsb (String.eqb (lower s)) (map lower query)).
  assert (Hkeep : forall s, keep s = true <->
                            exists q, In q query /\ lower q = lower s).
  { intros s. unfold keep. rewrite existsb_exists. split.
    - intros [lq [Hin Heq]]. apply in_map_iff in Hin as [q [<- Hin]].
      apply String.eqb_eq in Heq. now exists q.
    - intros [q [Hin Heq]]. exists (lower q). split.
      + apply in_map_iff. now exists q.
      + apply String.eqb_eq. now symmetry. }
  exists (List.filter keep stored).
  assert (Hcall : matched_symptoms (PyList stored) (PyList query)
                  = Ok (List.filter keep stored)).
  { unfold matched_symptoms. cbn [iter_strings bind].
    destruct stored as [|s stored]; [reflexivity|].
    unfold or_empty_list. destruct query as [|q query]; reflexivity. }
  split; [exact Hcall|]. split; [|split].
  - intros s. rewrite List.filter_In, Hkeep. reflexivity.
  - now exists keep.
  - clear. unfold matched_symptoms. cbn [iter_strings bind].
    destruct stored as [|s stored]; [reflexivity|].
    cbn. f_equal. induction stored as [|s' stored IH]; [reflexivity|].
    simpl. exact IH.
Qed.

(* ===================================================================== *)
(** ** The audit log, continued                                           *)
(* ===================================================================== *)

Import AuditQueries QueryNotions QuerySamples.

(** X17: on a table declared as in [init_database], whatever rows it
    holds, [log_processing] returns [False], leaves the database as it
    was and does not touch the vector index: the [INSERT] gives no
    value for [timestamp], which is NOT NULL and has no default. *)
Theorem log_processing_fails_on_declared_table `{Runtime} `{SqliteEngine}
    `{VectorBackend} (clk : clock) (db : database) (coll : collection)
    (t : table) (report_id drugname adverse_event : string)
    (ml_prediction entities : gmap string pyval)
    (escalation_result : EscalationResult) (processing_time_ms : Q) :
  db !! "audit_log" = Some t ->
  tbl_columns t = audit_log_columns ->
  log_processing clk db coll report_id drugname adverse_event
    ml_prediction entities escalation_result processing_time_ms
  = (false, db, coll).
Proof.
  intros Ht Hcols.
  pose proof (insert_fails_on_declared_schema clk db t report_id drugname
                adverse_event ml_prediction entities escalation_result
                processing_time_ms Ht Hcols) as Hfail.
  unfold log_processing.
  destruct (insert_audit_log _ _ _ _ _ _ _ _ _) as [db'|e].
  - discriminate Hfail.
  - reflexivity.
Qed.

Lemma log_processing_fails_on_declared_table_witness :
  log_processing (H := sample_runtime) (H0 := sample_engine)
    (H1 := backend_in_memory) sample_clock initialised_database []
    "RPT-20240301101500-0A1B2C3D" "propofol" "coma after induction"
    {[ "prediction" := PyStr "Serious"; "serious_probability" := PyFloat 1 ]}
    {[ "drug" := PyStr "propofol"; "symptoms" := PyList ["Coma"] ]}
    sample_result 12.5
  = (false, initialised_database, []).
Proof.
  apply (log_processing_fails_on_declared_table (H := sample_runtime)
           (H0 := sample_engine) (H1 := backend_in_memory) sample_clock
           initialised_database []
           {| tbl_columns := audit_log_columns; tbl_rows := [];
              tbl_sequence := 0 |});
    reflexivity.
Defined.

Lemma create_audit_log_keeps (indexes : gset string) (db db1 : database) :
  create_audit_log_if_not_exists indexes db = Ok db1 ->
  (forall name t, db !! name = Some t -> db1 !! name = Some t)
  /\ is_Some (db1 !! "audit_log").
Proof.
  unfold create_audit_log_if_not_exists.
  destruct (db !! "audit_log") as [t|] eqn:Ht.
  - intros Hok. injection Hok as <-. split; [auto|]. now exists t.
  - destruct (bool_decide ("audit_log" ∈ indexes)); [discriminate|].
    intros Hok. injection Hok as <-. split.
    + intros name t Hname. rewrite lookup_insert_ne; [exact Hname|].
      intros <-. congruence.
    + eexists. apply lookup_insert_eq.
Qed.

Lemma create_index_result (name tbl col : string) (indexes indexes' : gset string)
    (db : database) :
  create_index_if_not_exists name tbl col indexes db = Ok indexes' ->
  db !! name = None /\ indexes ⊆ indexes' /\ name ∈ indexes'
  /\ indexes' ⊆ {[ name ]} ∪ indexes.
Proof.
  unfold create_index_if_not_exists.
  destruct (db !! tbl) as [t|]; [|discriminate].
  case_bool_decide as Htable; [discriminate|].
  assert (Hname : db !! name = None).
  { destruct (db !! name) eqn:Hn; [|reflexivity].
    destruct Htable. now eexists. }
  case_bool_decide as Hindex.
  - intros Hok. injection Hok as <-. split; [exact Hname|]. set_solver.
  - destruct (has_column t col); [|discriminate].
    intros Hok. injection Hok as <-. split; [exact Hname|]. set_solver.
Qed.

Lemma create_index_again (name tbl col : string) (indexes : gset string)
    (db : database) :
  is_Some (db !! tbl) -> db !! name = None -> name ∈ indexes ->
  create_index_if_not_exists name tbl col indexes db = Ok indexes.
Proof.
  intros [t Ht] Hname Hin. unfold create_index_if_not_exists.
  rewrite Ht, Hname.
  rewrite bool_decide_eq_false_2 by (intros [? ?]; discriminate).
  now rewrite bool_decide_eq_true_2.
Qed.

Lemma create_index_raises (name tbl col : string) (indexes : gset string)
    (db : database) (e : exn) :
  create_index_if_not_exists name tbl col indexes db = Raise e ->
  e = OperationalError.
Proof.
  unfold create_index_if_not_exists.
  destruct (db !! tbl) as [t|]; [|congruence].
  destruct (bool_decide (is_Some (db !! name))); [congruence|].
  destruct (bool_decide (name ∈ indexes)); [discriminate|].
  destruct (has_column t col); [discriminate|congruence].
Qed.

Lemma create_index_succeeds (name tbl col : string) (indexes : gset string)
    (db : database) (t : table) :
  db !! tbl = Some t -> db !! name = None -> has_column t col = true ->
  exists indexes', create_index_if_not_exists name tbl col indexes db
                   = Ok indexes'.
Proof.
  intros Ht Hname Hcol. unfold create_index_if_not_exists.
  rewrite Ht, Hname, Hcol.
  rewrite bool_decide_eq_false_2 by (intros [? ?]; discriminate).
  case_bool_decide; eauto.
Qed.

Lemma create_index_missing_column (name tbl col : string)
    (indexes : gset string) (db : database) (t : table) :
  db !! tbl = Some t -> has_column t col = false -> name ∉ indexes ->
  create_index_if_not_exists name tbl col indexes db = Raise OperationalError.
Proof.
  intros Ht Hcol Hin. unfold create_index_if_not_exists. rewrite Ht, Hcol.
  case_bool_decide; [reflexivity|].
  now rewrite bool_decide_eq_false_2.
Qed.

(** X18: what [init_database] does to a file.  Whether it returns or
    raises, every table that was there is kept as it was and no index is
    dropped.  When it returns, [audit_log] and the three indexes exist
    and a second call returns and changes nothing.  On a file without
    [audit_log] and without a schema object of one of the four names it
    returns.  It raises [OperationalError] when [audit_log] exists but
    lacks the column of one of the three indexes and that index does
    not exist yet. *)
Theorem init_database_outcomes (indexes : gset string) (db : database) :
  let outcome := fst (init_database indexes db) in
  let indexes' := fst (snd (init_database indexes db)) in
  let db' := snd (snd (init_database indexes db)) in
  (forall name t, db !! name = Some t -> db' !! name = Some t)
  /\ indexes ⊆ indexes'
  /\ (outcome = Ok tt ->
      is_Some (db' !! "audit_log")
      /\ "idx_audit_timestamp" ∈ indexes'
      /\ "idx_audit_report_id" ∈ indexes'
      /\ "idx_audit_risk_level" ∈ indexes'
      /\ init_database indexes' db' = (Ok tt, (indexes', db')))
  /\ (db !! "audit_log" = None ->
      "audit_log" ∉ indexes ->
      db !! "idx_audit_timestamp" = None ->
      db !! "idx_audit_report_id" = None ->
      db !! "idx_audit_risk_level" = None ->
      outcome = Ok tt)
  /\ (forall t idx col,
        In (idx, col) [ ("idx_audit_timestamp", "timestamp");
                        ("idx_audit_report_id", "report_id");
                        ("idx_audit_risk_level", "risk_level") ] ->
        db !! "audit_log" = Some t ->
        has_column t col = false ->
        idx ∉ indexes ->
        outcome = Raise OperationalError).
Proof.
  cbv zeta. split; [|split; [|split; [|split]]].
  - rewrite init_database_tables.
    destruct (create_audit_log_if_not_exists indexes db) as [db1|e] eqn:Hc;
      [|auto].
    now apply (create_audit_log_keeps indexes db db1).
  - unfold init_database.
    destruct (create_audit_log_if_not_exists indexes db) as [db1|e];
      [|cbn; set_solver].
    destruct (create_index_if_not_exists "idx_audit_timestamp" _ _ _ _)
      as [i1|] eqn:H1; [|cbn; set_solver].
    apply create_index_result in H1 as (_ & H1 & _).
    destruct (create_index_if_not_exists "idx_audit_report_id" _ _ _ _)
      as [i2|] eqn:H2; [|cbn; set_solver].
    apply create_index_result in H2 as (_ & H2 & _).
    destruct (create_index_if_not_exists "idx_audit_risk_level" _ _ _ _)
      as [i3|] eqn:H3; [|cbn; set_solver].
    apply create_index_result in H3 as (_ & H3 & _).
    cbn. set_solver.
  - unfold init_database.
    destruct (create_audit_log_if_not_exists indexes db) as [db1|e] eqn:Hc;
      [|discriminate].
    destruct (create_index_if_not_exists "idx_audit_timestamp" _ _ _ _)
      as [i1|] eqn:H1; [|discriminate].
    destruct (create_index_if_not_exists "idx_audit_report_id" _ _ _ _)
      as [i2|] eqn:H2; [|discriminate].
    destruct (create_index_if_not_exists "idx_audit_risk_level" _ _ _ _)
      as [i3|] eqn:H3; [|discriminate].
    intros _. cbn [fst snd].
    destruct (create_audit_log_keeps _ _ _ Hc) as [_ Htable].
    apply create_index_result in H1 as (Hn1 & Hs1 & Hin1 & _).
    apply create_index_result in H2 as (Hn2 & Hs2 & Hin2 & _).
    apply create_index_result in H3 as (Hn3 & Hs3 & Hin3 & _).
    split; [exact Htable|].
    split; [set_solver|]. split; [set_solver|]. split; [exact Hin3|].
    unfold create_audit_log_if_not_exists.
    destruct Htable as [t Ht]. rewrite Ht.
    rewrite !create_index_again;
      [reflexivity | | | | | | | | |]; try (now exists t); try assumption;
      set_solver.
  - intros Hnone Hix Hn1 Hn2 Hn3. unfold init_database.
    unfold create_audit_log_if_not_exists. rewrite Hnone.
    rewrite bool_decide_eq_false_2 by exact Hix.
    set (t := {| tbl_columns := audit_log_columns; tbl_rows := [];
                 tbl_sequence := 0 |}).
    set (db1 := <["audit_log" := t]> db).
    assert (Ht : db1 !! "audit_log" = Some t) by apply lookup_insert_eq.
    assert (Hn1' : db1 !! "idx_audit_timestamp" = None)
      by (unfold db1; now rewrite lookup_insert_ne).
    assert (Hn2' : db1 !! "idx_audit_report_id" = None)
      by (unfold db1; now rewrite lookup_insert_ne).
    assert (Hn3' : db1 !! "idx_audit_risk_level" = None)
      by (unfold db1; now rewrite lookup_insert_ne).
    destruct (create_index_succeeds "idx_audit_timestamp" "audit_log"
                "timestamp" indexes db1 t Ht Hn1' eq_refl) as [i1 ->].
    destruct (create_index_succeeds "idx_audit_report_id" "audit_log"
                "report_id" i1 db1 t Ht Hn2' eq_refl) as [i2 ->].
    destruct (create_index_succeeds "idx_audit_risk_level" "audit_log"
                "risk_level" i2 db1 t Ht Hn3' eq_refl) as [i3 ->].
    reflexivity.
  - intros t idx col Hin Ht Hcol Hidx. unfold init_database.
    unfold create_audit_log_if_not_exists. rewrite Ht.
    destruct (create_index_if_not_exists "idx_audit_timestamp" _ _ _ _)
      as [i1|e1] eqn:H1.
    2:{ now apply create_index_raises in H1 as ->. }
    destruct (create_index_if_not_exists "idx_audit_report_id" _ _ _ _)
      as [i2|e2] eqn:H2.
    2:{ now apply create_index_raises in H2 as ->. }
    destruct (create_index_if_not_exists "idx_audit_risk_level" _ _ _ _)
      as [i3|e3] eqn:H3.
    2:{ now apply create_index_raises in H3 as ->. }
    exfalso.
    pose proof (create_index_result _ _ _ _ _ _ H1) as (_ & _ & _ & Hb1).
    pose proof (create_index_result _ _ _ _ _ _ H2) as (_ & _ & _ & Hb2).
    destruct Hin as [Heq|[Heq|[Heq|[]]]]; injection Heq as <- <-.
    + rewrite (create_index_missing_column _ _ _ _ _ t Ht Hcol Hidx) in H1.
      discriminate H1.
    + rewrite (create_index_missing_column _ _ _ _ _ t Ht Hcol) in H2;
        [discriminate H2|].
      intros Hin. apply Hb1, elem_of_union in Hin as [Hin|Hin];
        [apply elem_of_singleton in Hin; discriminate Hin | contradiction].
    + rewrite (create_index_missing_column _ _ _ _ _ t Ht Hcol) in H3;
        [discriminate H3|].
      intros Hin. apply Hb2, elem_of_union in Hin as [Hin|Hin];
        [apply elem_of_singleton in Hin; discriminate Hin|].
      apply Hb1, elem_of_union in Hin as [Hin|Hin];
        [apply elem_of_singleton in Hin; discriminate Hin | contradiction].
Qed.

Lemma init_database_outcomes_witness :
  let legacy : database :=
    {[ "audit_log" := {| tbl_columns := [ mk_column "id"
                                            INTEGER_PRIMARY_KEY_AUTOINCREMENT
                                            false;
                                          mk_column "report_id" TEXT true ];
                         tbl_rows := [];
                         tbl_sequence := 0 |} ]} in
  init_database ∅ legacy = (Raise OperationalError, (∅, legacy))
  /\ fst (init_database ∅ ∅) = Ok tt.
Proof.
  intros legacy. split.
  - assert (Hstate : snd (init_database ∅ legacy) = (∅, legacy))
      by (vm_compute; reflexivity).
    destruct (init_database ∅ legacy) as [outcome state] eqn:Hinit.
    cbn [snd] in Hstate. subst state. f_equal.
    pose proof (init_database_outcomes ∅ legacy) as (_ & _ & _ & _ & Hraise).
    rewrite Hinit in Hraise. cbn [fst] in Hraise.
    eapply (Hraise _ "idx_audit_timestamp" "timestamp");
      [now left | reflexivity | reflexivity | set_solver].
  - now apply (init_database_outcomes ∅ ∅).
Defined.

Lemma insert_row_appends `{SqliteEngine} (clk : clock) (t t' : table)
    (supplied : list (string * sqlval)) :
  insert_row clk t supplied = Ok t' ->
  tbl_columns t' = tbl_columns t
  /\ exists row, tbl_rows t' = tbl_rows t ++ [row]
                 /\ length row = length (tbl_columns t).
Proof.
  unfold insert_row.
  destruct (negb _); [discriminate|].
  cbv zeta. destruct (existsb _ _); [discriminate|].
  intros Hok. injection Hok as <-. cbn [tbl_columns tbl_rows].
  split; [reflexivity|]. eexists. split; [reflexivity|]. apply length_map.
Qed.

Lemma insert_audit_log_appends `{Runtime} `{SqliteEngine}
    (clk : clock) (db db' : database)
    (report_id drugname adverse_event : string)
    (ml_prediction entities : gmap string pyval)
    (escalation_result : EscalationResult) (processing_time_ms : Q) :
  insert_audit_log clk db report_id drugname adverse_event ml_prediction
    entities escalation_result processing_time_ms = Ok db' ->
  exists t t' row,
    db !! "audit_log" = Some t
    /\ db' = <["audit_log" := t']> db
    /\ tbl_columns t' = tbl_columns t
    /\ tbl_rows t' = tbl_rows t ++ [row]
    /\ length row = length (tbl_columns t).
Proof.
  unfold insert_audit_log.
  destruct (bind_params _) as [values|]; cbn [bind]; [|discriminate].
  destruct (db !! "audit_log") as [t|]; [|discriminate].
  destruct (insert_row _ _ _) as [t'|] eqn:Hins; cbn [bind]; [|discriminate].
  intros Hok. injection Hok as <-.
  apply insert_row_appends in Hins as (Hcols & row & Hrows & Hlen).
  now exists t, t', row.
Qed.

(** X19: the log is append-only.  Whatever [get_audit_by_report_id]
    returned for an id before a call of [log_processing], it returns
    the same record after it, whether the call succeeded or not and
    whichever id was logged. *)
Theorem log_processing_keeps_existing_records `{Runtime} `{SqliteEngine}
    `{VectorBackend} (clk : clock) (db : database) (coll : collection)
    (report_id drugname adverse_event : string)
    (ml_prediction entities : gmap string pyval)
    (escalation_result : EscalationResult) (processing_time_ms : Q)
    (earlier_id : string) (record : list (string * sqlval)) :
  get_audit_by_report_id db earlier_id = Ok (Some record) ->
  get_audit_by_report_id
    (snd (fst (log_processing clk db coll report_id drugname adverse_event
                 ml_prediction entities escalation_result processing_time_ms)))
    earlier_id
  = Ok (Some record).
Proof.
  intros Hget. unfold log_processing.
  destruct (insert_audit_log _ _ _ _ _ _ _ _ _) as [db'|e] eqn:Hins;
    [|exact Hget].
  destruct (index_audit_event _ _ _ _ _ _ _ _ _ _) as [ok coll'].
  cbn [fst snd].
  apply insert_audit_log_appends in Hins
    as (t & t' & row & Ht & -> & Hcols & Hrows & _).
  unfold get_audit_by_report_id in *. rewrite lookup_insert_eq.
  rewrite Ht in Hget. unfold select_where_eq in *. rewrite Hcols.
  destruct (column_index "report_id" (tbl_columns t)) as [i|]; [|discriminate].
  cbn [bind] in *. rewrite Hrows, List.filter_app.
  destruct (List.filter _ (tbl_rows t)) as [|first rest]; [discriminate|].
  cbn [app]. unfold row_dict in *. now rewrite Hcols.
Qed.

Lemma log_processing_keeps_existing_records_witness :
  let ml : gmap string pyval :=
    {[ "prediction" := PyStr "Serious"; "serious_probability" := PyFloat 0.4 ]} in
  let entities : gmap string pyval :=
    {[ "drug" := PyStr "propofol"; "symptoms" := PyList ["Coma"] ]} in
  let db1 :=
    snd (fst (log_processing (H := sample_runtime) (H0 := sample_engine)
                (H1 := backend_down) sample_clock database_with_default tt
                "RPT-20240301101500-0A1B2C3D" "warfarin" "nosebleed"
                ml entities sample_result 10)) in
  exists record,
    get_audit_by_report_id (H := sample_engine) db1
      "RPT-20240301101500-0A1B2C3D" = Ok (Some record)
    /\ get_audit_by_report_id (H := sample_engine)
         (snd (fst (log_processing (H := sample_runtime) (H0 := sample_engine)
                      (H1 := backend_down) sample_clock db1 tt
                      "RPT-20240302090000-11223344" "propofol"
                      "coma after induction" ml entities sample_result 12.5)))
         "RPT-20240301101500-0A1B2C3D" = Ok (Some record).
Proof.
  intros ml entities db1.
  destruct (get_audit_by_report_id (H := sample_engine) db1
              "RPT-20240301101500-0A1B2C3D") as [[record|]|e] eqn:Hget.
  - exists record. split; [reflexivity|].
    now apply (log_processing_keeps_existing_records (H := sample_runtime)
                 (H0 := sample_engine) (H1 := backend_down)).
  - vm_compute in Hget. discriminate Hget.
  - vm_compute in Hget. discriminate Hget.
Defined.

Lemma filter_length_le {A : Type} (p : A -> bool) (l : list A) :
  (length (List.filter p l) <= length l)%nat.
Proof.
  induction l as [|a l IH]; simpl; [lia|]. destruct (p a); simpl; lia.
Qed.

Lemma count_where_eq_bounds `{SqliteEngine} (t : table) (name value : string)
    (n : Z) :
  count_where_eq t name value = Ok n ->
  0 <= n <= Z.of_nat (length (tbl_rows t)).
Proof.
  unfold count_where_eq, select_where_eq.
  destruct (column_index name (tbl_columns t)); cbn [bind]; [|discriminate].
  intros Hok. injection Hok as <-.
  pose proof (filter_length_le
    (fun row => sqlval_eqb (nth n0 row SqlNull)
       (apply_affinity
          match nth_error (tbl_columns t) n0 with
          | Some c => col_type c
          | None => TEXT
          end (SqlText value))) (tbl_rows t)).
  lia.
Qed.

(** X20: the counts of [get_db_stats] are consistent: the escalated and
    the critical records are each at most the total; when the
    [audit_log] table is missing, or any count fails, the record says
    not connected and every count is zero. *)
Theorem db_stats_are_consistent `{SqliteEngine} (db : database) :
  let stats := get_db_stats db in
  0 <= escalated stats <= total_records stats
  /\ 0 <= critical stats <= total_records stats
  /\ (connected stats = false ->
      total_records stats = 0 /\ escalated stats = 0 /\ critical stats = 0)
  /\ (db !! "audit_log" = None -> connected stats = false).
Proof.
  cbv zeta. unfold get_db_stats.
  destruct (db !! "audit_log") as [t|].
  - destruct (count_where_eq t "escalation_decision" "ESCALATE") as [e|] eqn:He;
      cbn [bind]; [|cbn; repeat split; (lia || discriminate || reflexivity)].
    destruct (count_where_eq t "risk_level" "CRITICAL") as [c|] eqn:Hc;
      cbn [bind]; [|cbn; repeat split; (lia || discriminate || reflexivity)].
    apply count_where_eq_bounds in He, Hc. cbn.
    repeat split; try lia; discriminate.
  - cbn. repeat split; (lia || reflexivity).
Qed.

(** X21: [log_processing] keeps the table well formed: the columns are
    unchanged and, if every row had one cell per column before the
    call, every row has one after it; a successful call adds exactly
    one row, a failed call none. *)
Theorem log_processing_keeps_table_shape `{Runtime} `{SqliteEngine}
    `{VectorBackend} (clk : clock) (db : database) (coll : collection)
    (t : table) (report_id drugname adverse_event : string)
    (ml_prediction entities : gmap string pyval)
    (escalation_result : EscalationResult) (processing_time_ms : Q) :
  db !! "audit_log" = Some t ->
  well_formed t ->
  let call := log_processing clk db coll report_id drugname adverse_event
                ml_prediction entities escalation_result processing_time_ms in
  exists t',
    snd (fst call) !! "audit_log" = Some t'
    /\ tbl_columns t' = tbl_columns t
    /\ well_formed t'
    /\ length (tbl_rows t')
       = (length (tbl_rows t) + (if fst (fst call) then 1 else 0))%nat
    /\ forall name, name <> "audit_log" -> snd (fst call) !! name = db !! name.
Proof.
  intros Ht Hwf. cbv zeta. unfold log_processing.
  destruct (insert_audit_log _ _ _ _ _ _ _ _ _) as [db'|e] eqn:Hins.
  - destruct (index_audit_event _ _ _ _ _ _ _ _ _ _) as [ok coll'].
    cbn [fst snd].
    apply insert_audit_log_appends in Hins
      as (t0 & t' & row & Ht0 & -> & Hcols & Hrows & Hlen).
    rewrite Ht in Ht0. injection Ht0 as <-.
    exists t'. split; [apply lookup_insert_eq|]. split; [exact Hcols|].
    split; [|split].
    + unfold well_formed in *. rewrite Hrows, Hcols.
      apply Forall_app. split; [exact Hwf|]. now constructor.
    + rewrite Hrows, length_app. reflexivity.
    + intros name Hne. apply lookup_insert_ne. congruence.
  - cbn [fst snd]. exists t. repeat split; try assumption. lia.
Qed.

Lemma log_processing_keeps_table_shape_witness :
  let ml : gmap string pyval :=
    {[ "prediction" := PyStr "Serious"; "serious_probability" := PyFloat 0.4 ]} in
  let entities : gmap string pyval :=
    {[ "drug" := PyStr "propofol"; "symptoms" := PyList ["Coma"] ]} in
  exists t',
    snd (fst (log_processing (H := sample_runtime) (H0 := sample_engine)
                (H1 := backend_down) sample_clock database_with_default tt
                "RPT-20240301101500-0A1B2C3D" "propofol" "coma after induction"
                ml entities sample_result 12.5)) !! "audit_log" = Some t'
    /\ well_formed t'.
Proof.
  intros ml entities.
  destruct (log_processing_keeps_table_shape (H := sample_runtime)
              (H0 := sample_engine) (H1 := backend_down) sample_clock
              database_with_default tt
              {| tbl_columns := audit_log_columns_with_default;
                 tbl_rows := []; tbl_sequence := 0 |}
              "RPT-20240301101500-0A1B2C3D" "propofol" "coma after induction"
              ml entities sample_result 12.5)
    as (t' & Ht' & _ & Hwf & _).
  - reflexivity.
  - constructor.
  - exists t'. split; assumption.
Defined.

Lemma column_index_signature (cols cols' : list column) (name : string) :
  signature cols = signature cols' ->
  column_index name cols = column_index name cols'.
Proof.
  revert cols'. induction cols as [|c cols IH]; intros [|c' cols'] Hsig;
    try discriminate; [reflexivity|].
  unfold signature in Hsig. cbn [map] in Hsig. injection Hsig as Hn Hty Hrest.
  cbn [column_index]. rewrite Hn. now rewrite (IH cols' Hrest).
Qed.

Lemma column_type_signature (cols cols' : list column) (i : nat) :
  signature cols = signature cols' ->
  match nth_error cols i with Some c => col_type c | None => TEXT end
  = match nth_error cols' i with Some c => col_type c | None => TEXT end.
Proof.
  revert cols' i. induction cols as [|c cols IH]; intros [|c' cols'] i Hsig;
    try discriminate; [reflexivity|].
  unfold signature in Hsig. cbn [map] in Hsig. injection Hsig as Hn Hty Hrest.
  destruct i as [|i]; [exact Hty|]. cbn [nth_error]. now apply IH.
Qed.

(** On a table with the columns of [audit_log], an equality query only
    depends on the declared position and type of the column. *)
Lemma select_where_eq_signature `{SqliteEngine} (t : table) (name : string)
    (param : sqlval) :
  signature (tbl_columns t) = signature audit_log_columns ->
  select_where_eq t name param
  = select_where_eq {| tbl_columns := audit_log_columns;
                       tbl_rows := tbl_rows t;
                       tbl_sequence := tbl_sequence t |} name param.
Proof.
  intros Hsig. unfold select_where_eq. cbn [tbl_columns tbl_rows].
  rewrite (column_index_signature _ _ name Hsig).
  destruct (column_index name audit_log_columns) as [i|]; [|reflexivity].
  now rewrite (column_type_signature _ _ i Hsig).
Qed.

Lemma column_of_signature (t : table) (name : string) :
  signature (tbl_columns t) = signature audit_log_columns ->
  column_of t name
  = column_of {| tbl_columns := audit_log_columns;
                 tbl_rows := tbl_rows t;
                 tbl_sequence := tbl_sequence t |} name.
Proof.
  intros Hsig. unfold column_of. cbn [tbl_columns].
  rewrite (column_index_signature _ _ name Hsig).
  destruct (column_index name audit_log_columns) as [i|]; [|reflexivity].
  now rewrite (column_type_signature _ _ i Hsig).
Qed.

(** The row that a successful [INSERT] of [log_processing] appends to a
    table with the columns of [audit_log]. *)
Lemma inserted_row_cells `{Runtime} `{SqliteEngine}
    (clk : clock) (db db' : database) (t : table)
    (report_id drugname adverse_event : string)
    (ml_prediction entities : gmap string pyval)
    (escalation_result : EscalationResult) (processing_time_ms : Q) :
  db !! "audit_log" = Some t ->
  signature (tbl_columns t) = signature audit_log_columns ->
  insert_audit_log clk db report_id drugname adverse_event ml_prediction
    entities escalation_result processing_time_ms = Ok db' ->
  exists t' row,
    db' = <["audit_log" := t']> db
    /\ tbl_columns t' = tbl_columns t
    /\ tbl_rows t' = tbl_rows t ++ [row]
    /\ length row = 15%nat
    /\ nth 1 row SqlNull = SqlText report_id
    /\ nth 3 row SqlNull = SqlText drugname
    /\ nth 9 row SqlNull = SqlText (escalation_decision escalation_result)
    /\ nth 10 row SqlNull = SqlText (risk_level escalation_result)
    /\ nth 14 row SqlNull = SqlReal processing_time_ms.
Proof.
  intros Ht Hsig Hins.
  unfold insert_audit_log in Hins. rewrite Ht in Hins.
  unfold insert_parameters in Hins.
  cbn [map fst snd bind_params bind_param] in Hins.
  set (a := get ml_prediction "prediction" (PyStr "")) in *.
  set (b := get ml_prediction "serious_probability" (PyFloat 0)) in *.
  set (c := get entities "drug" (PyStr "")) in *.
  cbn [bind] in Hins.
  destruct (bind_param a) as [va|]; cbn [bind] in Hins; [|discriminate Hins].
  destruct (bind_param b) as [vb|]; cbn [bind] in Hins; [|discriminate Hins].
  destruct (bind_param c) as [vc|]; cbn [bind] in Hins; [|discriminate Hins].
  cbn [combine] in Hins.
  destruct t as [cols rows seq]. cbn [tbl_columns] in Hsig.
  explicit_columns Hsig.
  unfold insert_row in Hins. cbn [tbl_columns tbl_rows tbl_sequence] in Hins.
  match type of Hins with
  | bind (if ?g then _ else _) _ = _ => destruct g; [discriminate Hins|]
  end.
  cbv zeta in Hins.
  match type of Hins with
  | bind (if ?g then _ else _) _ = _ => destruct g; [discriminate Hins|]
  end.
  cbn [bind] in Hins. injection Hins as <-.
  eexists. eexists. split; [reflexivity|].
  cbn [tbl_columns tbl_rows].
  split; [reflexivity|]. split; [reflexivity|].
  cbn [map new_cell col_type col_name assoc String.eqb Ascii.eqb Bool.eqb
       apply_affinity nth length].
  repeat split.
Qed.

Lemma filter_snoc_length {A : Type} (p : A -> bool) (l : list A) (a : A) :
  Z.of_nat (length (List.filter p (l ++ [a])))
  = Z.of_nat (length (List.filter p l)) + (if p a then 1 else 0).
Proof.
  rewrite List.filter_app, length_app. cbn [List.filter].
  destruct (p a); cbn [length]; lia.
Qed.

(** X22: a successful [log_processing] on a table with the columns of
    [audit_log] is visible in [get_db_stats]: the total grows by one,
    the escalated count by one exactly when the case was escalated, and
    the critical count by one exactly when its risk level is CRITICAL. *)
Theorem db_stats_after_log_processing `{Runtime} `{SqliteEngine}
    `{VectorBackend} (clk : clock) (db db' : database)
    (coll coll' : collection) (t : table)
    (report_id drugname adverse_event : string)
    (ml_prediction entities : gmap string pyval)
    (escalation_result : EscalationResult) (processing_time_ms : Q) :
  db !! "audit_log" = Some t ->
  signature (tbl_columns t) = signature audit_log_columns ->
  log_processing clk db coll report_id drugname adverse_event
    ml_prediction entities escalation_result processing_time_ms
  = (true, db', coll') ->
  get_db_stats db'
  = {| connected := true;
       total_records := total_records (get_db_stats db) + 1;
       escalated := escalated (get_db_stats db)
                    + (if should_escalate escalation_result then 1 else 0);
       critical := critical (get_db_stats db)
                   + (if String.eqb (risk_level escalation_result) "CRITICAL"
                      then 1 else 0) |}.
Proof.
  intros Ht Hsig Hlog. unfold log_processing in Hlog.
  destruct (insert_audit_log _ _ _ _ _ _ _ _ _) as [db1|e] eqn:Hins;
    [|discriminate Hlog].
  destruct (index_audit_event _ _ _ _ _ _ _ _ _ _) as [ok c1].
  injection Hlog as <- _.
  destruct (inserted_row_cells clk db db1 t report_id drugname adverse_event
              ml_prediction entities escalation_result processing_time_ms
              Ht Hsig Hins)
    as (t' & row & -> & Hcols & Hrows & _ & _ & _ & Hdec & Hrisk & _).
  assert (Hsig' : signature (tbl_columns t') = signature audit_log_columns)
    by now rewrite Hcols.
  unfold get_db_stats. rewrite lookup_insert_eq, Ht.
  unfold count_where_eq.
  rewrite !(select_where_eq_signature t' _ _ Hsig').
  rewrite !(select_where_eq_signature t _ _ Hsig).
  unfold select_where_eq.
  cbn [tbl_columns tbl_rows audit_log_columns mk_column column_index col_name
       String.eqb Ascii.eqb Bool.eqb option_map nth_error col_type
       apply_affinity bind connected total_records escalated critical].
  rewrite Hrows, !filter_snoc_length, Hdec, Hrisk, length_app.
  cbn [sqlval_eqb length].
  f_equal; try lia.
  unfold escalation_decision.
  destruct (should_escalate escalation_result); reflexivity.
Qed.

Lemma db_stats_after_log_processing_witness :
  let ml : gmap string pyval :=
    {[ "prediction" := PyStr "Serious"; "serious_probability" := PyFloat 0.4 ]} in
  let entities : gmap string pyval :=
    {[ "drug" := PyStr "propofol"; "symptoms" := PyList ["Coma"] ]} in
  let call :=
    log_processing (H := sample_runtime) (H0 := sample_engine)
      (H1 := backend_down) sample_clock database_with_default tt
      "RPT-20240301101500-0A1B2C3D" "propofol" "coma after induction"
      ml entities sample_result 12.5 in
  get_db_stats (H := sample_engine) (snd (fst call))
  = {| connected := true; total_records := 1; escalated := 1; critical := 1 |}.
Proof.
  intros ml entities call.
  destruct call as [[ok db'] coll'] eqn:Hcall.
  assert (Hok : ok = true).
  { pose proof (f_equal (fun x => fst (fst x)) Hcall) as Hf.
    vm_compute in Hf. now symmetry. }
  subst ok. cbn [fst snd].
  rewrite (db_stats_after_log_processing (H := sample_runtime)
             (H0 := sample_engine) (H1 := backend_down) sample_clock
             database_with_default db' tt coll'
             {| tbl_columns := audit_log_columns_with_default;
                tbl_rows := []; tbl_sequence := 0 |}
             "RPT-20240301101500-0A1B2C3D" "propofol" "coma after induction"
             ml entities sample_result 12.5);
    [reflexivity | reflexivity | reflexivity | exact Hcall].
Defined.

(* ===================================================================== *)
(** ** Listing the audit log                                              *)
(* ===================================================================== *)

Lemma limit_offset_incl {A : Type} (limit offset : Z) (l : list A) (x : A) :
  In x (limit_offset limit offset l) -> In x l.
Proof.
  assert (Hskip : forall n (l' : list A), In x (skipn n l') -> In x l').
  { intros n l' Hin. rewrite <- (firstn_skipn n l'). apply in_or_app. now right. }
  assert (Hfirst : forall n (l' : list A), In x (firstn n l') -> In x l').
  { intros n l' Hin. rewrite <- (firstn_skipn n l'). apply in_or_app. now left. }
  unfold limit_offset. intros Hin.
  destruct (limit <? 0); eauto.
Qed.

Lemma limit_offset_length {A : Type} (limit offset : Z) (l : list A) :
  0 <= limit ->
  Z.of_nat (length (limit_offset limit offset l)) <= limit.
Proof.
  intros Hlimit. unfold limit_offset.
  destruct (limit <? 0) eqn:Hneg; [lia|].
  rewrite length_firstn. lia.
Qed.

Lemma limit_offset_all {A : Type} (limit offset : Z) (l : list A) :
  limit < 0 \/ Z.of_nat (length l) <= limit ->
  offset <= 0 ->
  limit_offset limit offset l = l.
Proof.
  intros Hlimit Hoffset. unfold limit_offset.
  replace (Z.to_nat offset) with 0%nat by lia. cbn [skipn].
  destruct (limit <? 0) eqn:Hneg; [reflexivity|].
  apply firstn_all2. lia.
Qed.

Lemma Sorted_skipn {A : Type} (R : A -> A -> Prop) (n : nat) (l : list A) :
  Sorted R l -> Sorted R (skipn n l).
Proof.
  revert l. induction n as [|n IH]; intros l Hl; [exact Hl|].
  destruct l as [|a l]; [constructor|].
  cbn [skipn]. apply IH. now inversion Hl.
Qed.

Lemma Sorted_firstn {A : Type} (R : A -> A -> Prop) (n : nat) (l : list A) :
  Sorted R l -> Sorted R (firstn n l).
Proof.
  revert l. induction n as [|n IH]; intros l Hl; [constructor|].
  destruct l as [|a l]; [constructor|].
  cbn [firstn]. inversion Hl as [|? ? Hrest Hhd]; subst.
  constructor; [now apply IH|].
  destruct n as [|n]; [constructor|].
  destruct l as [|b l]; [constructor|].
  cbn [firstn]. constructor. now inversion Hhd.
Qed.

Lemma limit_offset_sorted {A : Type} (R : A -> A -> Prop) (limit offset : Z)
    (l : list A) :
  Sorted R l -> Sorted R (limit_offset limit offset l).
Proof.
  intros Hl. unfold limit_offset.
  destruct (limit <? 0); [|apply Sorted_firstn]; now apply Sorted_skipn.
Qed.

(** [get_audit_logs] on a table with the columns of [audit_log]: the
    selected rows, newest first, cut to the page. *)
Lemma get_audit_logs_on_audit_log `{SqliteEngine} `{SqliteSorter}
    (db : database) (t : table) (limit offset : Z)
    (risk_level : option string) (escalated_only : bool)
    (start_date end_date : option string) :
  db !! "audit_log" = Some t ->
  signature (tbl_columns t) = signature audit_log_columns ->
  get_audit_logs db limit offset risk_level escalated_only start_date end_date
  = if (sqlite_int limit && sqlite_int offset)%bool then
      Ok (map (row_dict t)
            (limit_offset limit offset
               (order_by_desc 2
                  (List.filter
                     (fun row =>
                        (if str_truthy risk_level
                         then sqlval_eqb (cell 10 row)
                                (SqlText (default "" risk_level))
                         else true)
                        && (if escalated_only
                            then sqlval_eqb (cell 9 row) (SqlText "ESCALATE")
                            else true)
                        && (if str_truthy start_date
                            then where_ge (cell 2 row)
                                   (SqlText (default "" start_date))
                            else true)
                        && (if str_truthy end_date
                            then where_le (cell 2 row)
                                   (SqlText (default "" end_date
                                             +:+ " 23:59:59"))
                            else true))%bool
                     (tbl_rows t)))))
    else Raise (BackendError "OverflowError").
Proof.
  intros Ht Hsig. unfold get_audit_logs. rewrite Ht.
  unfold condition.
  rewrite !(column_of_signature t _ Hsig).
  unfold column_of.
  cbn [tbl_columns audit_log_columns mk_column column_index col_name
       String.eqb Ascii.eqb Bool.eqb option_map nth_error col_type
       apply_affinity bind].
  destruct (str_truthy risk_level), escalated_only,
    (str_truthy start_date), (str_truthy end_date);
    cbn [bind]; reflexivity.
Qed.

Lemma get_audit_logs_returns `{SqliteEngine} `{SqliteSorter}
    (db : database) (t : table) (limit offset : Z)
    (risk_level : option string) (escalated_only : bool)
    (start_date end_date : option string)
    (records : list (list (string * sqlval))) :
  db !! "audit_log" = Some t ->
  signature (tbl_columns t) = signature audit_log_columns ->
  get_audit_logs db limit offset risk_level escalated_only start_date end_date
  = Ok records ->
  records
  = map (row_dict t)
      (limit_offset limit offset
         (order_by_desc 2
            (List.filter
               (fun row =>
                  (if str_truthy risk_level
                   then sqlval_eqb (cell 10 row)
                          (SqlText (default "" risk_level))
                   else true)
                  && (if escalated_only
                      then sqlval_eqb (cell 9 row) (SqlText "ESCALATE")
                      else true)
                  && (if str_truthy start_date
                      then where_ge (cell 2 row)
                             (SqlText (default "" start_date))
                      else true)
                  && (if str_truthy end_date
                      then where_le (cell 2 row)
                             (SqlText (default "" end_date +:+ " 23:59:59"))
                      else true))%bool
               (tbl_rows t)))).
Proof.
  intros Ht Hsig Hget.
  rewrite (get_audit_logs_on_audit_log db t _ _ _ _ _ _ Ht Hsig) in Hget.
  destruct (sqlite_int limit && sqlite_int offset)%bool; [|discriminate Hget].
  now injection Hget as <-.
Qed.

Lemma assoc_combine_cell (cols : list column) (row : list sqlval)
    (name : string) :
  length row = length cols ->
  assoc name (combine (map col_name cols) row)
  = option_map (fun i => cell i row) (column_index name cols).
Proof.
  revert row. induction cols as [|c cols IH]; intros [|v row] Hlen;
    try discriminate; [reflexivity|].
  cbn [map combine assoc column_index].
  destruct (String.eqb name (col_name c)); [reflexivity|].
  rewrite IH by (cbn [length] in Hlen; lia).
  destruct (column_index name cols); reflexivity.
Qed.

(** Reading a key of [dict(row)] on a table with the columns of
    [audit_log]. *)
Lemma row_dict_cell (t : table) (row : list sqlval) (name : string) :
  signature (tbl_columns t) = signature audit_log_columns ->
  length row = length (tbl_columns t) ->
  assoc name (row_dict t row)
  = option_map (fun i => cell i row) (column_index name audit_log_columns).
Proof.
  intros Hsig Hlen. unfold row_dict.
  rewrite (assoc_combine_cell _ _ _ Hlen).
  now rewrite (column_index_signature _ _ name Hsig).
Qed.

Lemma sqlval_eqb_text (v : sqlval) (s : string) :
  sqlval_eqb v (SqlText s) = true -> v = SqlText s.
Proof.
  destruct v as [|z|x|s']; cbn [sqlval_eqb]; try discriminate.
  intros Heq. apply String.eqb_eq in Heq. now subst.
Qed.

(** X23: [get_audit_logs] never returns more than [limit] records when
    [limit] is not negative, whatever the filters, the offset and the
    table. *)
Theorem audit_logs_respect_limit `{SqliteEngine} `{SqliteSorter}
    (db : database) (limit offset : Z) (risk_level : option string)
    (escalated_only : bool) (start_date end_date : option string)
    (records : list (list (string * sqlval))) :
  0 <= limit ->
  get_audit_logs db limit offset risk_level escalated_only start_date end_date
  = Ok records ->
  Z.of_nat (length records) <= limit.
Proof.
  intros Hlimit Hget. unfold get_audit_logs in Hget.
  destruct (db !! "audit_log") as [t|]; [|discriminate Hget].
  repeat match type of Hget with
         | bind ?r _ = Ok _ =>
             destruct r as [?|?]; cbn [bind] in Hget; [|discriminate Hget]
         end.
  match type of Hget with
  | (let '(_, _) := ?p in _) = _ => destruct p as [ts ty]
  end.
  destruct (sqlite_int limit && sqlite_int offset)%bool; [|discriminate Hget].
  injection Hget as <-. rewrite length_map.
  now apply limit_offset_length.
Qed.

Lemma audit_logs_respect_limit_witness :
  exists records,
    get_audit_logs (H := sample_engine) (H0 := sample_sorter)
      sample_log 1 0 None true None None = Ok records
    /\ Z.of_nat (length records) <= 1.
Proof.
  eexists. split; [vm_compute; reflexivity|].
  apply (audit_logs_respect_limit (H := sample_engine) (H0 := sample_sorter)
           sample_log 1 0 None true None None);
    [lia | vm_compute; reflexivity].
Defined.

(** X24: every record that [get_audit_logs] returns on a table with the
    columns of [audit_log] is a row of that table and passes each filter
    that is switched on: its risk level is the one asked for, it is
    escalated when only escalated cases are asked for, and its timestamp
    lies between [start_date] and the end of [end_date].  A filter given
    as the empty string is switched off. *)
Theorem audit_logs_satisfy_filters `{SqliteEngine} `{SqliteSorter}
    (db : database) (t : table) (limit offset : Z)
    (risk_level : option string) (escalated_only : bool)
    (start_date end_date : option string)
    (records : list (list (string * sqlval))) :
  db !! "audit_log" = Some t ->
  signature (tbl_columns t) = signature audit_log_columns ->
  well_formed t ->
  get_audit_logs db limit offset risk_level escalated_only start_date end_date
  = Ok records ->
  forall record, In record records ->
    (exists row, In row (tbl_rows t) /\ record = row_dict t row)
    /\ (forall r, risk_level = Some r -> r <> "" ->
          assoc "risk_level" record = Some (SqlText r))
    /\ (escalated_only = true ->
          assoc "escalation_decision" record = Some (SqlText "ESCALATE"))
    /\ (forall s, start_date = Some s -> s <> "" ->
          exists v, assoc "timestamp" record = Some v
                    /\ where_ge v (SqlText s) = true)
    /\ (forall s, end_date = Some s -> s <> "" ->
          exists v, assoc "timestamp" record = Some v
                    /\ where_le v (SqlText (s +:+ " 23:59:59")) = true).
Proof.
  intros Ht Hsig Hwf Hget record Hin.
  rewrite (get_audit_logs_returns db t _ _ _ _ _ _ _ Ht Hsig Hget) in Hin.
  apply in_map_iff in Hin as (row & <- & Hrow).
  apply limit_offset_incl in Hrow.
  apply (Permutation_in _ (order_by_desc_permutation _ _)) in Hrow.
  apply filter_In in Hrow as [Hrow Hkeep].
  apply andb_prop in Hkeep as [Hkeep Hto].
  apply andb_prop in Hkeep as [Hkeep Hfrom].
  apply andb_prop in Hkeep as [Hrisk Hdec].
  assert (Hlen : length row = length (tbl_columns t)).
  { unfold well_formed in Hwf. rewrite List.Forall_forall in Hwf.
    apply Hwf. exact Hrow. }
  assert (Hnonempty : forall s, s <> "" -> str_truthy (Some s) = true).
  { intros [|a s] Hs; [contradiction|reflexivity]. }
  rewrite !(row_dict_cell t row _ Hsig Hlen).
  cbn [audit_log_columns mk_column column_index col_name String.eqb Ascii.eqb
       Bool.eqb option_map].
  split; [now exists row|].
  split; [|split; [|split]].
  - intros r -> Hr. rewrite (Hnonempty r Hr) in Hrisk.
    cbn [default] in Hrisk. f_equal. now apply sqlval_eqb_text.
  - intros ->. f_equal. now apply sqlval_eqb_text.
  - intros s -> Hs. rewrite (Hnonempty s Hs) in Hfrom.
    eexists. split; [reflexivity|exact Hfrom].
  - intros s -> Hs. rewrite (Hnonempty s Hs) in Hto.
    eexists. split; [reflexivity|exact Hto].
Qed.

Lemma audit_logs_satisfy_filters_witness :
  exists record,
    get_audit_logs (H := sample_engine) (H0 := sample_sorter)
      sample_log 100 0 (Some "CRITICAL") true (Some "2024-03-02")
      (Some "2024-03-03") = Ok [record]
    /\ assoc "risk_level" record = Some (SqlText "CRITICAL")
    /\ assoc "escalation_decision" record = Some (SqlText "ESCALATE").
Proof.
  eexists. split; [vm_compute; reflexivity|].
  edestruct (audit_logs_satisfy_filters (H := sample_engine)
               (H0 := sample_sorter) sample_log sample_table 100 0
               (Some "CRITICAL") true (Some "2024-03-02")
               (Some "2024-03-03")) as (_ & Hrisk & Hdec & _).
  - reflexivity.
  - reflexivity.
  - repeat constructor.
  - vm_compute. reflexivity.
  - left. reflexivity.
  - split; [apply (Hrisk "CRITICAL"); [reflexivity|discriminate]|].
    now apply Hdec.
Defined.

Lemma Sorted_map_in {A B : Type} (R : A -> A -> Prop) (R' : B -> B -> Prop)
    (f : A -> B) (P : A -> Prop) (l : list A) :
  (forall a b, P a -> P b -> R a b -> R' (f a) (f b)) ->
  Forall P l -> Sorted R l -> Sorted R' (map f l).
Proof.
  intros Hf HP Hl. induction Hl as [|a l Hl IH Hhd]; [constructor|].
  inversion HP as [|? ? Pa Pl]; subst. cbn [map].
  constructor; [now apply IH|].
  destruct Hhd as [|b l Hab]; [constructor|].
  cbn [map]. constructor. inversion Pl; subst. now apply Hf.
Qed.

(** X25: the records of [get_audit_logs] come newest first: on a well
    formed table with the columns of [audit_log], no record is followed
    by one with a larger timestamp, in the order of SQLite. *)
Theorem audit_logs_newest_first `{SqliteEngine} `{SqliteSorter}
    (db : database) (t : table) (limit offset : Z)
    (risk_level : option string) (escalated_only : bool)
    (start_date end_date : option string)
    (records : list (list (string * sqlval))) :
  db !! "audit_log" = Some t ->
  signature (tbl_columns t) = signature audit_log_columns ->
  well_formed t ->
  get_audit_logs db limit offset risk_level escalated_only start_date end_date
  = Ok records ->
  Sorted newer_or_same records.
Proof.
  intros Ht Hsig Hwf Hget.
  rewrite (get_audit_logs_returns db t _ _ _ _ _ _ _ Ht Hsig Hget).
  match goal with
  | |- Sorted _ (map _ (limit_offset _ _ (order_by_desc _ ?sel))) =>
      set (selected := sel)
  end.
  apply (Sorted_map_in (not_before 2) newer_or_same (row_dict t)
           (fun row => length row = length (tbl_columns t))).
  - intros a b Ha Hb Hab. unfold newer_or_same.
    exists (cell 2 a), (cell 2 b).
    rewrite !(row_dict_cell t _ _ Hsig) by assumption.
    repeat split. exact Hab.
  - apply List.Forall_forall. intros row Hrow.
    apply limit_offset_incl in Hrow.
    apply (Permutation_in _ (order_by_desc_permutation _ _)) in Hrow.
    apply filter_In in Hrow as [Hrow _].
    unfold well_formed in Hwf. rewrite List.Forall_forall in Hwf.
    apply Hwf. exact Hrow.
  - apply limit_offset_sorted. apply order_by_desc_descending.
Qed.

Lemma audit_logs_newest_first_witness :
  exists records,
    get_audit_logs (H := sample_engine) (H0 := sample_sorter)
      sample_log 100 0 None false None None = Ok records
    /\ map (assoc "report_id") records
       = [Some (SqlText "RPT-20240303183000-0000000C");
          Some (SqlText "RPT-20240302090000-0000000B");
          Some (SqlText "RPT-20240301101500-0000000A")]
    /\ Sorted newer_or_same records.
Proof.
  eexists. split; [vm_compute; reflexivity|].
  split; [reflexivity|].
  apply (audit_logs_newest_first (H := sample_engine) (H0 := sample_sorter)
           sample_log sample_table 100 0 None false None None).
  - reflexivity.
  - reflexivity.
  - repeat constructor.
  - vm_compute. reflexivity.
Defined.

Lemma filter_all {A : Type} (p : A -> bool) (l : list A) :
  (forall a, p a = true) -> List.filter p l = l.
Proof.
  intros Hp. induction l as [|a l IH]; [reflexivity|].
  cbn [List.filter]. now rewrite Hp, IH.
Qed.

(** X26: without filters and without a cut, [get_audit_logs] returns
    every row of the table, each once: with [limit] negative or at
    least the number of rows and no offset, the records are the rows of
    [audit_log] rearranged. *)
Theorem audit_logs_unfiltered_lists_every_row `{SqliteEngine} `{SqliteSorter}
    (db : database) (t : table) (limit offset : Z)
    (records : list (list (string * sqlval))) :
  db !! "audit_log" = Some t ->
  limit < 0 \/ Z.of_nat (length (tbl_rows t)) <= limit ->
  offset <= 0 ->
  get_audit_logs db limit offset None false None None = Ok records ->
  Permutation records (map (row_dict t) (tbl_rows t)).
Proof.
  intros Ht Hlimit Hoffset Hget. unfold get_audit_logs in Hget.
  rewrite Ht in Hget. unfold condition in Hget.
  cbn [str_truthy bind] in Hget.
  destruct (column_of t "timestamp") as [[ts ty]|]; cbn [bind] in Hget;
    [|discriminate Hget].
  destruct (sqlite_int limit && sqlite_int offset)%bool; [|discriminate Hget].
  injection Hget as <-.
  rewrite filter_all by reflexivity.
  apply Permutation_map.
  rewrite limit_offset_all.
  - apply order_by_desc_permutation.
  - rewrite (Permutation_length (order_by_desc_permutation _ _)). exact Hlimit.
  - exact Hoffset.
Qed.

Lemma audit_logs_unfiltered_lists_every_row_witness :
  exists records,
    get_audit_logs (H := sample_engine) (H0 := sample_sorter)
      sample_log (-1) 0 None false None None = Ok records
    /\ Permutation records (map (row_dict sample_table) (tbl_rows sample_table)).
Proof.
  eexists. split; [vm_compute; reflexivity|].
  apply (audit_logs_unfiltered_lists_every_row (H := sample_engine)
           (H0 := sample_sorter) sample_log sample_table (-1) 0).
  - reflexivity.
  - left. lia.
  - lia.
  - vm_compute. reflexivity.
Defined.

(** X27: a case that [log_processing] has stored is listed by
    [get_audit_logs]: on a table with the columns of [audit_log], after a
    successful call the unbounded listing, with or without the
    escalated-only filter when the case was escalated, contains a record
    with the report id, the drug name and the risk level of the case. *)
Theorem logged_case_is_listed `{Runtime} `{SqliteEngine} `{SqliteSorter}
    `{VectorBackend} (clk : clock) (db db' : database)
    (coll coll' : collection) (t : table)
    (report_id drugname adverse_event : string)
    (ml_prediction entities : gmap string pyval)
    (escalation_result : EscalationResult) (processing_time_ms : Q)
    (escalated_only : bool) :
  db !! "audit_log" = Some t ->
  signature (tbl_columns t) = signature audit_log_columns ->
  log_processing clk db coll report_id drugname adverse_event
    ml_prediction entities escalation_result processing_time_ms
  = (true, db', coll') ->
  (escalated_only = true -> should_escalate escalation_result = true) ->
  exists records record,
    get_audit_logs db' (-1) 0 None escalated_only None None = Ok records
    /\ In record records
    /\ assoc "report_id" record = Some (SqlText report_id)
    /\ assoc "drugname" record = Some (SqlText drugname)
    /\ assoc "risk_level" record
       = Some (SqlText (risk_level escalation_result)).
Proof.
  intros Ht Hsig Hlog Hesc. unfold log_processing in Hlog.
  destruct (insert_audit_log _ _ _ _ _ _ _ _ _) as [db1|e] eqn:Hins;
    [|discriminate Hlog].
  destruct (index_audit_event _ _ _ _ _ _ _ _ _ _) as [ok c1].
  injection Hlog as <- _.
  destruct (inserted_row_cells clk db db1 t report_id drugname adverse_event
              ml_prediction entities escalation_result processing_time_ms
              Ht Hsig Hins)
    as (t' & row & -> & Hcols & Hrows & Hlen & Hid & Hdrug & Hdec & Hrisk & _).
  assert (Hsig' : signature (tbl_columns t') = signature audit_log_columns)
    by now rewrite Hcols.
  assert (Hlen' : length row = length (tbl_columns t')).
  { rewrite Hlen. apply (f_equal (@length _)) in Hsig'.
    unfold signature in Hsig'. rewrite !length_map in Hsig'.
    rewrite Hsig'. reflexivity. }
  eexists. exists (row_dict t' row).
  split.
  { rewrite (get_audit_logs_on_audit_log _ t' _ _ _ _ _ _
               (lookup_insert_eq _ _ _) Hsig').
    reflexivity. }
  split.
  { apply in_map. rewrite limit_offset_all by lia.
    apply (Permutation_in _ (Permutation_sym (order_by_desc_permutation _ _))).
    apply filter_In. split.
    - rewrite Hrows. apply in_or_app. right. now left.
    - cbn [str_truthy andb]. rewrite !andb_true_r.
      destruct escalated_only; [|reflexivity].
      unfold cell. rewrite Hdec. unfold escalation_decision.
      rewrite (Hesc eq_refl). reflexivity. }
  rewrite !(row_dict_cell t' row _ Hsig' Hlen').
  cbn [audit_log_columns mk_column column_index col_name String.eqb Ascii.eqb
       Bool.eqb option_map].
  unfold cell. rewrite Hid, Hdrug, Hrisk. repeat split.
Qed.

Lemma logged_case_is_listed_witness :
  let ml : gmap string pyval :=
    {[ "prediction" := PyStr "Serious"; "serious_probability" := PyFloat 0.4 ]} in
  let entities : gmap string pyval :=
    {[ "drug" := PyStr "propofol"; "symptoms" := PyList ["Coma"] ]} in
  let call :=
    log_processing (H := sample_runtime) (H0 := sample_engine)
      (H1 := backend_down) sample_clock database_with_default tt
      "RPT-20240301101500-0A1B2C3D" "propofol" "coma after induction"
      ml entities sample_result 12.5 in
  exists records record,
    get_audit_logs (H := sample_engine) (H0 := sample_sorter)
      (snd (fst call)) (-1) 0 None true None None = Ok records
    /\ In record records
    /\ assoc "report_id" record = Some (SqlText "RPT-20240301101500-0A1B2C3D").
Proof.
  intros ml entities call.
  destruct call as [[ok db'] coll'] eqn:Hcall.
  assert (Hok : ok = true).
  { pose proof (f_equal (fun x => fst (fst x)) Hcall) as Hf.
    vm_compute in Hf. now symmetry. }
  subst ok. cbn [fst snd].
  destruct (logged_case_is_listed (H := sample_runtime) (H0 := sample_engine)
              (H1 := sample_sorter) (H2 := backend_down) sample_clock
              database_with_default db' tt coll'
              {| tbl_columns := audit_log_columns_with_default;
                 tbl_rows := []; tbl_sequence := 0 |}
              "RPT-20240301101500-0A1B2C3D" "propofol" "coma after induction"
              ml entities sample_result 12.5 true)
    as (records & record & Hget & Hin & Hid & _).
  - reflexivity.
  - reflexivity.
  - exact Hcall.
  - reflexivity.
  - exists records, record. repeat split; assumption.
Defined.

(* ===================================================================== *)
(** ** The summary of the audit log                                       *)
(* ===================================================================== *)

Lemma count_group_sum (key : sqlval) (groups : list (sqlval * Z)) :
  fold_right Z.add 0 (map snd (count_group key groups))
  = fold_right Z.add 0 (map snd groups) + 1.
Proof.
  induction groups as [|[k n] groups IH]; [reflexivity|].
  cbn [count_group]. destruct (same_group key k); cbn [map fold_right snd].
  - lia.
  - rewrite IH. lia.
Qed.

Lemma count_group_positive (key : sqlval) (groups : list (sqlval * Z)) :
  Forall (fun g => 1 <= snd g) groups ->
  Forall (fun g => 1 <= snd g) (count_group key groups).
Proof.
  induction 1 as [|[k n] groups Hn Hrest IH].
  - cbn [count_group]. constructor; [cbn [snd]; lia | constructor].
  - cbn [count_group]. destruct (same_group key k).
    + constructor; [cbn [snd] in *; lia | exact Hrest].
    + constructor; [exact Hn | exact IH].
Qed.

Lemma group_counts_invariant (i : nat) (rows : list (list sqlval))
    (groups : list (sqlval * Z)) :
  let result :=
    fold_left (fun groups row => count_group (cell i row) groups) rows groups in
  fold_right Z.add 0 (map snd result)
  = fold_right Z.add 0 (map snd groups) + Z.of_nat (length rows)
  /\ (Forall (fun g => 1 <= snd g) groups ->
      Forall (fun g => 1 <= snd g) result).
Proof.
  cbv zeta. revert groups. induction rows as [|row rows IH]; intros groups.
  - cbn [fold_left length]. split; [lia | auto].
  - cbn [fold_left]. destruct (IH (count_group (cell i row) groups)) as [Hsum Hpos].
    split.
    + rewrite Hsum, count_group_sum. cbn [length]. lia.
    + intros Hg. apply Hpos. now apply count_group_positive.
Qed.

Lemma sum_counts_permutation (l l' : list (sqlval * Z)) :
  Permutation l l' ->
  fold_right Z.add 0 (map snd l) = fold_right Z.add 0 (map snd l').
Proof.
  induction 1 as [|x l l' _ IH|x y l|l l' l'' _ IH1 _ IH2];
    cbn [map fold_right]; lia.
Qed.

(** X28: the figures of [get_audit_summary] fit together and agree with
    [get_db_stats]: the total is the number of records, the counts per
    risk level are each at least one and add up to the total, and the
    escalation rate lies between 0 and 1, is 0 exactly when no record is
    escalated and 1 exactly when there are records and all are. *)
Theorem audit_summary_is_consistent `{SqliteEngine} `{SqliteAggregate}
    (db : database) (summary : audit_summary) :
  get_audit_summary db = Ok summary ->
  connected (get_db_stats db) = true
  /\ total_processed summary = total_records (get_db_stats db)
  /\ fold_right Z.add 0 (map snd (by_risk_level summary))
     = total_processed summary
  /\ Forall (fun g => 1 <= snd g) (by_risk_level summary)
  /\ (0 <= escalation_rate summary <= 1)%Q
  /\ ((escalation_rate summary == 0)%Q <-> escalated (get_db_stats db) = 0)
  /\ ((escalation_rate summary == 1)%Q <->
      0 < total_processed summary
      /\ escalated (get_db_stats db) = total_processed summary).
Proof.
  unfold get_audit_summary, get_db_stats.
  destruct (db !! "audit_log") as [t|]; [|discriminate].
  destruct (column_of t "risk_level") as [[rl ty]|] eqn:Hrl; cbn [bind];
    [|discriminate].
  destruct (count_where_eq t "escalation_decision" "ESCALATE") as [e|] eqn:He;
    cbn [bind]; [|discriminate].
  destruct (column_of t "processing_time_ms") as [[pt ty']|]; cbn [bind];
    [|discriminate].
  intros Hsum. injection Hsum as <-.
  assert (Hcrit : exists c, count_where_eq t "risk_level" "CRITICAL" = Ok c).
  { unfold count_where_eq, select_where_eq. unfold column_of in Hrl.
    destruct (column_index "risk_level" (tbl_columns t)); [|discriminate Hrl].
    cbn [bind]. eauto. }
  destruct Hcrit as [c ->]. cbn [bind connected total_records escalated
    total_processed by_risk_level escalation_rate].
  apply count_where_eq_bounds in He.
  destruct (group_counts_invariant rl (tbl_rows t) []) as [Hsum Hpos].
  pose proof (group_order_permutation (group_counts rl (tbl_rows t))) as Hperm.
  set (n := Z.of_nat (length (tbl_rows t))) in *.
  split; [reflexivity|]. split; [reflexivity|].
  split; [unfold group_by_count;
          rewrite (sum_counts_permutation _ _ Hperm); exact Hsum|].
  split.
  { unfold group_by_count.
    apply (Permutation_Forall (Permutation_sym Hperm)).
    apply Hpos. constructor. }
  destruct (0 <? n) eqn:Hn.
  - apply Z.ltb_lt in Hn.
    assert (Hnq : (0 < inject_Z n)%Q).
    { change (inject_Z 0 < inject_Z n)%Q. rewrite <- Zlt_Qlt. exact Hn. }
    assert (Hnz : ~ (inject_Z n == 0)%Q).
    { intros Hzero. rewrite Hzero in Hnq. now apply Qlt_irrefl in Hnq. }
    assert (Heq : (0 <= inject_Z e)%Q).
    { change (inject_Z 0 <= inject_Z e)%Q. rewrite <- Zle_Qle. lia. }
    assert (Hle : (inject_Z e <= inject_Z n)%Q) by (rewrite <- Zle_Qle; lia).
    assert (Hmul : (inject_Z e / inject_Z n * inject_Z n == inject_Z e)%Q)
      by (field; exact Hnz).
    split; [split|split].
    + apply Qle_shift_div_l; [exact Hnq|]. rewrite Qmult_0_l. exact Heq.
    + apply Qle_shift_div_r; [exact Hnq|]. rewrite Qmult_1_l. exact Hle.
    + split.
      * intros Hzero. rewrite Hzero, Qmult_0_l in Hmul.
        unfold Qeq in Hmul. cbn [inject_Z Qnum Qden] in Hmul. lia.
      * intros ->. unfold Qdiv. now rewrite Qmult_0_l.
    + split.
      * intros Hone. rewrite Hone, Qmult_1_l in Hmul.
        unfold Qeq in Hmul. cbn [inject_Z Qnum Qden] in Hmul.
        split; [exact Hn | lia].
      * intros [_ ->]. field. exact Hnz.
  - apply Z.ltb_ge in Hn. assert (e = 0) as -> by lia.
    split; [split; [apply Qle_refl | discriminate]|].
    split; [split; reflexivity|].
    split; [discriminate | lia].
Qed.

Lemma audit_summary_is_consistent_witness :
  exists summary,
    get_audit_summary (H := sample_engine) (H0 := sample_aggregate) sample_log
    = Ok summary
    /\ total_processed summary = 3
    /\ by_risk_level summary
       = [(SqlText "CRITICAL", 1); (SqlText "HIGH", 1); (SqlText "LOW", 1)]
    /\ (0 <= escalation_rate summary <= 1)%Q.
Proof.
  eexists. split; [vm_compute; reflexivity|].
  split; [reflexivity|]. split; [reflexivity|].
  destruct (audit_summary_is_consistent (H := sample_engine)
              (H0 := sample_aggregate) sample_log _ eq_refl)
    as (_ & _ & _ & _ & Hrate & _).
  exact Hrate.
Defined.

(** X29: on an empty [audit_log] the summary is all zeros: no records, no
    risk level, an escalation rate of 0 (the division is guarded) and an
    average processing time of 0 (the [NULL] of [AVG] is replaced). *)
Theorem audit_summary_of_empty_log `{SqliteEngine} `{SqliteAggregate}
    (db : database) (t : table) (summary : audit_summary) :
  db !! "audit_log" = Some t ->
  tbl_rows t = [] ->
  get_audit_summary db = Ok summary ->
  summary = {| total_processed := 0;
               by_risk_level := [];
               escalation_rate := 0;
               avg_processing_time_ms := 0 |}.
Proof.
  intros Ht Hrows. unfold get_audit_summary. rewrite Ht, Hrows.
  destruct (column_of t "risk_level") as [[rl ty]|]; cbn [bind];
    [|discriminate].
  destruct (count_where_eq t "escalation_decision" "ESCALATE") as [e|];
    cbn [bind]; [|discriminate].
  destruct (column_of t "processing_time_ms") as [[pt ty']|]; cbn [bind];
    [|discriminate].
  intros Hsum. injection Hsum as <-.
  unfold group_by_count. cbn [group_counts fold_left].
  rewrite (Permutation_nil (Permutation_sym (group_order_permutation []))).
  reflexivity.
Qed.

Lemma audit_summary_of_empty_log_witness :
  get_audit_summary (H := sample_engine) (H0 := sample_aggregate)
    initialised_database
  = Ok {| total_processed := 0;
          by_risk_level := [];
          escalation_rate := 0;
          avg_processing_time_ms := 0 |}.
Proof.
  destruct (get_audit_summary (H := sample_engine) (H0 := sample_aggregate)
              initialised_database) as [summary|e] eqn:Hsum;
    [|vm_compute in Hsum; discriminate Hsum].
  f_equal.
  apply (audit_summary_of_empty_log (H := sample_engine)
           (H0 := sample_aggregate) initialised_database
           {| tbl_columns := audit_log_columns; tbl_rows := [];
              tbl_sequence := 0 |} summary);
    [reflexivity | reflexivity | exact Hsum].
Defined.

(* ===================================================================== *)
(** ** Report ids                                                         *)
(* ===================================================================== *)


(** X30: a report is never listed as similar to itself: an id made by
    [generate_report_id] is not empty, so the exclusion of
    [get_similar_serious_events_vector] is always switched on for it,
    whatever the clock, the random part, the collection and the backend. *)
Theorem generated_id_excludes_own_report `{Runtime} `{VectorBackend}
    (coll : collection) (now uuid_hex drugname adverse_event : string)
    (symptoms : pyval) (risk_level : string) (limit : Z) :
  let report_id := generate_report_id now uuid_hex in
  report_id <> ""
  /\ Forall (fun ev => ev !! "report_id" <> Some (PyStr report_id))
       (get_similar_serious_events_vector coll drugname adverse_event
          symptoms risk_level report_id limit).
Proof.
  cbv zeta.
  assert (Hne : generate_report_id now uuid_hex <> "") by discriminate.
  split; [exact Hne|].
  apply List.Forall_forall. intros ev Hin Heq.
  unfold get_similar_serious_events_vector in Hin.
  apply in_map_iff in Hin as (row & Hev & Hrow).
  destruct (search_similar_events_excludes coll drugname adverse_event
              symptoms (Some risk_level) _ limit true Hne row Hrow)
    as (rid & Hrid & Hdiff).
  subst ev. rewrite lookup_insert_eq in Heq.
  unfold get_or_none, get in Heq. rewrite Hrid in Heq.
  inversion Heq. contradiction.
Qed.

Lemma generated_id_excludes_own_report_witness :
  let report_id :=
    generate_report_id "20240301101500" "0a1b2c3d4e5f60718293a4b5c6d7e8f9" in
  let coll : list entry :=
    [ (report_id, {[ "escalation_decision" := PyStr "ESCALATE" ]},
       "Drug: warfarin");
      ("RPT-20240229080000-FFEE0011",
       {[ "escalation_decision" := PyStr "ESCALATE" ]}, "Drug: warfarin") ] in
  let similar :=
    get_similar_serious_events_vector (H := sample_runtime)
      (H0 := backend_in_memory) coll "warfarin" "rectal bleeding"
      (PyList ["Bleeding"]) "HIGH" report_id 5 in
  report_id = "RPT-20240301101500-0A1B2C3D"
  /\ map (fun ev => ev !! "report_id") similar
     = [Some (PyStr "RPT-20240229080000-FFEE0011")]
  /\ Forall (fun ev => ev !! "report_id" <> Some (PyStr report_id)) similar.
Proof.
  intros report_id coll similar.
  split; [reflexivity|]. split; [vm_compute; reflexivity|].
  apply (generated_id_excludes_own_report (H := sample_runtime)
           (H0 := backend_in_memory) coll "20240301101500"
           "0a1b2c3d4e5f60718293a4b5c6d7e8f9" "warfarin" "rectal bleeding"
           (PyList ["Bleeding"]) "HIGH" 5).
Defined.

(* ===================================================================== *)
(** ** The escalation rule in binary64                                    *)
(* ===================================================================== *)

Section Binary64.

Import Stdlib.Floats.PrimFloat.
Import EscalationEngine64.

#[local] Set Warnings "-inexact-float".

Ltac compare_cases :=
  repeat match goal with
         | H : context [Z.compare ?a ?b] |- _ => destruct (Z.compare_spec a b)
         | |- context [Z.compare ?a ?b] => destruct (Z.compare_spec a b)
         | H : context [PosDef.Pos.compare_cont Eq ?a ?b] |- _ =>
             change (PosDef.Pos.compare_cont Eq a b) with (Pos.compare a b) in *;
             destruct (Pos.compare_spec a b)
         | |- context [PosDef.Pos.compare_cont Eq ?a ?b] =>
             change (PosDef.Pos.compare_cont Eq a b) with (Pos.compare a b) in *;
             destruct (Pos.compare_spec a b)
         end.

(** On the floats of the specification: if [c <= k], [p] is not NaN and
    [p < k] fails, then [c <= p]. *)
Lemma SFleb_below_max (c k p : SpecFloat.spec_float) :
  SpecFloat.SFeqb p p = true -> SpecFloat.SFleb c k = true ->
  SpecFloat.SFltb p k = false -> SpecFloat.SFleb c p = true.
Proof.
  unfold SpecFloat.SFeqb, SpecFloat.SFleb, SpecFloat.SFltb,
    SpecFloat.SFcompare.
  destruct c as [sc|sc| |sc mc ec], k as [sk|sk| |sk mk ek],
    p as [sp|sp| |sp mp ep];
    try destruct sc; try destruct sk; try destruct sp;
    cbn [CompOpp]; intros Hp Hck Hpk;
    try discriminate; try reflexivity;
    compare_cases; cbn [CompOpp] in *; subst;
    try discriminate; try reflexivity; try lia.
Qed.

(** A bound below the second argument of [max] is a bound below the
    maximum, unless the first argument is NaN. *)
Lemma ge_max2 (c p k : float) :
  is_nan p = false -> ge k c = true -> ge (max2 p k) c = true.
Proof.
  unfold ge, max2. intros Hnan Hck. destruct (ltb p k) eqn:Hpk; [exact Hck|].
  unfold is_nan in Hnan. apply negb_false_iff in Hnan.
  rewrite FloatAxioms.eqb_spec in Hnan. rewrite FloatAxioms.leb_spec in *.
  rewrite FloatAxioms.ltb_spec in Hpk.
  exact (SFleb_below_max _ _ _ Hnan Hck Hpk).
Qed.

(** The keyword score takes one of five values. *)
Lemma keyword_score64_values (text : string) :
  let score := fst (calculate_keyword_score text) in
  score = 0%float \/ score = 0.7%float \/ score = 0.8%float
  \/ score = 0.9%float \/ score = 1%float.
Proof.
  cbv zeta. unfold calculate_keyword_score.
  pose proof (keyword_loop_max_cases EscalationEngine.SERIOUS_KEYWORDS
                (lower text) [] 0) as Hmax.
  destruct (EscalationEngine.keyword_loop EscalationEngine.SERIOUS_KEYWORDS
              (lower text) ([], 0)) as [triggered max_score].
  cbn [fst snd] in *.
  destruct Hmax as [-> | [k [Hin _]]]; [left; reflexivity|].
  apply table_weights in Hin.
  assert (Hcases : max_score = 7 \/ max_score = 8 \/ max_score = 9
                   \/ max_score = 10) by lia.
  clear Hin. right.
  destruct Hcases as [-> | [-> | [-> | ->]]]; vm_compute; tauto.
Qed.

(** The scan of the text is the same in both embeddings: the triggered
    keywords are those of [EscalationEngine.calculate_keyword_score]. *)
Lemma triggered_keywords64 (text : string) :
  snd (calculate_keyword_score text)
  = snd (EscalationEngine.calculate_keyword_score text).
Proof.
  unfold calculate_keyword_score, EscalationEngine.calculate_keyword_score.
  destruct (EscalationEngine.keyword_loop EscalationEngine.SERIOUS_KEYWORDS
              (lower text) ([], 0)) as [triggered max_score].
  reflexivity.
Qed.

(** Rounding at the threshold: the float next below 6/7 gives a blended
    score that rounds onto 0.6, and the report is escalated; over the
    rationals it is not. *)
Lemma probability_next_below_threshold :
  match evaluate_escalation (H := sample_runtime64)
          {[ "serious_probability" := PyFloat64 0.8571428571428571 ]}
          "cetirizine" "mild headache" None with
  | Ok r => should_escalate r = true
            /\ final_score r = ESCALATION_THRESHOLD
  | Raise _ => False
  end
  /\ match EscalationEngine.evaluate_escalation (H := sample_runtime)
            {[ "serious_probability" := PyFloat 0.8571428571428571 ]}
            "cetirizine" "mild headache" None with
     | Ok r => EscalationEngine.should_escalate r = false
     | Raise _ => False
     end.
Proof. split; vm_compute; repeat split. Qed.

(** C10, as stated, fails for the one float that is not a number: with a
    keyword of weight 10 in the text and NaN as ML probability,
    [max(nan, 1.0)] is NaN, [final_score >= 0.6] is false and the report
    is escalated by the keyword disjunct alone. *)
Lemma nan_probability_needs_keyword_disjunct :
  match evaluate_escalation (H := sample_runtime64)
          {[ "serious_probability" := PyFloat64 nan ]}
          "warfarin" "patient death reported" None with
  | Ok r => should_escalate r = true
            /\ ge (keyword_score r) 0.8 = true
            /\ is_nan (final_score r) = true
            /\ ge (final_score r) ESCALATION_THRESHOLD = false
  | Raise _ => False
  end.
Proof. vm_compute. repeat split. Qed.

(** C10, amended: in binary64, for every ML probability that is not NaN
    and every text, the second disjunct of the escalation rule is
    redundant: a keyword score of at least 0.8 makes the final score
    [max(ml_probability, keyword_score)], which is at least 0.8, and
    [should_escalate] equals [final_score >= 0.6]. *)
Theorem keyword_disjunct_redundant_unless_nan `{Runtime64}
    (ml_prediction : gmap string pyval64) (drugname adverse_event : string)
    (entities : option (gmap string pyval)) (p : float) :
  get ml_prediction "serious_probability" (PyFloat64 0.5) = PyFloat64 p ->
  is_nan p = false ->
  exists r,
    evaluate_escalation ml_prediction drugname adverse_event entities = Ok r
    /\ (ge (keyword_score r) 0.8 = true ->
        final_score r = max2 p (keyword_score r)
        /\ ge (final_score r) 0.8 = true)
    /\ should_escalate r = ge (final_score r) ESCALATION_THRESHOLD.
Proof.
  intros Hp Hnan. unfold evaluate_escalation. rewrite Hp.
  pose proof (keyword_score64_values
                (EscalationEngine.combined_text drugname adverse_event
                   entities)) as Hvalues.
  destruct (calculate_keyword_score _) as [score triggered].
  cbv zeta in Hvalues. cbn [fst] in Hvalues.
  cbn [as_number bind]. eexists. split; [reflexivity|].
  cbn [should_escalate final_score keyword_score].
  destruct (ge score 0.8) eqn:Hscore.
  - assert (Hthreshold : ge score ESCALATION_THRESHOLD = true).
    { destruct Hvalues as [-> | [-> | [-> | [-> | ->]]]];
        vm_compute in Hscore; try discriminate Hscore; reflexivity. }
    split.
    + intros _. split; [reflexivity|]. now apply ge_max2.
    + rewrite orb_true_r. symmetry. now apply ge_max2.
  - split; [discriminate|]. now rewrite orb_false_r.
Qed.

Lemma keyword_disjunct_redundant_unless_nan_witness :
  exists r,
    evaluate_escalation (H := sample_runtime64)
      {[ "serious_probability" := PyFloat64 0.1 ]}
      "heparin" "cardiac arrest during infusion" None = Ok r
    /\ ge (keyword_score r) 0.8 = true
    /\ should_escalate r = ge (final_score r) ESCALATION_THRESHOLD.
Proof.
  destruct (keyword_disjunct_redundant_unless_nan (H := sample_runtime64)
              {[ "serious_probability" := PyFloat64 0.1 ]}
              "heparin" "cardiac arrest during infusion" None 0.1)
    as (r & Hr & _ & He).
  - reflexivity.
  - reflexivity.
  - exists r. split; [exact Hr|]. split; [|exact He].
    vm_compute in Hr. injection Hr as <-. reflexivity.
Defined.

End Binary64.
